(** * lvlUSD ecosystem dashboard: a shallow embedding of the Python sources

    The development embeds the parts of the repository that fetch,
    scale and report the ecosystem figures:

    - [get_lvlUSD_slvlUSD_supply.py], [get_aUSDC_info.py],
      [get_lvlusd_curve_pool.py]: on-chain reads scaled by [10**d];
    - [get_lvlUSD_portfolio_zapper.py]: the Zapper GraphQL client, the
      [DeFiPosition] dataclass, the loop that builds the positions from
      the payload, the claimable filter, the two reports that sort their
      argument in place, and the script;
    - [stakehouse_situation.py], [lvlusd_pendle_situation.py]: the Morpho
      GraphQL client and the per-market report;
    - [main.py]: the top-level report.

    Python numbers are modelled as they are at run time: [int] is [Z],
    [float] is an IEEE-754 binary64 value ([spec_float] of the Standard
    Library with precision 53 and maximal exponent 1024).  Exceptions are an
    explicit result type, the outside world (JSON-RPC node, HTTP
    endpoints) is an oracle that answers each request from the history
    of the requests made so far, and the program's effects (requests sent,
    lines printed, list objects mutated) are threaded through a state and
    exception monad.  A printed line is kept as its label and its values
    (number formatting is not modelled); readings of the wall clock
    (time stamps, elapsed time) are left out. *)

From Stdlib Require Import ZArith List Bool String Ascii Lia.
From Stdlib Require Import Sorting.Permutation Sorting.Sorted.
From Stdlib Require Import Floats.SpecFloat.
Import ListNotations.

Local Open Scope string_scope.
Local Open Scope Z_scope.

(* ------------------------------------------------------------------ *)
(** * JSON values *)

#[local] Set Warnings "-register-all".
Inductive json :=
| JNull
| JBool (b : bool)
| JInt (n : Z)
| JFloat (f : spec_float)
| JStr (s : string)
| JArr (l : list json)
| JObj (fields : list (string * json)).

(* ------------------------------------------------------------------ *)
(** * Python exceptions *)

(** The failures raised by the [requests] library; all of them are
    subclasses of [requests.RequestException]. *)
Inductive requests_error :=
| Timeout
| ConnectionError
| InvalidJSON               (* [response.json()] on a body that is not JSON *)
| HTTPError (status : Z).   (* [response.raise_for_status()] on a 4xx or 5xx status *)

Inductive exn :=
| ZeroDivisionError
| OverflowError
| KeyError (key : string)
| IndexError
| TypeError
| ValueError
| AttributeError
| JSONDecodeError                               (* [json.JSONDecodeError] *)
| RequestException (e : requests_error)
| Web3Error                                     (* any failure of a contract [call()] *)
| HTTPStatus (status : Z) (reason : string)     (* Exception("HTTP {status}: {reason}...") *)
| GraphQLErrors (errors : json)                 (* Exception("GraphQL Errors: {errors}") *)
| RequestFailed (e : requests_error)            (* Exception("Request failed: {e}") *)
| ParseFailed        (* Exception("Failed to parse JSON response: {e}") *)
| ConnectFailed.     (* Exception("Failed to connect to the Ethereum network") *)

(** [except requests.RequestException]. *)
Definition is_RequestException (e : exn) : option requests_error :=
  match e with
  | RequestException r => Some r
  | _ => None
  end.

(** [except json.JSONDecodeError]: the exception that [response.json()]
    raises (requests 2.27 and later) is a [RequestException] and a
    [json.JSONDecodeError] at once. *)
Definition is_JSONDecodeError (e : exn) : bool :=
  match e with
  | JSONDecodeError | RequestException InvalidJSON => true
  | _ => false
  end.

Inductive result (A : Type) :=
| Ok (a : A)
| Raise (e : exn).
Arguments Ok {A} a.
Arguments Raise {A} e.

Definition is_Ok {A} (r : result A) : bool :=
  match r with Ok _ => true | Raise _ => false end.

Definition rbind {A B} (r : result A) (k : A -> result B) : result B :=
  match r with
  | Ok a => k a
  | Raise e => Raise e
  end.

Fixpoint rmap {A B} (f : A -> result B) (l : list A) : result (list B) :=
  match l with
  | [] => Ok []
  | x :: l' => rbind (f x) (fun y => rbind (rmap f l') (fun ys => Ok (y :: ys)))
  end.

(* ------------------------------------------------------------------ *)
(** * Python floats *)

Module PyFloat.

Definition prec : Z := 53.
Definition emax : Z := 1024.

Definition float := spec_float.

(** [float(n)] for an [int] [n], as used when an [int] meets a [float]
    in arithmetic: the nearest binary64 value, [OverflowError] when [n]
    is out of range. *)
Definition of_int (n : Z) : result float :=
  match n with
  | 0 => Ok (S754_zero false)
  | Zpos p =>
      match binary_normalize prec emax (Zpos p) 0 false with
      | S754_infinity _ => Raise OverflowError
      | f => Ok f
      end
  | Zneg p =>
      match binary_normalize prec emax (Zneg p) 0 true with
      | S754_infinity _ => Raise OverflowError
      | f => Ok f
      end
  end.

(** [a / b] on two [int]s: true division, the correctly rounded
    quotient of the two integers. *)
Definition int_truediv (a b : Z) : result float :=
  match b with
  | 0 => Raise ZeroDivisionError
  | _ =>
      match a with
      | 0 => Ok (S754_zero (b <? 0))
      | _ =>
          let '(q, e, l) :=
            SFdiv_core_binary prec emax (Z.abs a) 0 (Z.abs b) 0 in
          match binary_round_aux prec emax (xorb (a <? 0) (b <? 0)) q e l with
          | S754_infinity _ => Raise OverflowError
          | f => Ok f
          end
      end
  end.

Definition is_zero (x : float) : bool :=
  match x with S754_zero _ => true | _ => false end.

Definition is_nan (x : float) : bool :=
  match x with S754_nan => true | _ => false end.

(** [x / y] on two [float]s. *)
Definition truediv (x y : float) : result float :=
  if is_zero y then Raise ZeroDivisionError else Ok (SFdiv prec emax x y).

Definition mul (x y : float) : float := SFmul prec emax x y.
Definition sub (x y : float) : float := SFsub prec emax x y.
Definition add (x y : float) : float := SFadd prec emax x y.

(** [x < y] and [x > y]. *)
Definition ltb (x y : float) : bool := SFltb x y.
Definition gtb (x y : float) : bool := SFltb y x.

(** [x == n] between a [float] and an [int]: Python compares the two
    numbers exactly.  A finite float [m * 2^e] equals [n] when
    [m * 2^e = n] over the rationals. *)
Definition eq_int (x : float) (n : Z) : bool :=
  match x with
  | S754_zero _ => n =? 0
  | S754_finite s m e =>
      let sm := if s then Zneg m else Zpos m in
      match e with
      | 0 => sm =? n
      | Zpos p => sm * 2 ^ Zpos p =? n
      | Zneg p => sm =? n * 2 ^ Zpos p
      end
  | _ => false
  end.

(** [list.sort(key=..., reverse=True)] and [sorted(..., reverse=True)]:
    the list is reversed, sorted in ascending order of the keys by a
    stable sort that only asks [<] of them, and reversed again.  When no
    key is a NaN the order of the keys is total and the result is the
    one of any stable sort, given here by insertion.  With a NaN among
    the keys the result of CPython's merge sort depends on the runs it
    finds; it is the one given here when the reversed list is a single
    run (no item is less than the item before it), which the sort leaves
    as it is, and nothing is stated of any other list with a NaN. *)
Section Sort.
Variable A : Type.
Variable key : A -> float.

Fixpoint insert (x : A) (l : list A) : list A :=
  match l with
  | [] => [x]
  | y :: l' =>
      if ltb (key y) (key x) then y :: insert x l' else x :: y :: l'
  end.

Fixpoint sort_ascending (l : list A) : list A :=
  match l with
  | [] => []
  | x :: l' => insert x (sort_ascending l')
  end.

Definition sort_reverse (l : list A) : list A :=
  rev (sort_ascending (rev l)).
End Sort.
Arguments insert {A} key x l.
Arguments sort_ascending {A} key l.
Arguments sort_reverse {A} key l.

(** [n > x] between an [int] and a [float], compared exactly as Python
    does: [signed s m * 2^e] is the value of a finite float. *)
Definition signed (s : bool) (m : positive) : Z := if s then Zneg m else Zpos m.

Definition int_gtb (n : Z) (x : float) : bool :=
  match x with
  | S754_nan => false
  | S754_infinity s => s
  | S754_zero _ => 0 <? n
  | S754_finite s m e =>
      match e with
      | 0 => signed s m <? n
      | Zpos p => signed s m * 2 ^ Zpos p <? n
      | Zneg p => signed s m <? n * 2 ^ Zpos p
      end
  end.

(** [float(b)] for a [bool]. *)
Definition of_bool (b : bool) : float :=
  if b then S754_finite false 4503599627370496 (-52) else S754_zero false.

(** The literals of the sources. *)
Definition f100 : float := Eval vm_compute in
  binary_normalize prec emax 100 0 false.                (* 100 *)
Definition f0_01 : float := Eval vm_compute in
  match int_truediv 1 100 with Ok f => f | Raise _ => S754_nan end.  (* 0.01 *)
Definition f1_0 : float := Eval vm_compute in
  binary_normalize prec emax 1 0 false.                  (* 1.0 *)

End PyFloat.

(* ------------------------------------------------------------------ *)
(** * The Python operations the sources apply to JSON values *)

Module Py.

(** Lookup in a [dict] given by its items. *)
Fixpoint lookup (k : string) (fields : list (string * json)) : option json :=
  match fields with
  | [] => None
  | (k', v) :: rest => if String.eqb k k' then Some v else lookup k rest
  end.

(** [k in d] for a [dict] [d]. *)
Definition has_key (k : string) (fields : list (string * json)) : bool :=
  match lookup k fields with Some _ => true | None => false end.

(** [j[k]] with a string key: [KeyError] on a [dict] without the key,
    [TypeError] on anything that is not a [dict]. *)
Definition subscript (j : json) (k : string) : result json :=
  match j with
  | JObj fields =>
      match lookup k fields with
      | Some v => Ok v
      | None => Raise (KeyError k)
      end
  | _ => Raise TypeError
  end.

(** [j.get(k)]: [None] when the key is missing; only a [dict] has the
    method. *)
Definition get (j : json) (k : string) : result json :=
  match j with
  | JObj fields =>
      match lookup k fields with
      | Some v => Ok v
      | None => Ok JNull
      end
  | _ => Raise AttributeError
  end.

(** Truth value of an object, as tested by [if j:]. *)
Definition truthy (j : json) : bool :=
  match j with
  | JNull => false
  | JBool b => b
  | JInt n => negb (n =? 0)
  | JFloat f => negb (PyFloat.is_zero f)
  | JStr s => negb (String.eqb s EmptyString)
  | JArr l => match l with [] => false | _ => true end
  | JObj fields => match fields with [] => false | _ => true end
  end.

(** The items visited by [for x in j]. *)
Definition iter (j : json) : result (list json) :=
  match j with
  | JArr l => Ok l
  | JObj fields => Ok (map (fun kv => JStr (fst kv)) fields)
  | JStr s => Ok (map (fun c => JStr (String c EmptyString)) (list_ascii_of_string s))
  | _ => Raise TypeError
  end.

(** [j.get(k, default)]. *)
Definition get_default (j : json) (k : string) (default : json) : result json :=
  match j with
  | JObj fields =>
      match lookup k fields with
      | Some v => Ok v
      | None => Ok default
      end
  | _ => Raise AttributeError
  end.

(** [k in j] for a string [k]: a key of a [dict], an item of a
    [list], a substring of a [str]. *)
Definition contains (k : string) (j : json) : result bool :=
  match j with
  | JObj fields => Ok (has_key k fields)
  | JArr l =>
      Ok (existsb (fun x => match x with JStr s => String.eqb s k | _ => false end) l)
  | JStr s => Ok (match String.index 0 k s with Some _ => true | None => false end)
  | _ => Raise TypeError
  end.

(** The number shown by a [:.2f] or [:.6f] format. *)
Definition format_f (j : json) : result PyFloat.float :=
  match j with
  | JFloat f => Ok f
  | JInt n => PyFloat.of_int n
  | JBool b => Ok (PyFloat.of_bool b)
  | JStr _ => Raise ValueError
  | _ => Raise TypeError
  end.

(** [j > x] for a float literal [x]. *)
Definition gt (j : json) (x : PyFloat.float) : result bool :=
  match j with
  | JFloat f => Ok (PyFloat.gtb f x)
  | JInt n => Ok (PyFloat.int_gtb n x)
  | JBool b => Ok (PyFloat.int_gtb (if b then 1 else 0) x)
  | _ => Raise TypeError
  end.

(** [j == s] for a string literal [s]. *)
Definition eq_str (j : json) (s : string) : bool :=
  match j with
  | JStr t => String.eqb t s
  | _ => false
  end.

(** A number as Python compares and adds it: a [bool] is the [int] 0
    or 1. *)
Inductive number :=
| Int (n : Z)
| Float (f : PyFloat.float).

Definition as_number (j : json) : option number :=
  match j with
  | JBool b => Some (Int (if b then 1 else 0))
  | JInt n => Some (Int n)
  | JFloat f => Some (Float f)
  | _ => None
  end.

(** [hash(k)] is defined: a [list] and a [dict] are unhashable. *)
Definition hashable (k : json) : bool :=
  match k with
  | JArr _ | JObj _ => false
  | _ => true
  end.

(** Whether a dictionary takes [a] and [b], both hashable, for the same
    key: they are the same object or [a == b].  Numbers are compared by
    value whatever their type ([True == 1 == 1.0]); the JSON decoder
    returns one and the same object for every [NaN] of a body. *)
Definition key_eq (a b : json) : bool :=
  match a, b with
  | JNull, JNull => true
  | JStr s, JStr t => String.eqb s t
  | _, _ =>
      match as_number a, as_number b with
      | Some (Int m), Some (Int n) => m =? n
      | Some (Int m), Some (Float g) => PyFloat.eq_int g m
      | Some (Float f), Some (Int n) => PyFloat.eq_int f n
      | Some (Float f), Some (Float g) =>
          SFeqb f g || (PyFloat.is_nan f && PyFloat.is_nan g)
      | _, _ => false
      end
  end.

(** [k in d] for a dictionary [d] given by its items, in insertion
    order: [TypeError] on a key that cannot be hashed. *)
Definition in_dict {V} (k : json) (d : list (json * V)) : result bool :=
  if hashable k then Ok (existsb (fun kv => key_eq (fst kv) k) d)
  else Raise TypeError.

(** [d[k].append(x)] for a key that [d] holds. *)
Fixpoint append_at (k x : json) (d : list (json * list json))
  : list (json * list json) :=
  match d with
  | [] => []
  | (k', xs) :: d' =>
      if key_eq k' k then (k', (xs ++ [x])%list) :: d'
      else (k', xs) :: append_at k x d'
  end.

(** [a + b]. *)
Definition add (a b : json) : result json :=
  match as_number a, as_number b with
  | Some (Int m), Some (Int n) => Ok (JInt (m + n))
  | Some (Int m), Some (Float g) =>
      rbind (PyFloat.of_int m) (fun f => Ok (JFloat (PyFloat.add f g)))
  | Some (Float f), Some (Int n) =>
      rbind (PyFloat.of_int n) (fun g => Ok (JFloat (PyFloat.add f g)))
  | Some (Float f), Some (Float g) => Ok (JFloat (PyFloat.add f g))
  | _, _ =>
      match a, b with
      | JStr s, JStr t => Ok (JStr (s ++ t))
      | JArr l, JArr m => Ok (JArr (l ++ m)%list)
      | _, _ => Raise TypeError
      end
  end.

End Py.

(* ------------------------------------------------------------------ *)
(** * The outside world *)

(** The contract objects built when the modules are imported. *)
Inductive contract :=
| lvlUSD_contract
| slvlUSD_contract
| aEthUSDC_contract
| variableDebtEthUSDC_contract
| lvlusd_usdc_pool_contract
| lvlusd_slvlusd_pool_contract.

(** The three [Web3] connections ([web3] of the supply, aUSDC and Curve
    modules). *)
Inductive web3_handle := web3_supply | web3_aUSDC | web3_curve.

(** The view functions of the ABIs. *)
Inductive eth_fn :=
| totalSupply
| get_balances
| balances (i : Z).

(** The functions that the ABI given to each contract declares. *)
Definition in_abi (c : contract) (f : eth_fn) : bool :=
  match c, f with
  | lvlUSD_contract, totalSupply
  | slvlUSD_contract, totalSupply
  | aEthUSDC_contract, totalSupply
  | variableDebtEthUSDC_contract, totalSupply => true
  | lvlusd_usdc_pool_contract, get_balances => true
  | lvlusd_slvlusd_pool_contract, balances _ => true
  | _, _ => false
  end.

(** What a contract call decodes to: [uint256] or [uint256[]]. *)
Inductive abi_value :=
| Uint (n : Z)
| UintArray (l : list Z).

Inductive endpoint :=
| API_URL       (* https://public.zapper.xyz/graphql *)
| base_url.     (* https://api.morpho.org/graphql *)

(** The GraphQL documents sent by the clients, with their variables. *)
Inductive graphql :=
| SchemaTest
| PortfolioV2 (addresses : list string) (chainIds : list Z)
| GetMarketById (uniqueKey : string) (chainId : Z).

Inductive request :=
| EthCall (c : contract) (f : eth_fn)
| IsConnected (h : web3_handle)
| HttpPost (url : endpoint) (q : graphql) (timeout : option Z).

Record response := {
  status_code : Z;
  reason : string;
  text : string;
  body : option json        (* [None]: the text is not JSON *)
}.

Inductive http_outcome :=
| Responded (r : response)
| Failed (e : requests_error).

(** The world answers a request from the requests already made (most
    recent first), so that a source may fail once and then recover. *)
Record world := {
  eth_call : list request -> contract -> eth_fn -> result abi_value;
  is_connected : list request -> web3_handle -> bool;
  http_post : list request -> endpoint -> graphql -> option Z -> http_outcome
}.

(* ------------------------------------------------------------------ *)
(** * The [DeFiPosition] dataclass and the objects on the heap *)

Record DeFiPosition := {
  app_name : string;
  app_slug : string;
  network : string;
  chain_id : Z;
  position_type : string;
  balance_usd : PyFloat.float;
  position_address : string;
  symbol : string;
  balance : PyFloat.float;
  underlying_tokens : list json;
  display_label : string;
  meta_type : string
}.

(** Position objects and list objects live on a heap and are named by
    their address; a Python list holds the addresses of its items, so two
    lists may share their positions. *)
Definition addr := nat.

Record heap := {
  objs : list DeFiPosition;       (* position objects, by address *)
  lists : list (list addr)        (* list objects, by address *)
}.

Definition empty_heap : heap := {| objs := []; lists := [] |}.

(** The positions a list of addresses denotes; an address that names no
    object is skipped (no Python reference is ever dangling). *)
Fixpoint deref (os : list DeFiPosition) (l : list addr) : list DeFiPosition :=
  match l with
  | [] => []
  | a :: l' =>
      match nth_error os a with
      | Some p => p :: deref os l'
      | None => deref os l'
      end
  end.

Definition list_at (h : heap) (l : addr) : list addr :=
  match nth_error (lists h) l with
  | Some xs => xs
  | None => []
  end.

Fixpoint replace_nth {A} (n : nat) (x : A) (l : list A) : list A :=
  match l, n with
  | [], _ => []
  | _ :: l', O => x :: l'
  | y :: l', S n' => y :: replace_nth n' x l'
  end.

(* ------------------------------------------------------------------ *)
(** * Printed lines *)

Inductive line :=
| Header (title : string)                        (* [print_header(title)] and banners *)
| Text (s : string)                              (* a fixed message *)
| Amount (label : string) (v : PyFloat.float)    (* a labelled number *)
| Percent (label : string) (v : PyFloat.float)   (* f"{label}: {v:.2f}%" *)
| Raw (label : string) (vs : list abi_value)     (* labelled on-chain values *)
| Described (label : string) (v : json)          (* a labelled JSON value *)
| Problem (label : string) (e : exn)             (* a message that shows an exception *)
| Listed (i : nat) (p : DeFiPosition)            (* f"{i}. {position}" *)
| Field (label : string) (values : list string)  (* a labelled, comma-separated list *)
| Numbers (label : string) (values : list Z)
| Count (label : string) (n : nat)
| Breakdown (name : string) (count : nat) (total : PyFloat.float)
| AppRow (app net : string) (count : nat) (total : PyFloat.float)
| TokenRow (meta : option json) (sym : json)
           (amount : option PyFloat.float) (usd : PyFloat.float)
| MarketAmount (label : string) (v : PyFloat.float) (unit : json)
                                                 (* f"{label}: {v:,.2f} {unit} (${v:,.2f})" *)
| RewardPercent (sym : json) (v : PyFloat.float). (* f"  {symbol}: Supply APR {v:.2f}%" *)

(* ------------------------------------------------------------------ *)
(** * The state and exception monad *)

Record state := {
  sent : list request;     (* requests made so far, most recent first *)
  out : list line;         (* lines printed so far, most recent first *)
  hp : heap
}.

Definition initial : state := {| sent := []; out := []; hp := empty_heap |}.

Definition M (A : Type) : Type := state -> result A * state.

Definition ret {A} (a : A) : M A := fun s => (Ok a, s).

Definition raise {A} (e : exn) : M A := fun s => (Raise e, s).

Definition bind {A B} (m : M A) (k : A -> M B) : M B :=
  fun s =>
    match m s with
    | (Ok a, s') => k a s'
    | (Raise e, s') => (Raise e, s')
    end.

(** [try: m  except Exception as e: h e]. *)
Definition try_except {A} (m : M A) (h : exn -> M A) : M A :=
  fun s =>
    match m s with
    | (Ok a, s') => (Ok a, s')
    | (Raise e, s') => h e s'
    end.

Definition lift {A} (r : result A) : M A := fun s => (r, s).

Definition print (l : line) : M unit :=
  fun s => (Ok tt, {| sent := sent s; out := l :: out s; hp := hp s |}).

Declare Scope monad_scope.
Delimit Scope monad_scope with monad.
Notation "x <- m ;; k" := (bind m (fun x => k))
  (at level 61, m at next level, right associativity) : monad_scope.
Notation "m ;; k" := (bind m (fun _ => k))
  (at level 61, right associativity) : monad_scope.
Local Open Scope monad_scope.

(** [for x in xs: body x]. *)
Fixpoint for_each {A} (xs : list A) (body : A -> M unit) : M unit :=
  match xs with
  | [] => ret tt
  | x :: xs' => body x ;; for_each xs' body
  end.

Section Requests.

Variable w : world.

Definition record_request (r : request) (s : state) : state :=
  {| sent := r :: sent s; out := out s; hp := hp s |}.

(** [contract.functions.f().call()], for a function [f] that the ABI of
    the contract declares ([in_abi]), as it is at every call of the
    sources: one request to the node.  (For a function that the ABI does
    not declare [web3] raises before any request is made; no statement
    below is about such a call.) *)
Definition call (c : contract) (f : eth_fn) : M abi_value :=
  fun s => (eth_call w (sent s) c f, record_request (EthCall c f) s).

(** [web3.is_connected()]. *)
Definition connected (h : web3_handle) : M bool :=
  fun s => (Ok (is_connected w (sent s) h), record_request (IsConnected h) s).

(** [requests.post(url, json=payload, timeout=t)]: a response, or a
    [requests.RequestException]. *)
Definition post (url : endpoint) (q : graphql) (t : option Z) : M response :=
  fun s =>
    (match http_post w (sent s) url q t with
     | Responded r => Ok r
     | Failed e => Raise (RequestException e)
     end,
     record_request (HttpPost url q t) s).

End Requests.

(** [response.json()]. *)
Definition response_json (r : response) : result json :=
  match body r with
  | Some j => Ok j
  | None => Raise (RequestException InvalidJSON)
  end.

(** [response.raise_for_status()]. *)
Definition raise_for_status (r : response) : result unit :=
  if (400 <=? status_code r) && (status_code r <? 600)
  then Raise (RequestException (HTTPError (status_code r)))
  else Ok tt.

(** [x / 10**d] for a value read on chain. *)
Definition scale (v : abi_value) (d : Z) : result PyFloat.float :=
  match v with
  | Uint n => PyFloat.int_truediv n (10 ^ d)
  | UintArray _ => Raise TypeError
  end.

(* ------------------------------------------------------------------ *)
(** * get_lvlUSD_slvlUSD_supply.py *)

Module Supply.

(** [percentage = (slvlUSD_total_supply / lvlUSD_total_supply) * 100]
    (line 44; [main.py] line 73 and [dashboard.py] repeat the
    expression). *)
Definition percentage (slvlUSD_total_supply lvlUSD_total_supply : PyFloat.float)
  : result PyFloat.float :=
  rbind (PyFloat.truediv slvlUSD_total_supply lvlUSD_total_supply)
        (fun ratio => Ok (PyFloat.mul ratio PyFloat.f100)).

Record figures := {
  lvlUSD_total_supply : PyFloat.float;
  slvlUSD_total_supply : PyFloat.float;
  percentage_value : PyFloat.float
}.

Section WithWorld.
Variable w : world.

(** The statements run when the module is imported (lines 40-49). *)
Definition module_body : M figures :=
  raw_l <- call w lvlUSD_contract totalSupply ;;
  l <- lift (scale raw_l 18) ;;
  raw_s <- call w slvlUSD_contract totalSupply ;;
  sl <- lift (scale raw_s 18) ;;
  pct <- lift (percentage sl l) ;;
  print (Amount "Total supply of lvlUSD" l) ;;
  print (Amount "Total supply of slvlUSD" sl) ;;
  print (Percent "Percentage of slvlUSD over lvlUSD" pct) ;;
  ret {| lvlUSD_total_supply := l;
         slvlUSD_total_supply := sl;
         percentage_value := pct |}.
End WithWorld.

End Supply.

(* ------------------------------------------------------------------ *)
(** * get_aUSDC_info.py *)

Module AUSDC.

Record figures := {
  total_supply : PyFloat.float;
  total_borrow : PyFloat.float;
  available_liquidity : PyFloat.float
}.

Section WithWorld.
Variable w : world.

(** The statements run when the module is imported (lines 40-48). *)
Definition module_body : M figures :=
  raw_s <- call w aEthUSDC_contract totalSupply ;;
  sup <- lift (scale raw_s 6) ;;
  raw_b <- call w variableDebtEthUSDC_contract totalSupply ;;
  bor <- lift (scale raw_b 6) ;;
  let liq := PyFloat.sub sup bor in
  print (Amount "Total Supply USD" sup) ;;
  print (Amount "Total Borrow USD" bor) ;;
  print (Amount "Available Liquidity" liq) ;;
  ret {| total_supply := sup; total_borrow := bor; available_liquidity := liq |}.
End WithWorld.

End AUSDC.

(* ------------------------------------------------------------------ *)
(** * get_lvlusd_curve_pool.py *)

Module Curve.

(** [balances[i]] on what [get_balances().call()] returned. *)
Definition item (v : abi_value) (i : nat) : result abi_value :=
  match v with
  | UintArray l =>
      match nth_error l i with
      | Some n => Ok (Uint n)
      | None => Raise IndexError
      end
  | Uint _ => Raise TypeError
  end.

Section WithWorld.
Variable w : world.

Definition get_token_balances (pool_contract : contract) (pool_name : string)
           (abi_type : string) : M unit :=
  try_except
    (r <- (if String.eqb abi_type "get_balances" then
             (* lvlUSD/USDC pool *)
             bs <- call w pool_contract get_balances ;;
             b0 <- lift (item bs 0) ;;
             lvlUSD_balance <- lift (scale b0 6) ;;
             b1 <- lift (item bs 1) ;;
             other_token_balance <- lift (scale b1 18) ;;
             ret ([bs], lvlUSD_balance, other_token_balance)
           else
             (* lvlUSD/slvlUSD pool *)
             b0 <- call w pool_contract (balances 0) ;;
             b1 <- call w pool_contract (balances 1) ;;
             lvlUSD_balance <- lift (scale b0 18) ;;
             other_token_balance <- lift (scale b1 18) ;;
             ret ([b0; b1], lvlUSD_balance, other_token_balance)) ;;
     let '(bs, lvlUSD_balance, other_token_balance) := r in
     print (Raw (pool_name ++ " Token Balances:") bs) ;;
     print (Amount (pool_name ++ " lvlUSD Balance:") lvlUSD_balance) ;;
     if String.eqb pool_name "lvlUSD/USDC Pool"
     then print (Amount (pool_name ++ " USDC Balance:") other_token_balance)
     else print (Amount (pool_name ++ " slvlUSD Balance:") other_token_balance))
    (fun e => print (Problem ("Error for " ++ pool_name ++ ":") e)).

(** The statements run when the module is imported (lines 8-9 and
    104-105). *)
Definition module_body : M unit :=
  ok <- connected w web3_curve ;;
  (if negb ok then raise ConnectFailed else ret tt) ;;
  get_token_balances lvlusd_usdc_pool_contract "lvlUSD/USDC Pool" "get_balances" ;;
  get_token_balances lvlusd_slvlusd_pool_contract "lvlUSD/slvlUSD Pool" "balances".

End WithWorld.

End Curve.

(* ------------------------------------------------------------------ *)
(** * get_lvlUSD_portfolio_zapper.py *)

Module Zapper.

Definition API_KEY : string := "d4039e1b-6ff5-4931-903e-9ea82316c187".

Definition SUPPORTED_CHAIN_IDS : list (string * Z) :=
  [ ("Ethereum", 1); ("Polygon", 137); ("BSC", 56); ("Arbitrum", 42161);
    ("Optimism", 10); ("Avalanche", 43114); ("Fantom", 250); ("Base", 8453);
    ("ZKsync", 324) ].

Record app_entry := {
  entry_app_name : string;
  entry_network : string;
  entry_count : nat;
  entry_total_usd : PyFloat.float
}.

Record meta_entry := {
  meta_count : nat;
  meta_total_usd : PyFloat.float
}.

(** The dictionary returned by [get_defi_summary]; the two inner
    dictionaries keep their insertion order. *)
Record summary := {
  addresses : list string;
  chain_ids : option (list Z);
  chain_names : list string;
  total_value_usd : json;
  position_count : nat;
  unique_apps : nat;
  app_summary : list (string * app_entry);
  meta_type_summary : list (string * meta_entry)
}.

(** The first name of [SUPPORTED_CHAIN_IDS] with the given id. *)
Fixpoint chain_name (cid : Z) (table : list (string * Z)) : list string :=
  match table with
  | [] => []
  | (name, id) :: rest => if id =? cid then [name] else chain_name cid rest
  end.

Fixpoint add_app (app_key : string) (position : DeFiPosition)
         (d : list (string * app_entry)) : list (string * app_entry) :=
  match d with
  | [] => [(app_key, {| entry_app_name := app_name position;
                        entry_network := network position;
                        entry_count := 1;
                        entry_total_usd := balance_usd position |})]
  | (k, e) :: d' =>
      if String.eqb k app_key
      then (k, {| entry_app_name := entry_app_name e;
                  entry_network := entry_network e;
                  entry_count := entry_count e + 1;
                  entry_total_usd :=
                    PyFloat.add (entry_total_usd e) (balance_usd position) |}) :: d'
      else (k, e) :: add_app app_key position d'
  end.

Fixpoint add_meta (position : DeFiPosition)
         (d : list (string * meta_entry)) : list (string * meta_entry) :=
  match d with
  | [] => [(meta_type position, {| meta_count := 1;
                                   meta_total_usd := balance_usd position |})]
  | (k, e) :: d' =>
      if String.eqb k (meta_type position)
      then (k, {| meta_count := meta_count e + 1;
                  meta_total_usd :=
                    PyFloat.add (meta_total_usd e) (balance_usd position) |}) :: d'
      else (k, e) :: add_meta position d'
  end.

(** The heap operations of the module. *)

(** A new list object holding newly created positions. *)
Definition new_positions (ps : list DeFiPosition) : M addr :=
  fun s =>
    let h := hp s in
    (Ok (List.length (lists h)),
     {| sent := sent s; out := out s;
        hp := {| objs := (objs h ++ ps)%list;
                 lists := (lists h
                           ++ [seq (List.length (objs h)) (List.length ps)])%list |} |}).

(** A new list object holding existing positions. *)
Definition new_list (items : list addr) : M addr :=
  fun s =>
    let h := hp s in
    (Ok (List.length (lists h)),
     {| sent := sent s; out := out s;
        hp := {| objs := objs h; lists := (lists h ++ [items])%list |} |}).

(** The items of a list object. *)
Definition items_of (l : addr) : M (list addr) :=
  fun s => (Ok (list_at (hp s) l), s).

(** The fields of a position object. *)
Definition position_at (a : addr) : M DeFiPosition :=
  fun s =>
    match nth_error (objs (hp s)) a with
    | Some p => (Ok p, s)
    | None => (Raise AttributeError, s)
    end.

Definition positions_of (l : addr) : M (list DeFiPosition) :=
  fun s => (Ok (deref (objs (hp s)) (list_at (hp s) l)), s).

(** [balance_usd] of the object at an address, the key of the sorts. *)
Definition balance_at (os : list DeFiPosition) (a : addr) : PyFloat.float :=
  match nth_error os a with
  | Some p => balance_usd p
  | None => S754_zero false
  end.

(** [l.sort(key=lambda x: x.balance_usd, reverse=True)]: the list object
    at [l] is overwritten, no other object is touched. *)
Definition sort_by_balance (l : addr) : M unit :=
  fun s =>
    let h := hp s in
    (Ok tt,
     {| sent := sent s; out := out s;
        hp := {| objs := objs h;
                 lists := replace_nth l
                            (PyFloat.sort_reverse (balance_at (objs h)) (list_at h l))
                            (lists h) |} |}).

(** [enumerate(xs, 1)]. *)
Fixpoint enumerate {A} (i : nat) (xs : list A) : list (nat * A) :=
  match xs with
  | [] => []
  | x :: xs' => (i, x) :: enumerate (S i) xs'
  end.

(** ** The client ([class ZapperAPI]) *)

Section WithWorld.
Variable w : world.

(** The loop of [get_defi_positions] that turns the fetched payload
    into [DeFiPosition] values (lines 232-298): a pure function of the
    payload, which fails where a subscript of the payload fails. *)
Variable decode_positions : json -> result (list DeFiPosition).

Definition fetch_defi_positions (addresses : list string)
           (chain_ids : option (list Z)) : M json :=
  let chain_ids := match chain_ids with None => [1] | Some c => c end in
  let valid_chain_ids := map snd SUPPORTED_CHAIN_IDS in
  let invalid_chains :=
    filter (fun cid => negb (existsb (Z.eqb cid) valid_chain_ids)) chain_ids in
  chain_ids <-
    match invalid_chains with
    | [] => ret chain_ids
    | _ =>
        print (Numbers "Warning: Unsupported chain IDs will be ignored:"
                       invalid_chains) ;;
        ret (filter (fun cid => existsb (Z.eqb cid) valid_chain_ids) chain_ids)
    end ;;
  try_except
    (response <- post w API_URL (PortfolioV2 addresses chain_ids) (Some 30) ;;
     if negb (status_code response =? 200) then
       raise (HTTPStatus (status_code response) (reason response))
     else
       data <- lift (response_json response) ;;
       has_errors <- lift (Py.contains "errors" data) ;;
       if has_errors then
         errors <- lift (Py.subscript data "errors") ;;
         raise (GraphQLErrors errors)
       else
         lift (Py.subscript data "data"))
    (fun e =>
       match is_RequestException e with
       | Some r => raise (RequestFailed r)
       | None => if is_JSONDecodeError e then raise ParseFailed else raise e
       end).

Definition get_defi_positions (addresses : list string)
           (chain_ids : option (list Z)) : M addr :=
  portfolio_data <- fetch_defi_positions addresses chain_ids ;;
  positions <- lift (decode_positions portfolio_data) ;;
  new_positions positions.

Definition get_defi_summary (addresses : list string)
           (chain_ids : option (list Z)) : M summary :=
  portfolio_data <- fetch_defi_positions addresses chain_ids ;;
  defi_positions <- get_defi_positions addresses chain_ids ;;
  total_value_usd <-
    lift (rbind (Py.subscript portfolio_data "portfolioV2") (fun a =>
          rbind (Py.subscript a "appBalances") (fun b =>
          Py.subscript b "totalBalanceUSD"))) ;;
  positions <- positions_of defi_positions ;;
  let chain_names :=
    match chain_ids with
    | Some cs => flat_map (fun cid => chain_name cid SUPPORTED_CHAIN_IDS) cs
    | None => []
    end in
  let app_summary :=
    fold_left
      (fun d position =>
         add_app (app_name position ++ " (" ++ network position ++ ")") position d)
      positions [] in
  let meta_type_summary :=
    fold_left
      (fun d position =>
         if String.eqb (meta_type position) EmptyString then d else add_meta position d)
      positions [] in
  ret {| addresses := addresses;
         chain_ids := chain_ids;
         chain_names := chain_names;
         total_value_usd := total_value_usd;
         position_count := List.length positions;
         unique_apps := List.length app_summary;
         app_summary := app_summary;
         meta_type_summary := meta_type_summary |}.

Definition test_api_connection (api_key : string) : M bool :=
  print (Text "Testing API connection...") ;;
  try_except
    (response <- post w API_URL SchemaTest (Some 10) ;;
     print (Numbers "Response Status:" [status_code response]) ;;
     if status_code response =? 200 then
       data <- lift (response_json response) ;;
       has_errors <- lift (Py.contains "errors" data) ;;
       if negb has_errors then
         print (Text "API connection successful!") ;;
         ret true
       else
         errors <- lift (Py.subscript data "errors") ;;
         print (Described "GraphQL errors:" errors) ;;
         ret false
     else
       print (Field "HTTP Error:" [text response]) ;;
       ret false)
    (fun e =>
       print (Problem "Connection test failed:" e) ;;
       ret false).

End WithWorld.

(** ** The reports *)

(** One line under a position of the portfolio report (lines 420-431). *)
Definition print_underlying (position : DeFiPosition) (token_info : json) : M unit :=
  if String.eqb (position_type position) "contract-position" then
    token_data <- lift (Py.get_default token_info "token" (JObj [])) ;;
    meta <- lift (Py.get_default token_info "metaType" (JStr EmptyString)) ;;
    sym <- lift (Py.get_default token_data "symbol" (JStr "Unknown")) ;;
    usd <- lift (Py.get_default token_data "balanceUSD" (JInt 0)) ;;
    shown <- lift (Py.gt usd PyFloat.f0_01) ;;
    if shown then
      v <- lift (Py.format_f usd) ;;
      print (TokenRow (Some meta) sym None v)
    else ret tt
  else
    sym <- lift (Py.get_default token_info "symbol" (JStr "Unknown")) ;;
    usd <- lift (Py.get_default token_info "balanceUSD" (JInt 0)) ;;
    shown <- lift (Py.gt usd PyFloat.f0_01) ;;
    if shown then
      v <- lift (Py.format_f usd) ;;
      print (TokenRow None sym None v)
    else ret tt.

Definition print_defi_report (summary : summary) (defi_positions : addr) : M unit :=
  print (Header "ZAPPER DeFi PORTFOLIO REPORT") ;;
  print (Field "Addresses:" (addresses summary)) ;;
  print (Field "Chains:" (chain_names summary)) ;;
  print (Numbers "Chain IDs:"
                 (match chain_ids summary with Some cs => cs | None => [] end)) ;;
  total <- lift (Py.format_f (total_value_usd summary)) ;;
  print (Amount "Total DeFi Portfolio Value:" total) ;;
  print (Count "Total Positions:" (position_count summary)) ;;
  print (Count "Unique Apps:" (unique_apps summary)) ;;
  match meta_type_summary summary with
  | [] => ret tt
  | items =>
      print (Header "POSITION TYPES SUMMARY") ;;
      for_each (PyFloat.sort_reverse (fun kv => meta_total_usd (snd kv)) items)
               (fun kv => print (Breakdown (fst kv) (meta_count (snd kv))
                                           (meta_total_usd (snd kv))))
  end ;;
  print (Header "DeFi POSITIONS DETAILS") ;;
  sort_by_balance defi_positions ;;
  items <- items_of defi_positions ;;
  for_each (enumerate 1 items)
           (fun ia =>
              position <- position_at (snd ia) ;;
              print (Listed (fst ia) position) ;;
              match underlying_tokens position with
              | [] => ret tt
              | tokens =>
                  if PyFloat.gtb (balance_usd position) PyFloat.f1_0
                  then for_each (firstn 3 tokens) (print_underlying position)
                  else ret tt
              end) ;;
  print (Header "SUMMARY BY APPLICATION") ;;
  for_each (PyFloat.sort_reverse (fun kv => entry_total_usd (snd kv))
                                 (app_summary summary))
           (fun kv => print (AppRow (entry_app_name (snd kv)) (entry_network (snd kv))
                                    (entry_count (snd kv)) (entry_total_usd (snd kv)))).

(** The test of the comprehension of [get_claimable_positions]. *)
Definition claimable (pos : DeFiPosition) : bool :=
  String.eqb (meta_type pos) "CLAIMABLE"
  && PyFloat.gtb (balance_usd pos) PyFloat.f0_01.

Definition claimable_at (os : list DeFiPosition) (a : addr) : bool :=
  match nth_error os a with
  | Some pos => claimable pos
  | None => false
  end.

(** [[pos for pos in defi_positions if ...]]: a new list object that
    shares the selected positions with [defi_positions]. *)
Definition get_claimable_positions (defi_positions : addr) : M addr :=
  fun s =>
    new_list (filter (claimable_at (objs (hp s))) (list_at (hp s) defi_positions)) s.

(** One line under a position of the claimable report (lines 464-469). *)
Definition print_reward (token_info : json) : M unit :=
  token_data <- lift (Py.get_default token_info "token" (JObj [])) ;;
  sym <- lift (Py.get_default token_data "symbol" (JStr "Unknown")) ;;
  amount <- lift (Py.get_default token_data "balance" (JInt 0)) ;;
  usd <- lift (Py.get_default token_data "balanceUSD" (JInt 0)) ;;
  shown <- lift (Py.gt usd PyFloat.f0_01) ;;
  if shown then
    a <- lift (Py.format_f amount) ;;
    v <- lift (Py.format_f usd) ;;
    print (TokenRow None sym (Some a) v)
  else ret tt.

Definition print_claimable_report (claimable_positions : addr) : M unit :=
  items <- items_of claimable_positions ;;
  match items with
  | [] => print (Text "No claimable rewards found.")
  | _ =>
      positions <- positions_of claimable_positions ;;
      let total_claimable :=
        fold_left (fun acc pos => PyFloat.add acc (balance_usd pos))
                  positions (S754_zero false) in
      print (Header "CLAIMABLE REWARDS SUMMARY") ;;
      print (Amount "Total Claimable Value:" total_claimable) ;;
      print (Count "Number of Claimable Positions:" (List.length items)) ;;
      print (Text "Claimable Positions:") ;;
      sort_by_balance claimable_positions ;;
      items <- items_of claimable_positions ;;
      for_each (enumerate 1 items)
               (fun ia =>
                  position <- position_at (snd ia) ;;
                  print (Listed (fst ia) position) ;;
                  for_each (underlying_tokens position) print_reward)
  end.

(** ** The positions as [get_defi_positions] builds them

    The dataclass does not check its annotations: a field of a position
    holds whatever value of the payload was passed for it.  [Raw] is the
    class and the loop of [get_defi_positions] (lines 229-298) on such
    values.  The reports above read the fields at the types of the
    annotations; for them the loop is the parameter [decode_positions]. *)

Module Raw.

Record DeFiPosition := {
  app_name : json;
  app_slug : json;
  network : json;
  chain_id : json;
  position_type : json;
  balance_usd : json;
  position_address : json;
  symbol : json;
  balance : json;
  underlying_tokens : json;
  display_label : json;
  meta_type : json
}.

Definition __post_init__ (self : DeFiPosition) : DeFiPosition :=
  match underlying_tokens self with
  | JNull =>
      {| app_name := app_name self;
         app_slug := app_slug self;
         network := network self;
         chain_id := chain_id self;
         position_type := position_type self;
         balance_usd := balance_usd self;
         position_address := position_address self;
         symbol := symbol self;
         balance := balance self;
         underlying_tokens := JArr [];
         display_label := display_label self;
         meta_type := meta_type self |}
  | _ => self
  end.

Notation "x <~ r ;; k" := (rbind r (fun x => k))
  (at level 61, r at next level, right associativity, only parsing).

(** [pos_node.get('displayProps', {}).get('label', '')]. *)
Definition label_of (pos_node : json) : result json :=
  display_props <~ Py.get_default pos_node "displayProps" (JObj []) ;;
  Py.get_default display_props "label" (JStr EmptyString).

(** The position of an ['app-token'] node (lines 247-260). *)
Definition app_token_position (app_info network_info pos_node position_type : json)
  : result DeFiPosition :=
  displayName <~ Py.subscript app_info "displayName" ;;
  slug <~ Py.subscript app_info "slug" ;;
  name <~ Py.subscript network_info "name" ;;
  chainId <~ Py.subscript network_info "chainId" ;;
  balanceUSD <~ Py.subscript pos_node "balanceUSD" ;;
  address <~ Py.subscript pos_node "address" ;;
  sym <~ Py.get_default pos_node "symbol" (JStr EmptyString) ;;
  bal <~ Py.get_default pos_node "balance" (JFloat (S754_zero false)) ;;
  label <~ label_of pos_node ;;
  tokens <~ Py.get_default pos_node "tokens" (JArr []) ;;
  Ok (__post_init__
        {| app_name := displayName;
           app_slug := slug;
           network := name;
           chain_id := chainId;
           position_type := position_type;
           balance_usd := balanceUSD;
           position_address := address;
           symbol := sym;
           balance := bal;
           underlying_tokens := tokens;
           display_label := label;
           meta_type := JStr EmptyString |}).

(** One turn of the loop that groups the tokens of a contract position
    by their [metaType] (lines 265-269); [meta_types] is the dictionary,
    given by its items in insertion order. *)
Definition group_token (meta_types : list (json * list json)) (token_info : json)
  : result (list (json * list json)) :=
  meta_type <~ Py.get_default token_info "metaType" (JStr "UNKNOWN") ;;
  present <~ Py.in_dict meta_type meta_types ;;
  let meta_types :=
    if negb present then (meta_types ++ [(meta_type, [])])%list else meta_types in
  Ok (Py.append_at meta_type token_info meta_types).

Fixpoint group_tokens (contract_tokens : list json)
         (meta_types : list (json * list json))
  : result (list (json * list json)) :=
  match contract_tokens with
  | [] => Ok meta_types
  | token_info :: rest =>
      meta_types <~ group_token meta_types token_info ;;
      group_tokens rest meta_types
  end.

(** [sum(token['token'].get('balanceUSD', 0) for token in tokens)],
    with [acc] the total so far: the items are added from left to right,
    starting from the [int] 0, as CPython does up to version 3.11.  From
    version 3.12 CPython adds floats with a compensated algorithm: the
    total is the same when the balances are [int]s or when at most two
    of them are floats, and may differ in its last bit otherwise; the
    statements below are about the totals that do not depend on the
    version. *)
Fixpoint sum_balances (tokens : list json) (acc : json) : result json :=
  match tokens with
  | [] => Ok acc
  | token :: rest =>
      token_data <~ Py.subscript token "token" ;;
      balanceUSD <~ Py.get_default token_data "balanceUSD" (JInt 0) ;;
      acc <~ Py.add acc balanceUSD ;;
      sum_balances rest acc
  end.

(** The position of one group of tokens of a ['contract-position'] node
    (lines 271-285). *)
Definition grouped_position (app_info network_info pos_node position_type : json)
           (group : json * list json) : result DeFiPosition :=
  let '(meta_type, tokens) := group in
  total_usd <~ sum_balances tokens (JInt 0) ;;
  displayName <~ Py.subscript app_info "displayName" ;;
  slug <~ Py.subscript app_info "slug" ;;
  name <~ Py.subscript network_info "name" ;;
  chainId <~ Py.subscript network_info "chainId" ;;
  address <~ Py.subscript pos_node "address" ;;
  label <~ label_of pos_node ;;
  Ok (__post_init__
        {| app_name := displayName;
           app_slug := slug;
           network := name;
           chain_id := chainId;
           position_type := position_type;
           balance_usd := total_usd;
           position_address := address;
           symbol := JStr EmptyString;
           balance := JFloat (S754_zero false);
           underlying_tokens := JArr tokens;
           display_label := label;
           meta_type := meta_type |}).

(** The position of a ['contract-position'] node without tokens (lines
    287-297). *)
Definition plain_position (app_info network_info pos_node position_type : json)
  : result DeFiPosition :=
  displayName <~ Py.subscript app_info "displayName" ;;
  slug <~ Py.subscript app_info "slug" ;;
  name <~ Py.subscript network_info "name" ;;
  chainId <~ Py.subscript network_info "chainId" ;;
  balanceUSD <~ Py.subscript pos_node "balanceUSD" ;;
  address <~ Py.subscript pos_node "address" ;;
  label <~ label_of pos_node ;;
  Ok (__post_init__
        {| app_name := displayName;
           app_slug := slug;
           network := name;
           chain_id := chainId;
           position_type := position_type;
           balance_usd := balanceUSD;
           position_address := address;
           symbol := JStr EmptyString;
           balance := JFloat (S754_zero false);
           underlying_tokens := JNull;
           display_label := label;
           meta_type := JStr EmptyString |}).

(** The positions appended for one edge of [positionBalances] (lines
    242-297). *)
Definition positions_of_edge (app_info network_info pos_edge : json)
  : result (list DeFiPosition) :=
  pos_node <~ Py.subscript pos_edge "node" ;;
  position_type <~ Py.subscript pos_node "type" ;;
  if Py.eq_str position_type "app-token" then
    position <~ app_token_position app_info network_info pos_node position_type ;;
    Ok [position]
  else if Py.eq_str position_type "contract-position" then
    contract_tokens <~ Py.get_default pos_node "tokens" (JArr []) ;;
    if Py.truthy contract_tokens then
      token_infos <~ Py.iter contract_tokens ;;
      meta_types <~ group_tokens token_infos [] ;;
      rmap (grouped_position app_info network_info pos_node position_type) meta_types
    else
      position <~ plain_position app_info network_info pos_node position_type ;;
      Ok [position]
  else Ok [].

(** The positions appended for one edge of [byApp] (lines 235-297). *)
Definition positions_of_app (app_edge : json) : result (list DeFiPosition) :=
  app_node <~ Py.subscript app_edge "node" ;;
  app_info <~ Py.subscript app_node "app" ;;
  network_info <~ Py.subscript app_node "network" ;;
  position_balances <~ Py.subscript app_node "positionBalances" ;;
  position_edges <~ Py.subscript position_balances "edges" ;;
  pos_edges <~ Py.iter position_edges ;;
  appended <~ rmap (positions_of_edge app_info network_info) pos_edges ;;
  Ok (List.concat appended).

(** The list that [get_defi_positions] makes of the fetched payload
    (lines 232-298). *)
Definition defi_positions (portfolio_data : json) : result (list DeFiPosition) :=
  portfolio <~ Py.subscript portfolio_data "portfolioV2" ;;
  app_balances <~ Py.subscript portfolio "appBalances" ;;
  by_app <~ Py.subscript app_balances "byApp" ;;
  app_edges <~ Py.subscript by_app "edges" ;;
  edges <~ Py.iter app_edges ;;
  appended <~ rmap positions_of_app edges ;;
  Ok (List.concat appended).

End Raw.

(** ** From the loop to the reports

    [typed p] is the position [p] read at the types of the annotations,
    when each of its fields holds a value of the annotated type ([str],
    [int], [float], [list]): the same values, at another Rocq type.  It
    is [None] for any other position; the reports above, which read the
    fields at these types, say nothing of such a position. *)

Definition as_str (j : json) : option string :=
  match j with JStr s => Some s | _ => None end.

Definition as_int (j : json) : option Z :=
  match j with JInt n => Some n | _ => None end.

Definition as_float (j : json) : option PyFloat.float :=
  match j with JFloat f => Some f | _ => None end.

Definition as_list (j : json) : option (list json) :=
  match j with JArr l => Some l | _ => None end.

Definition obind {A B} (o : option A) (k : A -> option B) : option B :=
  match o with
  | Some a => k a
  | None => None
  end.

Definition typed (p : Raw.DeFiPosition) : option DeFiPosition :=
  obind (as_str (Raw.app_name p)) (fun app_name =>
  obind (as_str (Raw.app_slug p)) (fun app_slug =>
  obind (as_str (Raw.network p)) (fun network =>
  obind (as_int (Raw.chain_id p)) (fun chain_id =>
  obind (as_str (Raw.position_type p)) (fun position_type =>
  obind (as_float (Raw.balance_usd p)) (fun balance_usd =>
  obind (as_str (Raw.position_address p)) (fun position_address =>
  obind (as_str (Raw.symbol p)) (fun symbol =>
  obind (as_float (Raw.balance p)) (fun balance =>
  obind (as_list (Raw.underlying_tokens p)) (fun underlying_tokens =>
  obind (as_str (Raw.display_label p)) (fun display_label =>
  obind (as_str (Raw.meta_type p)) (fun meta_type =>
  Some {| app_name := app_name;
          app_slug := app_slug;
          network := network;
          chain_id := chain_id;
          position_type := position_type;
          balance_usd := balance_usd;
          position_address := position_address;
          symbol := symbol;
          balance := balance;
          underlying_tokens := underlying_tokens;
          display_label := display_label;
          meta_type := meta_type |})))))))))))).

Fixpoint all_typed (ps : list Raw.DeFiPosition) : option (list DeFiPosition) :=
  match ps with
  | [] => Some []
  | p :: ps' =>
      obind (typed p) (fun q => obind (all_typed ps') (fun qs => Some (q :: qs)))
  end.

(** The loop of [get_defi_positions] as the reports see it: the
    positions it builds, read at the annotated types.  On a payload for
    which the loop builds a position with a field of another type (where
    Python goes on, and fails later or not at all) this is a
    [TypeError], a case that no statement below relies on. *)
Definition typed_positions (portfolio_data : json) : result (list DeFiPosition) :=
  rbind (Raw.defi_positions portfolio_data) (fun ps =>
  match all_typed ps with
  | Some qs => Ok qs
  | None => Raise TypeError
  end).

(** ** The script ([main], lines 471-504) *)

(** How [main] ends: it returns, or [sys.exit(code)] raises
    [SystemExit], which is not an [Exception] and which nothing in the
    module catches. *)
Inductive ending :=
| Returned
| Exit (code : Z).

Section Script.
Variable w : world.
Variable decode_positions : json -> result (list DeFiPosition).

Definition main : M ending :=
  if String.eqb API_KEY "YOUR_API_KEY" then
    print (Text "Error: Please set your Zapper API key in the API_KEY variable") ;;
    print (Text "Get your API key from: https://zapper.xyz/") ;;
    print (Text "Visit: https://protocol.zapper.xyz/docs/api/ for documentation") ;;
    ret (Exit 1)
  else
    ok <- test_api_connection w API_KEY ;;
    if negb ok then
      print (Text "Troubleshooting tips:") ;;
      print (Text "1. Verify your API key is correct") ;;
      print (Text "2. Check if you have sufficient credits in your Zapper account") ;;
      print (Text "3. Visit https://protocol.zapper.xyz/dashboard to check your account") ;;
      print (Text "4. Try again in a few minutes if rate limited") ;;
      ret (Exit 1)
    else
      let wallet_addresses := ["0x834D9c7688ca1C10479931dE906bCC44879A0446"] in
      let chain_ids := Some [1] in
      try_except
        (print (Text "Initializing Zapper API client...") ;;
         print (Text "Fetching portfolio data...") ;;
         defi_positions <-
           get_defi_positions w decode_positions wallet_addresses chain_ids ;;
         summary <- get_defi_summary w decode_positions wallet_addresses chain_ids ;;
         print_defi_report summary defi_positions ;;
         claimable_positions <- get_claimable_positions defi_positions ;;
         print_claimable_report claimable_positions ;;
         ret Returned)
        (fun e =>
           print (Problem "Error:" e) ;;
           ret (Exit 1)).

End Script.

End Zapper.

(* ------------------------------------------------------------------ *)
(** * stakehouse_situation.py and lvlusd_pendle_situation.py *)

(** The two files define the same [MorphoAPIClient] and the same report
    loop; they differ in the banner and in the table of markets. *)
Module Morpho.

(** [j[k1][k2]...]. *)
Fixpoint path (j : json) (ks : list string) : result json :=
  match ks with
  | [] => Ok j
  | k :: ks' => rbind (Py.subscript j k) (fun v => path v ks')
  end.

Section WithWorld.
Variable w : world.

(** [float(s)] on a string, as the C library parses it; [None] when
    the string is not a number. *)
Variable strtod : string -> option PyFloat.float.

(** [float(j)]. *)
Definition float_of (j : json) : result PyFloat.float :=
  match j with
  | JFloat f => Ok f
  | JInt n => PyFloat.of_int n
  | JBool b => Ok (PyFloat.of_bool b)
  | JStr s =>
      match strtod s with
      | Some f => Ok f
      | None => Raise ValueError
      end
  | _ => Raise TypeError
  end.

(** [MorphoAPIClient._execute_query]: the request carries no timeout. *)
Definition _execute_query (query : graphql) : M json :=
  response <- post w base_url query None ;;
  lift (raise_for_status response) ;;
  result <- lift (response_json response) ;;
  has_errors <- lift (Py.contains "errors" result) ;;
  if has_errors then
    errors <- lift (Py.subscript result "errors") ;;
    raise (GraphQLErrors errors)
  else
    lift (Py.subscript result "data").

Definition get_market_by_id (unique_key : string) (chain_id : Z) : M json :=
  _execute_query (GetMarketById unique_key chain_id).

(** The lines printed for a market that was found (the [if m:]
    branch). *)
Definition print_market (name : string) (m : json) : M unit :=
  print (Field "Market:" [name]) ;;
  collateral <- lift (path m ["collateralAsset"; "symbol"]) ;;
  print (Described "Collateral:" collateral) ;;
  loan <- lift (path m ["loanAsset"; "symbol"]) ;;
  print (Described "Loan Asset:" loan) ;;
  supply <- lift (rbind (path m ["state"; "supplyAssetsUsd"]) float_of) ;;
  loan <- lift (path m ["loanAsset"; "symbol"]) ;;
  print (MarketAmount "Total Supply:" supply loan) ;;
  borrow <- lift (rbind (path m ["state"; "borrowAssetsUsd"]) float_of) ;;
  loan <- lift (path m ["loanAsset"; "symbol"]) ;;
  print (MarketAmount "Total Borrow:" borrow loan) ;;
  liquidity <- lift (rbind (path m ["state"; "liquidityAssetsUsd"]) float_of) ;;
  loan <- lift (path m ["loanAsset"; "symbol"]) ;;
  print (MarketAmount "Available Liquidity:" liquidity loan) ;;
  supplyApy <- lift (rbind (path m ["state"; "supplyApy"]) float_of) ;;
  print (Percent "Supply APY:" (PyFloat.mul supplyApy PyFloat.f100)) ;;
  borrowApy <- lift (rbind (path m ["state"; "borrowApy"]) float_of) ;;
  print (Percent "Borrow APY:" (PyFloat.mul borrowApy PyFloat.f100)) ;;
  utilization <- lift (rbind (path m ["state"; "utilization"]) float_of) ;;
  print (Percent "Utilization:" (PyFloat.mul utilization PyFloat.f100)) ;;
  state <- lift (Py.subscript m "state") ;;
  rewards <- lift (Py.get state "rewards") ;;
  if Py.truthy rewards then
    print (Text "Rewards:") ;;
    rewards <- lift (rbind (path m ["state"; "rewards"]) Py.iter) ;;
    for_each rewards
             (fun reward =>
                sym <- lift (path reward ["asset"; "symbol"]) ;;
                supplyApr <- lift (rbind (Py.subscript reward "supplyApr") float_of) ;;
                print (RewardPercent sym (PyFloat.mul supplyApr PyFloat.f100)))
  else ret tt.

(** The body of the loop over the markets. *)
Definition report_market (market : string * string) : M unit :=
  let '(name, market_id) := market in
  try_except
    (market_data <- get_market_by_id market_id 1 ;;
     m <- lift (Py.subscript market_data "marketByUniqueKey") ;;
     if Py.truthy m then print_market name m
     else print (Field "Market not found:" [name]))
    (fun e => print (Problem ("Error fetching " ++ name ++ " market data:") e)).

(** The banner followed by the loop over the table of markets: the body
    shared by [get_stakehouse_situation] and
    [get_lvlusd_pendle_situation]. *)
Definition situation (banner : string) (markets : list (string * string)) : M unit :=
  print (Header banner) ;;
  for_each markets report_market.

End WithWorld.

End Morpho.

Module Stakehouse.

Definition stakehouse_markets : list (string * string) :=
  [ ("cbBTC/USDC", "0x64d65c9a2d91c36d56fbc42d69e979335320169b3df63bf92789e2c8883fcc64");
    ("WBTC/USDC", "0x3a85e619751152991742810df6ec69ce473daef99e28a64ab2340d7b7ccfee49");
    ("wstETH/USDC", "0xb323495f7e4148be5643a4ea4a8221eef163e4bccfdedc2a6f4696baacbc86cc") ].

(** [stakehouse_situation.py], lines 94-139. *)
Definition get_stakehouse_situation (w : world)
           (strtod : string -> option PyFloat.float) : M unit :=
  Morpho.situation w strtod "Stakehouse USDC Vault Positions on Morpho"
                   stakehouse_markets.

End Stakehouse.

Module Pendle.

Definition lvlusd_markets : list (string * string) :=
  [ ("PT-lvlUSD-25SEP2025/lvlUSD",
     "0xa4bb66e932dfa4b54c0b612dfffdbdc426f7906306a78178acd8562739121b9a");
    ("PT-lvlUSD-25SEP2025/USDC",
     "0xe61a903174169e4897669e9bc4419eb7582b36d1a3d3df633dccab88da6e2ccd") ].

(** [lvlusd_pendle_situation.py], lines 94-135. *)
Definition get_lvlusd_pendle_situation (w : world)
           (strtod : string -> option PyFloat.float) : M unit :=
  Morpho.situation w strtod "lvlUSD Positions on Pendle through Morpho" lvlusd_markets.

End Pendle.

(* ------------------------------------------------------------------ *)
(** * main.py *)

Module Main.

Record supply_info := {
  lvlUSD_supply : PyFloat.float;
  slvlUSD_supply : PyFloat.float;
  percentage : PyFloat.float
}.

Record collateral := {
  total_value : json;
  positions : addr;
  claimable : addr
}.

Record aUSDC_info := {
  total_supply : PyFloat.float;
  total_borrow : PyFloat.float;
  available_liquidity : PyFloat.float
}.

(** The three lines of a section header, kept as one line with the
    title. *)
Definition print_header (title : string) : M unit := print (Header title).

Definition wallet_addresses : list string :=
  ["0x834D9c7688ca1C10479931dE906bCC44879A0446"].

Section WithWorld.
Variable w : world.
Variable decode_positions : json -> result (list DeFiPosition).
Variable strtod : string -> option PyFloat.float.

(** [slvlusd_pendle_situation.py] is imported by [main.py] but is not
    among the sources: its report is a parameter. *)
Variable get_slvlusd_pendle_situation : M unit.

(** One turn of the loop of [check_web3_connections]. *)
Definition check_connection (name : string) (connection : web3_handle)
           (all_connected : bool) : M bool :=
  ok <- connected w connection ;;
  if negb ok then
    print (Field "Web3 connection failed:" [name]) ;;
    ret false
  else
    print (Field "Web3 connection successful:" [name]) ;;
    ret all_connected.

Definition check_web3_connections : M bool :=
  a <- check_connection "Supply Check" web3_supply true ;;
  a <- check_connection "aUSDC Check" web3_aUSDC a ;;
  check_connection "Curve Pool Check" web3_curve a.

Definition get_supply_info : M supply_info :=
  print_header "lvlUSD & slvlUSD Supply Information" ;;
  raw_l <- call w lvlUSD_contract totalSupply ;;
  lvlUSD_supply <- lift (scale raw_l 18) ;;
  raw_s <- call w slvlUSD_contract totalSupply ;;
  slvlUSD_supply <- lift (scale raw_s 18) ;;
  current_percentage <- lift (Supply.percentage slvlUSD_supply lvlUSD_supply) ;;
  print (Amount "Total supply of lvlUSD:" lvlUSD_supply) ;;
  print (Amount "Total supply of slvlUSD:" slvlUSD_supply) ;;
  print (Percent "Percentage of slvlUSD over lvlUSD:" current_percentage) ;;
  ret {| lvlUSD_supply := lvlUSD_supply;
         slvlUSD_supply := slvlUSD_supply;
         percentage := current_percentage |}.

Definition get_collateral_composition : M (option collateral) :=
  print_header "Collateral Composition (Zapper)" ;;
  ok <- Zapper.test_api_connection w Zapper.API_KEY ;;
  if negb ok then
    print (Text "Zapper API connection failed - skipping collateral composition") ;;
    ret None
  else
    try_except
      (defi_positions <-
         Zapper.get_defi_positions w decode_positions wallet_addresses None ;;
       summary <-
         Zapper.get_defi_summary w decode_positions wallet_addresses None ;;
       Zapper.print_defi_report summary defi_positions ;;
       claimable_positions <- Zapper.get_claimable_positions defi_positions ;;
       Zapper.print_claimable_report claimable_positions ;;
       ret (Some {| total_value := Zapper.total_value_usd summary;
                    positions := defi_positions;
                    claimable := claimable_positions |}))
      (fun e =>
         print (Problem "Error fetching Zapper data:" e) ;;
         ret None).

Definition get_aUSDC_situation : M aUSDC_info :=
  print_header "aUSDC Collateral Situation" ;;
  raw_s <- call w aEthUSDC_contract totalSupply ;;
  current_supply <- lift (scale raw_s 6) ;;
  raw_b <- call w variableDebtEthUSDC_contract totalSupply ;;
  current_borrow <- lift (scale raw_b 6) ;;
  let current_liquidity := PyFloat.sub current_supply current_borrow in
  print (Amount "Total Supply USD:" current_supply) ;;
  print (Amount "Total Borrow USD:" current_borrow) ;;
  print (Amount "Available Liquidity:" current_liquidity) ;;
  ret {| total_supply := current_supply;
         total_borrow := current_borrow;
         available_liquidity := current_liquidity |}.

Definition get_curve_pools : M unit :=
  print_header "lvlUSD Curve Pool Situation" ;;
  print (Text "--- lvlUSD/USDC Pool ---") ;;
  Curve.get_token_balances w lvlusd_usdc_pool_contract "lvlUSD/USDC Pool"
                           "get_balances" ;;
  print (Text "--- lvlUSD/slvlUSD Pool ---") ;;
  Curve.get_token_balances w lvlusd_slvlusd_pool_contract "lvlUSD/slvlUSD Pool"
                           "balances".

(** The statements of the [try] block of [main] (lines 159-176). *)
Definition sections : M unit :=
  (* 1. Supply information *)
  supply_data <- get_supply_info ;;
  (* 2. Collateral composition *)
  collateral_data <- get_collateral_composition ;;
  (* 3. aUSDC situation *)
  aUSDC_data <- get_aUSDC_situation ;;
  (* 4. Stakehouse situation *)
  Stakehouse.get_stakehouse_situation w strtod ;;
  (* 5. Curve pools *)
  get_curve_pools ;;
  (* 6. Pendle situations *)
  Pendle.get_lvlusd_pendle_situation w strtod ;;
  get_slvlusd_pendle_situation.

Definition main : M unit :=
  print_header "LVLUSD ECOSYSTEM DASHBOARD" ;;
  all_connected <- check_web3_connections ;;
  (if negb all_connected
   then print (Text "Some Web3 connections failed - data may be incomplete")
   else ret tt) ;;
  try_except sections
             (fun e => print (Problem "Error generating dashboard:" e)) ;;
  print_header "REPORT COMPLETE".

End WithWorld.

End Main.

(* ------------------------------------------------------------------ *)
(** * Worlds and inputs used in the examples *)

Module Scenario.

(** [float(n)] of a small integer. *)
Definition num (n : Z) : PyFloat.float :=
  match PyFloat.of_int n with Ok x => x | Raise _ => S754_nan end.

Definition ok_response (j : json) : response :=
  {| status_code := 200; reason := "OK"; text := "{...}"; body := Some j |}.

(** A market as the Morpho API describes it: supply APY 0.125, borrow
    APY 0.25, utilization 0.75, one reward with supply APR 0.03125. *)
Definition market : json :=
  JObj [ ("uniqueKey", JStr "0x3a85");
         ("loanAsset", JObj [("symbol", JStr "USDC")]);
         ("collateralAsset", JObj [("symbol", JStr "WBTC")]);
         ("state",
          JObj [ ("supplyAssetsUsd", JInt 2000000);
                 ("borrowAssetsUsd", JInt 1500000);
                 ("liquidityAssetsUsd", JInt 500000);
                 ("supplyApy", JFloat (S754_finite false 4503599627370496 (-55)));
                 ("borrowApy", JFloat (S754_finite false 4503599627370496 (-54)));
                 ("utilization", JFloat (S754_finite false 6755399441055744 (-53)));
                 ("rewards",
                  JArr [ JObj [ ("asset", JObj [("symbol", JStr "MORPHO")]);
                                ("supplyApr",
                                 JFloat (S754_finite false 4503599627370496 (-57)));
                                ("borrowApr", JInt 0) ] ]) ]) ].

Definition market_reply : json :=
  JObj [("data", JObj [("marketByUniqueKey", market)])].

(** A body with both a non-empty [errors] array and non-null [data]. *)
Definition partial_reply : json :=
  JObj [ ("errors", JArr [JObj [("message", JStr "rate limited")]]);
         ("data", JObj [("marketByUniqueKey", market)]) ].


(** The one token of a contract position, as the Zapper API describes
    it. *)
Definition holding (meta : string) (usd : PyFloat.float) : json :=
  JObj [ ("metaType", JStr meta);
         ("token", JObj [ ("symbol", JStr "X");
                          ("balance", JFloat usd);
                          ("balanceUSD", JFloat usd) ]) ].

(** An application with one contract position that holds one token. *)
Definition app_edge (name meta : string) (usd : PyFloat.float) : json :=
  JObj [("node",
         JObj [ ("app", JObj [("displayName", JStr name); ("slug", JStr name)]);
                ("network", JObj [("name", JStr "Ethereum"); ("chainId", JInt 1)]);
                ("positionBalances",
                 JObj [("edges",
                        JArr [JObj [("node",
                                     JObj [ ("type", JStr "contract-position");
                                            ("address", JStr "0x01");
                                            ("tokens", JArr [holding meta usd]) ])]])])
              ])].

(** The [data] of a reply to the portfolio query. *)
Definition portfolio (total : Z) (app_edges : list json) : json :=
  JObj [("portfolioV2",
         JObj [("appBalances",
                JObj [ ("totalBalanceUSD", JInt total);
                       ("byApp", JObj [("edges", JArr app_edges)]) ])])].

Definition portfolio_reply : json :=
  JObj [("data",
         portfolio 1500 [ app_edge "Aave" "SUPPLIED" (num 500);
                          app_edge "Morpho" "CLAIMABLE" (num 20);
                          app_edge "Pendle" "CLAIMABLE" (num 980) ])].

(** The position that [get_defi_positions] builds for [app_edge]. *)
Definition position (name meta : string) (usd : PyFloat.float) : DeFiPosition :=
  {| app_name := name; app_slug := name; network := "Ethereum"; chain_id := 1;
     position_type := "contract-position"; balance_usd := usd;
     position_address := "0x01"; symbol := EmptyString;
     balance := S754_zero false;
     underlying_tokens := [holding meta usd];
     display_label := EmptyString; meta_type := meta |}.

Definition three_positions : list DeFiPosition :=
  [ position "Aave" "SUPPLIED" (num 500);
    position "Morpho" "CLAIMABLE" (num 20);
    position "Pendle" "CLAIMABLE" (num 980) ].

(** The loop of [get_defi_positions]; it makes [three_positions] of the
    [data] of [portfolio_reply]. *)
Definition decode : json -> result (list DeFiPosition) := Zapper.typed_positions.

(** The portfolio a moment later: Aave has grown to 600. *)
Definition later_reply : json :=
  JObj [("data",
         portfolio 1600 [ app_edge "Aave" "SUPPLIED" (num 600);
                          app_edge "Morpho" "CLAIMABLE" (num 20);
                          app_edge "Pendle" "CLAIMABLE" (num 980) ])].

(** And later still: the rewards of Morpho have been claimed. *)
Definition last_reply : json :=
  JObj [("data",
         portfolio 1580 [ app_edge "Aave" "SUPPLIED" (num 600);
                          app_edge "Pendle" "CLAIMABLE" (num 980) ])].

Definition strtod (_ : string) : option PyFloat.float := None.

Definition get_slvlusd_pendle_situation : M unit :=
  print (Header "slvlUSD Positions on Pendle through Morpho").

Definition chain (lvl slvl : result abi_value) (c : contract) (fn : eth_fn)
  : result abi_value :=
  match c, fn with
  | lvlUSD_contract, totalSupply => lvl
  | slvlUSD_contract, totalSupply => slvl
  | aEthUSDC_contract, totalSupply => Ok (Uint (5 * 10 ^ 12))
  | variableDebtEthUSDC_contract, totalSupply => Ok (Uint (3 * 10 ^ 12))
  | lvlusd_usdc_pool_contract, get_balances => Ok (UintArray [4 * 10 ^ 12; 6 * 10 ^ 24])
  | lvlusd_slvlusd_pool_contract, balances _ => Ok (Uint (7 * 10 ^ 23))
  | _, _ => Raise Web3Error
  end.

Definition api (url : endpoint) (q : graphql) : http_outcome :=
  match url, q with
  | API_URL, SchemaTest => Responded (ok_response (JObj [("data", JObj [])]))
  | API_URL, PortfolioV2 _ _ => Responded (ok_response portfolio_reply)
  | base_url, GetMarketById _ _ => Responded (ok_response market_reply)
  | _, _ => Failed ConnectionError
  end.

(** Every source answers: 1,000,000 lvlUSD and 250,000 slvlUSD. *)
Definition healthy : world :=
  {| eth_call := fun _ => chain (Ok (Uint (10 ^ 24))) (Ok (Uint (25 * 10 ^ 22)));
     is_connected := fun _ _ => true;
     http_post := fun _ url q _ => api url q |}.

(** The node fails the [totalSupply] call of lvlUSD; everything else
    answers. *)
Definition supply_down : world :=
  {| eth_call := fun _ => chain (Raise Web3Error) (Ok (Uint (25 * 10 ^ 22)));
     is_connected := fun _ _ => true;
     http_post := fun _ url q _ => api url q |}.

(** No lvlUSD has been minted yet. *)
Definition nothing_minted : world :=
  {| eth_call := fun _ => chain (Ok (Uint 0)) (Ok (Uint 0));
     is_connected := fun _ _ => true;
     http_post := fun _ url q _ => api url q |}.

(** The chain answers, every HTTP request times out. *)
Definition offline : world :=
  {| eth_call := fun _ => chain (Ok (Uint (10 ^ 24))) (Ok (Uint (25 * 10 ^ 22)));
     is_connected := fun _ _ => true;
     http_post := fun _ _ _ _ => Failed Timeout |}.

(** The first HTTP request times out, every later one is answered. *)
Definition flaky : world :=
  {| eth_call := fun _ => chain (Ok (Uint (10 ^ 24))) (Ok (Uint (25 * 10 ^ 22)));
     is_connected := fun _ _ => true;
     http_post := fun history url q _ =>
       match history with
       | [] => Failed Timeout
       | _ => api url q
       end |}.

(** The Zapper endpoint answers the connection test and times out on
    the portfolio query; the Morpho endpoint times out. *)
Definition stalled : world :=
  {| eth_call := fun _ => chain (Ok (Uint (10 ^ 24))) (Ok (Uint (25 * 10 ^ 22)));
     is_connected := fun _ _ => true;
     http_post := fun _ url q _ =>
       match url, q with
       | API_URL, SchemaTest => api url q
       | _, _ => Failed Timeout
       end |}.

(** The portfolio changes while it is asked for: the first portfolio
    query is answered by [portfolio_reply], the second by [later_reply],
    any further one by [last_reply]. *)
Definition earlier_queries (history : list request) : nat :=
  List.length
    (filter (fun r => match r with
                      | HttpPost API_URL (PortfolioV2 _ _) _ => true
                      | _ => false
                      end) history).

Definition moving : world :=
  {| eth_call := fun _ => chain (Ok (Uint (10 ^ 24))) (Ok (Uint (25 * 10 ^ 22)));
     is_connected := fun _ _ => true;
     http_post := fun history url q _ =>
       match url, q with
       | API_URL, PortfolioV2 _ _ =>
           match earlier_queries history with
           | O => Responded (ok_response portfolio_reply)
           | S O => Responded (ok_response later_reply)
           | _ => Responded (ok_response last_reply)
           end
       | _, _ => api url q
       end |}.

(** The node fails every call of the two Curve pools. *)
Definition pools_down : world :=
  {| eth_call := fun _ c fn =>
       match c with
       | lvlusd_usdc_pool_contract | lvlusd_slvlusd_pool_contract => Raise Web3Error
       | _ => chain (Ok (Uint (10 ^ 24))) (Ok (Uint (25 * 10 ^ 22))) c fn
       end;
     is_connected := fun _ _ => true;
     http_post := fun _ url q _ => api url q |}.

(** The Morpho endpoint answers with partial data and errors. *)
Definition degraded : world :=
  {| eth_call := fun _ => chain (Ok (Uint (10 ^ 24))) (Ok (Uint (25 * 10 ^ 22)));
     is_connected := fun _ _ => true;
     http_post := fun _ _ _ _ => Responded (ok_response partial_reply) |}.

(** A heap with one list of three positions. *)
Definition portfolio_heap : state :=
  {| sent := []; out := [];
     hp := {| objs := three_positions; lists := [[0; 1; 2]%nat] |} |}.

(** A heap with one list of three positions, the second of which has a
    [balance_usd] that is a NaN (the JSON decoder of Python reads the
    literal [NaN]). *)
Definition nan_heap : state :=
  {| sent := []; out := [];
     hp := {| objs := [ position "Aave" "CLAIMABLE" (num 1);
                        position "Morpho" "CLAIMABLE" S754_nan;
                        position "Pendle" "CLAIMABLE" (num 2) ];
              lists := [[0; 1; 2]%nat] |} |}.

Definition a_summary : Zapper.summary :=
  {| Zapper.addresses := Main.wallet_addresses;
     Zapper.chain_ids := None;
     Zapper.chain_names := [];
     Zapper.total_value_usd := JInt 1500;
     Zapper.position_count := 3;
     Zapper.unique_apps := 3;
     Zapper.app_summary := [];
     Zapper.meta_type_summary := [] |}.

(** A token of a contract position, as the Zapper API describes it. *)
Definition token (meta : string) (usd : Z) : json :=
  JObj [ ("metaType", JStr meta);
         ("token", JObj [("symbol", JStr "X"); ("balanceUSD", JInt usd)]) ].

Definition three_tokens : list json :=
  [token "SUPPLIED" 5; token "CLAIMABLE" 7; token "SUPPLIED" 11].

(** A portfolio with one application that holds a contract position
    with three tokens, a position of a type that is not reported, and an
    app token whose [tokens] member is [null]. *)
Definition contract_payload : json :=
  JObj [("portfolioV2",
         JObj [("appBalances",
                JObj [ ("totalBalanceUSD", JInt 26);
                       ("byApp",
                        JObj [("edges",
                               JArr [JObj [("node",
                                 JObj [ ("app", JObj [ ("displayName", JStr "Aave");
                                                       ("slug", JStr "aave") ]);
                                        ("network", JObj [ ("name", JStr "Ethereum");
                                                           ("chainId", JInt 1) ]);
                                        ("positionBalances",
                                         JObj [("edges",
                                                JArr [ JObj [("node",
                                                         JObj [ ("type", JStr "contract-position");
                                                                ("address", JStr "0x01");
                                                                ("tokens", JArr three_tokens) ])];
                                                       JObj [("node",
                                                         JObj [("type", JStr "nft")])];
                                                       JObj [("node",
                                                         JObj [ ("type", JStr "app-token");
                                                                ("address", JStr "0x02");
                                                                ("balanceUSD", JInt 3);
                                                                ("tokens", JNull) ])] ])])
                                      ])]])])])])].

End Scenario.

(* ------------------------------------------------------------------ *)
(** * The vocabulary of the statements *)

(** [returns m]: from every state [m] returns a value, it never raises. *)
Definition returns {A} (m : M A) : Prop :=
  forall s, exists a s', m s = (Ok a, s').

(** [keeps_heap m]: [m] leaves every object as it is, whether it returns
    or raises. *)
Definition keeps_heap {A} (m : M A) : Prop :=
  forall s, hp (snd (m s)) = hp s.

(** The chain ids that [fetch_defi_positions] sends. *)
Definition requested_chain_ids (chain_ids : option (list Z)) : list Z :=
  let cs := match chain_ids with None => [1] | Some c => c end in
  filter (fun cid => existsb (Z.eqb cid) (map snd Zapper.SUPPORTED_CHAIN_IDS)) cs.

(** The exceptions of the operations on JSON values are not caught by
    the [except] clauses of [fetch_defi_positions]. *)
Definition uncaught (x : exn) : Prop :=
  is_RequestException x = None /\ is_JSONDecodeError x = false.

(** What [fetch_defi_positions] makes of the outcome of its request. *)
Definition portfolio_result (o : http_outcome) : result json :=
  match o with
  | Failed e => Raise (RequestFailed e)
  | Responded response =>
      if negb (status_code response =? 200)
      then Raise (HTTPStatus (status_code response) (reason response))
      else
        match body response with
        | None => Raise (RequestFailed InvalidJSON)
        | Some data =>
            match Py.contains "errors" data with
            | Raise x => Raise x
            | Ok true =>
                match Py.subscript data "errors" with
                | Ok errors => Raise (GraphQLErrors errors)
                | Raise x => Raise x
                end
            | Ok false => Py.subscript data "data"
            end
        end
  end.

(** What [_execute_query] makes of the outcome of its request. *)
Definition query_result (o : http_outcome) : result json :=
  match o with
  | Failed e => Raise (RequestException e)
  | Responded response =>
      match raise_for_status response with
      | Raise x => Raise x
      | Ok _ =>
          match body response with
          | None => Raise (RequestException InvalidJSON)
          | Some data =>
              match Py.contains "errors" data with
              | Raise x => Raise x
              | Ok true =>
                  match Py.subscript data "errors" with
                  | Ok errors => Raise (GraphQLErrors errors)
                  | Raise x => Raise x
                  end
              | Ok false => Py.subscript data "data"
              end
          end
      end
  end.

(** The fraction that a value of the response delivers, as a float: a
    number written with a fraction or an exponent is that float, an
    integer is the float nearest to it (a Boolean counts as 0 or 1), a
    string is the number that it spells; anything else, or an integer
    beyond the range of the floats, delivers no fraction. *)
Definition fraction (strtod : string -> option PyFloat.float) (v : json)
  : option PyFloat.float :=
  match v with
  | JFloat f => Some f
  | JInt n =>
      match binary_normalize PyFloat.prec PyFloat.emax n 0 false with
      | S754_infinity _ => None
      | f => Some f
      end
  | JBool b => Some (if b then PyFloat.f1_0 else S754_zero false)
  | JStr s => strtod s
  | _ => None
  end.







(** A float that is not a NaN, placed in a lexicographic order on three
    integers: its class (infinities, sign), then exponent, then mantissa. *)
Definition rank (x : PyFloat.float) : Z * (Z * Z) :=
  match x with
  | S754_nan => (0, (0, 0))
  | S754_zero _ => (0, (0, 0))
  | S754_infinity true => (-2, (0, 0))
  | S754_infinity false => (2, (0, 0))
  | S754_finite true m e => (-1, (- e, Zneg m))
  | S754_finite false m e => (1, (e, Zpos m))
  end.

(** The lexicographic order of the ranks. *)
Definition lex_lt (a b : Z * (Z * Z)) : Prop :=
  fst a < fst b
  \/ (fst a = fst b
      /\ (fst (snd a) < fst (snd b)
          \/ (fst (snd a) = fst (snd b) /\ snd (snd a) < snd (snd b)))).

(** In a descending list [a] may stand before [b]: the key of [a] is not
    less than the key of [b]. *)
Definition not_below (A : Type) (key : A -> PyFloat.float) (a b : A) : Prop :=
  PyFloat.ltb (key a) (key b) = false.

(** No key of the list is a NaN. *)
Definition no_nan (A : Type) (key : A -> PyFloat.float) (l : list A) : Prop :=
  Forall (fun a => PyFloat.is_nan (key a) = false) l.

(** The list object at [l] has been sorted in place between [h] and
    [h']: it holds the same positions in descending order of
    [balance_usd], and no position and no other list has changed. *)
Definition sorted_in_place (h h' : heap) (l : addr) : Prop :=
  Permutation (list_at h l) (list_at h' l)
  /\ StronglySorted (not_below addr (Zapper.balance_at (objs h'))) (list_at h' l)
  /\ objs h' = objs h
  /\ List.length (lists h') = List.length (lists h)
  /\ forall l', l' <> l -> list_at h' l' = list_at h l'.

(** [sorts h0 l m]: run from a state whose heap is [h0], [m] ends, by
    returning or by raising, in a state where the list at [l] has been
    sorted in place. *)
Definition sorts {A} (h0 : heap) (l : addr) (m : M A) : Prop :=
  forall s, hp s = h0 -> sorted_in_place h0 (hp (snd (m s))) l.

(** The float of value [u * 2^t], for [0 < u < 2^53]. *)
Definition canon (u t : Z) : spec_float :=
  S754_finite false (Z.to_pos (u * 2 ^ (53 - Zdigits2 u))) (Zdigits2 u + t - 53).

(** [x] is exactly the rational [a / b], for [0 < b]. *)
Definition is_exactly (x : PyFloat.float) (a b : Z) : bool :=
  match x with
  | S754_zero _ => a =? 0
  | S754_finite s m e =>
      match e with
      | 0 => PyFloat.signed s m * b =? a
      | Zpos p => PyFloat.signed s m * 2 ^ Zpos p * b =? a
      | Zneg p => PyFloat.signed s m * b =? a * 2 ^ Zpos p
      end
  | _ => false
  end.

(** The re-scaling that the specification names, [f * 10**d]; the
    sources never scale back, so this follows the words of the
    specification, with the arithmetic of Python. *)
Definition rescale (f : PyFloat.float) (d : Z) : result PyFloat.float :=
  rbind (PyFloat.of_int (10 ^ d)) (fun t => Ok (PyFloat.mul f t)).

(** [(v / 10**d) * 10**d == v]. *)
Definition round_trips (v d : Z) : bool :=
  match rbind (scale (Uint v) d) (fun f => rescale f d) with
  | Ok g => PyFloat.eq_int g v
  | Raise _ => false
  end.

(** [keeps_sent m]: [m] sends no request, whether it returns or raises. *)
Definition keeps_sent {A} (m : M A) : Prop :=
  forall s, sent (snd (m s)) = sent s.

(** [supported cid]: [cid] is one of the values of [SUPPORTED_CHAIN_IDS]. *)
Definition supported (cid : Z) : bool :=
  existsb (Z.eqb cid) (map snd Zapper.SUPPORTED_CHAIN_IDS).

(** What [test_api_connection] answers on the outcome of its request. *)
Definition connection_ok (o : http_outcome) : bool :=
  match o with
  | Failed _ => false
  | Responded response =>
      (status_code response =? 200)
      && match body response with
         | None => false
         | Some data =>
             match Py.contains "errors" data with
             | Ok false => true
             | _ => false
             end
         end
  end.

(** The request that the report loop sends for a market of its table. *)
Definition market_request (market : string * string) : request :=
  HttpPost base_url (GetMarketById (snd market) 1) None.

(** The line that [check_web3_connections] prints for a connection. *)
Definition connection_line (name : string) (ok : bool) : line :=
  if ok then Field "Web3 connection successful:" [name]
  else Field "Web3 connection failed:" [name].

(** [same_key key k a]: the key of [a] and [k] are equal in the order of
    the sort, neither is less than the other. *)
Definition same_key (A : Type) (key : A -> PyFloat.float) (k : PyFloat.float)
           (a : A) : bool :=
  negb (PyFloat.ltb (key a) k) && negb (PyFloat.ltb k (key a)).

(** The heap after [l.sort(key=lambda x: x.balance_usd, reverse=True)]. *)
Definition sorted_heap (h : heap) (l : addr) : heap :=
  {| objs := objs h;
     lists := replace_nth l
                (PyFloat.sort_reverse (Zapper.balance_at (objs h)) (list_at h l))
                (lists h) |}.

(** [heap_becomes f m]: [m] ends, by returning or by raising, with the
    heap [f h] when it starts with the heap [h]. *)
Definition heap_becomes {A} (f : heap -> heap) (m : M A) : Prop :=
  forall s, hp (snd (m s)) = f (hp s).

(** The sum of the [count] members of the two dictionaries of a
    summary. *)
Definition app_positions (d : list (string * Zapper.app_entry)) : nat :=
  fold_right (fun kv n => (Zapper.entry_count (snd kv) + n)%nat) 0%nat d.

Definition meta_positions (d : list (string * Zapper.meta_entry)) : nat :=
  fold_right (fun kv n => (Zapper.meta_count (snd kv) + n)%nat) 0%nat d.

(** [if position.meta_type:]. *)
Definition has_meta_type (position : DeFiPosition) : bool :=
  negb (String.eqb (meta_type position) EmptyString).

(** The heap after [get_defi_positions] has created the positions
    [positions] and the list that holds them. *)
Definition with_positions (h : heap) (positions : list DeFiPosition) : heap :=
  {| objs := (objs h ++ positions)%list;
     lists := (lists h ++ [seq (List.length (objs h)) (List.length positions)])%list |}.

(** The heap after [get_claimable_positions] has created its list. *)
Definition with_claimable (h : heap) (l : addr) : heap :=
  {| objs := objs h;
     lists := (lists h ++ [filter (Zapper.claimable_at (objs h)) (list_at h l)])%list |}.

(** The request of [get_collateral_composition] for the portfolio. *)
Definition portfolio_request : request :=
  HttpPost API_URL (PortfolioV2 Main.wallet_addresses (requested_chain_ids None))
           (Some 30).

(** [extends_sent m]: [m] only adds requests to the ones already made,
    whether it returns or raises. *)
Definition extends_sent {A} (m : M A) : Prop :=
  forall s, exists later, sent (snd (m s)) = (later ++ sent s)%list.

(** The [metaType] under which the grouping loop of
    [get_defi_positions] files a token. *)
Definition meta_type_of (token_info : json) : result json :=
  Py.get_default token_info "metaType" (JStr "UNKNOWN").

(** The tokens [tokens] all belong under the key [k]. *)
Definition filed_under (k : json) (tokens : list json) : Prop :=
  Forall (fun token_info =>
            exists meta_type,
              meta_type_of token_info = Ok meta_type
              /\ Py.key_eq k meta_type = true)
         tokens.

(** [token['token'].get('balanceUSD', 0)] when it is an [int] (a [bool]
    counts as 0 or 1), and when it is a [float]. *)
Definition balance_of (token : json) : result json :=
  rbind (Py.subscript token "token") (fun token_data =>
  Py.get_default token_data "balanceUSD" (JInt 0)).

Definition int_balance (token : json) : option Z :=
  match balance_of token with
  | Ok (JInt n) => Some n
  | Ok (JBool b) => Some (if b then 1 else 0)
  | _ => None
  end.

Definition float_balance (token : json) : option PyFloat.float :=
  match balance_of token with
  | Ok (JFloat f) => Some f
  | _ => None
  end.

(** [total] is the sum of the [balanceUSD] of [tokens], said of the
    sums in which no rounding is repeated: of [int]s, the [int] that is
    their sum; of a single float [f], the float [0 + f]. *)
Definition total_of (tokens : list json) (total : json) : Prop :=
  (forall ns,
      map int_balance tokens = map Some ns -> total = JInt (fold_right Z.add 0 ns))
  /\ (forall token f,
         tokens = [token] -> float_balance token = Some f ->
         total = JFloat (PyFloat.add (S754_zero false) f)).

(** The three ways in which [get_defi_positions] builds a position: for
    an ['app-token'] node, for a ['contract-position'] node without
    tokens, and for one group of the tokens of a ['contract-position']
    node. *)
Inductive built : Zapper.Raw.DeFiPosition -> Prop :=
| built_app_token (p : Zapper.Raw.DeFiPosition) :
    Zapper.Raw.position_type p = JStr "app-token" ->
    Zapper.Raw.meta_type p = JStr EmptyString ->
    Zapper.Raw.underlying_tokens p <> JNull ->
    built p
| built_plain (p : Zapper.Raw.DeFiPosition) :
    Zapper.Raw.position_type p = JStr "contract-position" ->
    Zapper.Raw.meta_type p = JStr EmptyString ->
    Zapper.Raw.underlying_tokens p = JArr [] ->
    built p
| built_grouped (p : Zapper.Raw.DeFiPosition) (tokens : list json) :
    Zapper.Raw.position_type p = JStr "contract-position" ->
    Zapper.Raw.underlying_tokens p = JArr tokens ->
    tokens <> [] ->
    filed_under (Zapper.Raw.meta_type p) tokens ->
    total_of tokens (Zapper.Raw.balance_usd p) ->
    built p.

(** What the grouping loop keeps true of the dictionary [d] it builds,
    for the tokens [done] it has filed so far: the groups hold these
    tokens and no others, no group is empty, no key equals an earlier
    one, and every token is filed under its [metaType]. *)
Definition grouping (done : list json) (d : list (json * list json)) : Prop :=
  Permutation (List.concat (map snd d)) done
  /\ Forall (fun g => snd g <> []) d
  /\ ForallOrdPairs (fun k k' => Py.key_eq k k' = false) (map fst d)
  /\ Forall (fun g => filed_under (fst g) (snd g)) d.

(** [declared r]: the request [r], when it is a contract call, calls a
    function that the ABI of the contract declares. *)
Definition declared (r : request) : bool :=
  match r with
  | EthCall c f => in_abi c f
  | _ => true
  end.

(** [calls_declared m]: [m] only adds requests to the ones already
    made, whether it returns or raises, and every contract call among
    them is declared. *)
Definition calls_declared {A} (m : M A) : Prop :=
  forall s, exists later,
    sent (snd (m s)) = (later ++ sent s)%list /\ forallb declared later = true.

(** In the reversed list no item is less than the item before it: the
    list is a single run of the sort. *)
Definition single_run (A : Type) (key : A -> PyFloat.float) (l : list A) : Prop :=
  Sorted (fun a b => PyFloat.ltb (key b) (key a) = false) (rev l).

(* ------------------------------------------------------------------ *)
(** * Computations that always return *)

Lemma returns_ret {A} (a : A) : returns (ret a).
Proof. intros s. exists a, s. reflexivity. Qed.

Lemma returns_print (l : line) : returns (print l).
Proof. intros s. eexists; eexists. reflexivity. Qed.

Lemma returns_bind {A B} (m : M A) (k : A -> M B) :
  returns m -> (forall a, returns (k a)) -> returns (bind m k).
Proof.
  intros Hm Hk s. destruct (Hm s) as (a & s1 & E).
  destruct (Hk a s1) as (b & s2 & E2).
  exists b, s2. unfold bind. rewrite E. exact E2.
Qed.

Lemma returns_try_except {A} (m : M A) (h : exn -> M A) :
  (forall e, returns (h e)) -> returns (try_except m h).
Proof.
  intros Hh s. unfold try_except.
  destruct (m s) as [[a | e] s1].
  - exists a, s1. reflexivity.
  - apply Hh.
Qed.

Lemma returns_for_each {A} (xs : list A) (body : A -> M unit) :
  (forall x, returns (body x)) -> returns (for_each xs body).
Proof.
  intros Hb. induction xs as [| x xs IH]; simpl.
  - apply returns_ret.
  - apply returns_bind; [apply Hb | intros _; exact IH].
Qed.

Lemma returns_if {A} (b : bool) (m1 m2 : M A) :
  returns m1 -> returns m2 -> returns (if b then m1 else m2).
Proof. destruct b; auto. Qed.

Lemma returns_connected (w : world) (h : web3_handle) : returns (connected w h).
Proof. intros s. eexists; eexists. reflexivity. Qed.

Ltac returns_tac :=
  repeat first
    [ apply returns_ret
    | apply returns_print
    | apply returns_connected
    | apply returns_try_except; intros
    | apply returns_for_each; intros
    | apply returns_if
    | apply returns_bind; [| intros] ].

(** The sections that handle their own failures never raise, whatever
    the world answers. *)

Lemma test_api_connection_returns (w : world) (k : string) :
  returns (Zapper.test_api_connection w k).
Proof. unfold Zapper.test_api_connection. returns_tac. Qed.

Lemma get_collateral_composition_returns (w : world) decode :
  returns (Main.get_collateral_composition w decode).
Proof.
  unfold Main.get_collateral_composition, Main.print_header.
  apply returns_bind; [apply returns_print | intros _].
  apply returns_bind; [apply test_api_connection_returns | intros ok].
  returns_tac.
Qed.

Lemma get_token_balances_returns (w : world) c name ty :
  returns (Curve.get_token_balances w c name ty).
Proof. unfold Curve.get_token_balances. returns_tac. Qed.

Lemma get_curve_pools_returns (w : world) : returns (Main.get_curve_pools w).
Proof.
  unfold Main.get_curve_pools, Main.print_header.
  repeat (apply returns_bind;
          [ first [apply returns_print | apply get_token_balances_returns]
          | intros _ ]).
  apply get_token_balances_returns.
Qed.

Lemma report_market_returns (w : world) strtod market :
  returns (Morpho.report_market w strtod market).
Proof. destruct market as [name id]. unfold Morpho.report_market. returns_tac. Qed.

Lemma situation_returns (w : world) strtod banner markets :
  returns (Morpho.situation w strtod banner markets).
Proof.
  unfold Morpho.situation.
  apply returns_bind; [apply returns_print | intros _].
  apply returns_for_each. intros m. apply report_market_returns.
Qed.

Lemma get_stakehouse_situation_returns (w : world) strtod :
  returns (Stakehouse.get_stakehouse_situation w strtod).
Proof. apply situation_returns. Qed.

Lemma get_lvlusd_pendle_situation_returns (w : world) strtod :
  returns (Pendle.get_lvlusd_pendle_situation w strtod).
Proof. apply situation_returns. Qed.

Lemma main_returns (w : world) decode strtod slvl :
  returns (Main.main w decode strtod slvl).
Proof.
  unfold Main.main, Main.print_header, Main.check_web3_connections,
    Main.check_connection.
  returns_tac.
Qed.

Lemma run_returns {A} (m : M A) (s : state) :
  returns m -> is_Ok (fst (m s)) = true.
Proof. intros H. destruct (H s) as (a & s' & E). rewrite E. reflexivity. Qed.

Lemma bind_run {A B} (m : M A) (k : A -> M B) (s : state) :
  is_Ok (fst (m s)) = true ->
  exists a, m s = (Ok a, snd (m s)) /\ bind m k s = k a (snd (m s)).
Proof.
  unfold bind. destruct (m s) as [[a | e] s1]; simpl; intros H; [| discriminate].
  exists a. split; reflexivity.
Qed.

(* ------------------------------------------------------------------ *)
(** * C1: which failures stay local in [main] *)

(** C1, as the code has it.  A failure that a section handles itself is
    never contagious: whatever the Zapper API, the Morpho API and the
    Curve pool contracts answer, the collateral composition, stakehouse,
    Curve and Pendle sections return without raising, so that, when the
    two sections that read the supplies and the aUSDC figures return, the
    [try] block of [main] runs every section in turn, each from the state
    left by the one before; and [main] itself always returns. *)
Theorem handled_failures_do_not_block_sections
        (w : world) decode strtod slvl (s : state) :
  let s1 := snd (Main.get_supply_info w s) in
  let s2 := snd (Main.get_collateral_composition w decode s1) in
  let s3 := snd (Main.get_aUSDC_situation w s2) in
  let s4 := snd (Stakehouse.get_stakehouse_situation w strtod s3) in
  let s5 := snd (Main.get_curve_pools w s4) in
  let s6 := snd (Pendle.get_lvlusd_pendle_situation w strtod s5) in
  is_Ok (fst (Main.get_supply_info w s)) = true ->
  is_Ok (fst (Main.get_aUSDC_situation w s2)) = true ->
  is_Ok (fst (Main.get_collateral_composition w decode s1)) = true
  /\ is_Ok (fst (Stakehouse.get_stakehouse_situation w strtod s3)) = true
  /\ is_Ok (fst (Main.get_curve_pools w s4)) = true
  /\ is_Ok (fst (Pendle.get_lvlusd_pendle_situation w strtod s5)) = true
  /\ Main.sections w decode strtod slvl s = slvl s6
  /\ returns (Main.main w decode strtod slvl).
Proof.
  intros s1 s2 s3 s4 s5 s6 Hsupply Hausdc.
  assert (Hc := run_returns _ s1 (get_collateral_composition_returns w decode)).
  assert (Hst := run_returns _ s3 (get_stakehouse_situation_returns w strtod)).
  assert (Hcu := run_returns _ s4 (get_curve_pools_returns w)).
  assert (Hpe := run_returns _ s5 (get_lvlusd_pendle_situation_returns w strtod)).
  repeat split; try assumption; [| apply main_returns].
  unfold Main.sections.
  destruct (bind_run (Main.get_supply_info w) (fun _ =>
    collateral_data <- Main.get_collateral_composition w decode ;;
    aUSDC_data <- Main.get_aUSDC_situation w ;;
    Stakehouse.get_stakehouse_situation w strtod ;;
    Main.get_curve_pools w ;;
    Pendle.get_lvlusd_pendle_situation w strtod ;; slvl) s Hsupply) as (a1 & _ & ->).
  fold s1.
  destruct (bind_run (Main.get_collateral_composition w decode) (fun _ =>
    aUSDC_data <- Main.get_aUSDC_situation w ;;
    Stakehouse.get_stakehouse_situation w strtod ;;
    Main.get_curve_pools w ;;
    Pendle.get_lvlusd_pendle_situation w strtod ;; slvl) s1 Hc) as (a2 & _ & ->).
  fold s2.
  destruct (bind_run (Main.get_aUSDC_situation w) (fun _ =>
    Stakehouse.get_stakehouse_situation w strtod ;;
    Main.get_curve_pools w ;;
    Pendle.get_lvlusd_pendle_situation w strtod ;; slvl) s2 Hausdc) as (a3 & _ & ->).
  fold s3.
  destruct (bind_run (Stakehouse.get_stakehouse_situation w strtod) (fun _ =>
    Main.get_curve_pools w ;;
    Pendle.get_lvlusd_pendle_situation w strtod ;; slvl) s3 Hst) as (a4 & _ & ->).
  fold s4.
  destruct (bind_run (Main.get_curve_pools w) (fun _ =>
    Pendle.get_lvlusd_pendle_situation w strtod ;; slvl) s4 Hcu) as (a5 & _ & ->).
  fold s5.
  destruct (bind_run (Pendle.get_lvlusd_pendle_situation w strtod) (fun _ => slvl)
                     s5 Hpe) as (a6 & _ & ->).
  reflexivity.
Qed.

(** At a concrete world: every HTTP request times out, and every section
    is still run. *)
Lemma handled_failures_do_not_block_sections_witness :
  let w := Scenario.offline in
  let s1 := snd (Main.get_supply_info w initial) in
  let s2 := snd (Main.get_collateral_composition w Scenario.decode s1) in
  let s3 := snd (Main.get_aUSDC_situation w s2) in
  let s4 := snd (Stakehouse.get_stakehouse_situation w Scenario.strtod s3) in
  let s5 := snd (Main.get_curve_pools w s4) in
  let s6 := snd (Pendle.get_lvlusd_pendle_situation w Scenario.strtod s5) in
  is_Ok (fst (Main.get_collateral_composition w Scenario.decode s1)) = true
  /\ is_Ok (fst (Stakehouse.get_stakehouse_situation w Scenario.strtod s3)) = true
  /\ is_Ok (fst (Main.get_curve_pools w s4)) = true
  /\ is_Ok (fst (Pendle.get_lvlusd_pendle_situation w Scenario.strtod s5)) = true
  /\ Main.sections w Scenario.decode Scenario.strtod
                   Scenario.get_slvlusd_pendle_situation initial
     = Scenario.get_slvlusd_pendle_situation s6
  /\ returns (Main.main w Scenario.decode Scenario.strtod
                        Scenario.get_slvlusd_pendle_situation).
Proof.
  apply (handled_failures_do_not_block_sections
           Scenario.offline Scenario.decode Scenario.strtod
           Scenario.get_slvlusd_pendle_situation initial);
    vm_compute; reflexivity.
Defined.

(** C1 as stated fails: when the first section raises (the node fails the
    [totalSupply] call of lvlUSD) while every other source answers, [main]
    returns after that call and no other source is queried. *)
Lemma a_raising_section_blocks_the_others :
  let run := Main.main Scenario.supply_down Scenario.decode Scenario.strtod
                       Scenario.get_slvlusd_pendle_situation initial in
  fst run = Ok tt
  /\ rev (sent (snd run))
     = [ IsConnected web3_supply; IsConnected web3_aUSDC; IsConnected web3_curve;
         EthCall lvlUSD_contract totalSupply ]
  /\ rev (out (snd run))
     = [ Header "LVLUSD ECOSYSTEM DASHBOARD";
         Field "Web3 connection successful:" ["Supply Check"];
         Field "Web3 connection successful:" ["aUSDC Check"];
         Field "Web3 connection successful:" ["Curve Pool Check"];
         Header "lvlUSD & slvlUSD Supply Information";
         Problem "Error generating dashboard:" Web3Error;
         Header "REPORT COMPLETE" ].
Proof. vm_compute. repeat split. Qed.

(* ------------------------------------------------------------------ *)
(** * C2: the slvlUSD/lvlUSD percentage *)

Lemma percentage_nonzero (sl l : PyFloat.float) :
  PyFloat.is_zero l = false ->
  Supply.percentage sl l
  = Ok (PyFloat.mul (SFdiv PyFloat.prec PyFloat.emax sl l) PyFloat.f100).
Proof.
  intros H. unfold Supply.percentage, PyFloat.truediv. rewrite H. reflexivity.
Qed.

Lemma percentage_zero (sl l : PyFloat.float) :
  PyFloat.is_zero l = true -> Supply.percentage sl l = Raise ZeroDivisionError.
Proof.
  intros H. unfold Supply.percentage, PyFloat.truediv. rewrite H. reflexivity.
Qed.

(** Unfolding of the monad on a run. *)
Ltac run_monad :=
  unfold bind, ret, raise, lift, print, try_except, call, post, connected,
    record_request; simpl.

(** C2, as the code has it.  [get_supply_info] computes the percentage as
    [(slvlUSD_supply / lvlUSD_supply) * 100] whenever both supplies are
    read and scaled and the lvlUSD supply is not zero; it prints it after
    the two supplies and returns the three figures.  When either read
    fails the failure is raised, after the header and nothing else has
    been printed.  And however the function or the import of the supply
    module comes to raise (a failed read, a reply that does not scale, a
    division by zero), no figure has been printed by then: no percentage
    is reported, nor is a default value put in its place. *)
Theorem percentage_needs_both_supplies (w : world) (s : state) :
  let l_reply := eth_call w (sent s) lvlUSD_contract totalSupply in
  let s_reply :=
    eth_call w (EthCall lvlUSD_contract totalSupply :: sent s)
             slvlUSD_contract totalSupply in
  let header := Header "lvlUSD & slvlUSD Supply Information" in
  (forall raw_l raw_s l sl,
      l_reply = Ok raw_l -> scale raw_l 18 = Ok l ->
      s_reply = Ok raw_s -> scale raw_s 18 = Ok sl ->
      PyFloat.is_zero l = false ->
      let pct := PyFloat.mul (SFdiv PyFloat.prec PyFloat.emax sl l) PyFloat.f100 in
      Main.get_supply_info w s
      = (Ok {| Main.lvlUSD_supply := l;
               Main.slvlUSD_supply := sl;
               Main.percentage := pct |},
         {| sent := EthCall slvlUSD_contract totalSupply
                    :: EthCall lvlUSD_contract totalSupply :: sent s;
            out := Percent "Percentage of slvlUSD over lvlUSD:" pct
                   :: Amount "Total supply of slvlUSD:" sl
                   :: Amount "Total supply of lvlUSD:" l
                   :: header :: out s;
            hp := hp s |}))
  /\ (forall e,
         l_reply = Raise e ->
         Main.get_supply_info w s
         = (Raise e,
            {| sent := EthCall lvlUSD_contract totalSupply :: sent s;
               out := header :: out s;
               hp := hp s |}))
  /\ (forall raw_l l e,
         l_reply = Ok raw_l -> scale raw_l 18 = Ok l -> s_reply = Raise e ->
         Main.get_supply_info w s
         = (Raise e,
            {| sent := EthCall slvlUSD_contract totalSupply
                       :: EthCall lvlUSD_contract totalSupply :: sent s;
               out := header :: out s;
               hp := hp s |}))
  /\ (forall e,
         fst (Main.get_supply_info w s) = Raise e ->
         out (snd (Main.get_supply_info w s)) = header :: out s)
  /\ (forall e,
         fst (Supply.module_body w s) = Raise e ->
         out (snd (Supply.module_body w s)) = out s).
Proof.
  intros l_reply s_reply header. subst l_reply s_reply header.
  unfold Main.get_supply_info, Supply.module_body, Main.print_header.
  split; [| split; [| split; [| split]]].
  - intros raw_l raw_s l sl Hl Hsl Hs Hss Hz. run_monad.
    rewrite Hl, Hsl. simpl. rewrite Hs, Hss. simpl.
    rewrite (percentage_nonzero sl l Hz). reflexivity.
  - intros e Hl. run_monad. rewrite Hl. reflexivity.
  - intros raw_l l e Hl Hsl Hs. run_monad.
    rewrite Hl, Hsl. simpl. rewrite Hs. reflexivity.
  - intros e. run_monad.
    destruct (eth_call w (sent s) lvlUSD_contract totalSupply) as [raw_l | x];
      simpl; [| reflexivity].
    destruct (scale raw_l 18) as [l | x]; simpl; [| reflexivity].
    destruct (eth_call w _ slvlUSD_contract totalSupply) as [raw_s | x];
      simpl; [| reflexivity].
    destruct (scale raw_s 18) as [sl | x]; simpl; [| reflexivity].
    destruct (Supply.percentage sl l) as [pct | x]; simpl;
      [discriminate | reflexivity].
  - intros e. run_monad.
    destruct (eth_call w (sent s) lvlUSD_contract totalSupply) as [raw_l | x];
      simpl; [| reflexivity].
    destruct (scale raw_l 18) as [l | x]; simpl; [| reflexivity].
    destruct (eth_call w _ slvlUSD_contract totalSupply) as [raw_s | x];
      simpl; [| reflexivity].
    destruct (scale raw_s 18) as [sl | x]; simpl; [| reflexivity].
    destruct (Supply.percentage sl l) as [pct | x]; simpl;
      [discriminate | reflexivity].
Qed.

(** With 1,000,000 lvlUSD and 250,000 slvlUSD on chain the three figures
    are printed and returned; and when the node fails the call of the
    lvlUSD contract, [get_supply_info] raises with the header as its only
    line. *)
Lemma percentage_needs_both_supplies_witness :
  (let pct := PyFloat.mul (SFdiv PyFloat.prec PyFloat.emax (Scenario.num 250000)
                                 (Scenario.num 1000000))
                          PyFloat.f100 in
   Main.get_supply_info Scenario.healthy initial
   = (Ok {| Main.lvlUSD_supply := Scenario.num 1000000;
            Main.slvlUSD_supply := Scenario.num 250000;
            Main.percentage := pct |},
      {| sent := [ EthCall slvlUSD_contract totalSupply;
                   EthCall lvlUSD_contract totalSupply ];
         out := [ Percent "Percentage of slvlUSD over lvlUSD:" pct;
                  Amount "Total supply of slvlUSD:" (Scenario.num 250000);
                  Amount "Total supply of lvlUSD:" (Scenario.num 1000000);
                  Header "lvlUSD & slvlUSD Supply Information" ];
         hp := empty_heap |}))
  /\ Main.get_supply_info Scenario.supply_down initial
     = (Raise Web3Error,
        {| sent := [EthCall lvlUSD_contract totalSupply];
           out := [Header "lvlUSD & slvlUSD Supply Information"];
           hp := empty_heap |}).
Proof.
  split.
  - apply (proj1 (percentage_needs_both_supplies Scenario.healthy initial)
                 (Uint (10 ^ 24)) (Uint (25 * 10 ^ 22)));
      vm_compute; reflexivity.
  - apply (proj1 (proj2 (percentage_needs_both_supplies Scenario.supply_down initial))
                 Web3Error).
    reflexivity.
Defined.

(** C2 as stated fails: with a lvlUSD total supply of zero the division is
    attempted and [ZeroDivisionError] is raised, both when the module is
    imported and in [get_supply_info]; no figure is marked absent. *)
Lemma zero_supply_raises :
  Main.get_supply_info Scenario.nothing_minted initial
  = (Raise ZeroDivisionError,
     {| sent := [ EthCall slvlUSD_contract totalSupply;
                  EthCall lvlUSD_contract totalSupply ];
        out := [Header "lvlUSD & slvlUSD Supply Information"];
        hp := empty_heap |})
  /\ Supply.module_body Scenario.nothing_minted initial
     = (Raise ZeroDivisionError,
        {| sent := [ EthCall slvlUSD_contract totalSupply;
                     EthCall lvlUSD_contract totalSupply ];
           out := [];
           hp := empty_heap |}).
Proof. split; vm_compute; reflexivity. Qed.

(* ------------------------------------------------------------------ *)
(** * C3, C4, C5: the two GraphQL clients *)

Lemma filter_negb_nil {A} (f : A -> bool) (l : list A) :
  filter (fun x => negb (f x)) l = [] -> filter f l = l.
Proof.
  induction l as [| x l IH]; simpl; [reflexivity |].
  destruct (f x); simpl; [| discriminate].
  intros H. rewrite (IH H). reflexivity.
Qed.

Lemma subscript_uncaught j k x : Py.subscript j k = Raise x -> uncaught x.
Proof.
  destruct j; simpl; try (intros [= <-]; split; reflexivity).
  destruct (Py.lookup k fields); intros [= <-]; split; reflexivity.
Qed.

Lemma contains_uncaught k j x : Py.contains k j = Raise x -> uncaught x.
Proof. destruct j; simpl; intros [= <-]; split; reflexivity. Qed.

Lemma fetch_body_run (w : world) (q : graphql) (s : state) :
  try_except
    (response <- post w API_URL q (Some 30) ;;
     if negb (status_code response =? 200) then
       raise (HTTPStatus (status_code response) (reason response))
     else
       data <- lift (response_json response) ;;
       has_errors <- lift (Py.contains "errors" data) ;;
       if has_errors then
         errors <- lift (Py.subscript data "errors") ;;
         raise (GraphQLErrors errors)
       else
         lift (Py.subscript data "data"))
    (fun e =>
       match is_RequestException e with
       | Some r => raise (RequestFailed r)
       | None => if is_JSONDecodeError e then raise ParseFailed else raise e
       end) s
  = (portfolio_result (http_post w (sent s) API_URL q (Some 30)),
     record_request (HttpPost API_URL q (Some 30)) s).
Proof.
  unfold portfolio_result, try_except, bind, post, lift, raise, response_json.
  simpl.
  destruct (http_post w (sent s) API_URL q (Some 30)) as [r | e]; [| reflexivity].
  destruct (negb (status_code r =? 200)); [reflexivity |].
  destruct (body r) as [data |]; [| reflexivity].
  destruct (Py.contains "errors" data) as [[|] | x] eqn:Hc.
  - destruct (Py.subscript data "errors") as [errors | x] eqn:Hs; [reflexivity |].
    destruct (subscript_uncaught _ _ _ Hs) as [-> ->]. reflexivity.
  - destruct (Py.subscript data "data") as [d | x] eqn:Hs; [reflexivity |].
    destruct (subscript_uncaught _ _ _ Hs) as [-> ->]. reflexivity.
  - destruct (contains_uncaught _ _ _ Hc) as [-> ->]. reflexivity.
Qed.

(** [fetch_defi_positions] is one request followed by the decoding of
    its outcome; [warning] is the line printed when some chain id is not
    supported. *)
Lemma fetch_defi_positions_run (w : world) addresses chain_ids (s : state) :
  exists warning : list line,
    let s0 := {| sent := sent s; out := (warning ++ out s)%list; hp := hp s |} in
    let q := PortfolioV2 addresses (requested_chain_ids chain_ids) in
    Zapper.fetch_defi_positions w addresses chain_ids s
    = (portfolio_result (http_post w (sent s) API_URL q (Some 30)),
       record_request (HttpPost API_URL q (Some 30)) s0).
Proof.
  unfold Zapper.fetch_defi_positions, requested_chain_ids.
  set (cs := match chain_ids with None => [1] | Some c => c end).
  set (valid := map snd Zapper.SUPPORTED_CHAIN_IDS).
  destruct (filter (fun cid => negb (existsb (Z.eqb cid) valid)) cs)
    as [| c0 rest] eqn:Hinv.
  - exists []. rewrite (filter_negb_nil _ _ Hinv).
    unfold bind at 1, ret at 1. rewrite fetch_body_run.
    destruct s; reflexivity.
  - exists [Numbers "Warning: Unsupported chain IDs will be ignored:" (c0 :: rest)].
    unfold bind at 1. unfold bind at 1. unfold print at 1, ret at 1.
    rewrite fetch_body_run. reflexivity.
Qed.

(** [_execute_query] is one request followed by the decoding of its
    outcome. *)
Lemma execute_query_run (w : world) (q : graphql) (s : state) :
  Morpho._execute_query w q s
  = (query_result (http_post w (sent s) base_url q None),
     record_request (HttpPost base_url q None) s).
Proof.
  unfold Morpho._execute_query, query_result, bind, post, lift, raise, response_json.
  simpl.
  destruct (http_post w (sent s) base_url q None) as [r | e]; [| reflexivity].
  destruct (raise_for_status r) as [[] | x]; [| reflexivity].
  destruct (body r) as [data |]; [| reflexivity].
  destruct (Py.contains "errors" data) as [[|] | x]; try reflexivity.
  destruct (Py.subscript data "errors"); reflexivity.
Qed.

(** [report_market] when the query of the market raises. *)
Lemma report_market_failed (w : world) strtod name id (s : state) (x : exn) :
  query_result (http_post w (sent s) base_url (GetMarketById id 1) None) = Raise x ->
  Morpho.report_market w strtod (name, id) s
  = (Ok tt,
     {| sent := HttpPost base_url (GetMarketById id 1) None :: sent s;
        out := Problem ("Error fetching " ++ name ++ " market data:") x :: out s;
        hp := hp s |}).
Proof.
  intros H. unfold Morpho.report_market, Morpho.get_market_by_id, try_except.
  unfold bind at 1. rewrite execute_query_run, H. reflexivity.
Qed.

(** C3, as the code has it.  A timeout or transport error of the request
    is raised by the client: [fetch_defi_positions] raises
    [Exception("Request failed: ...")] and [_execute_query] lets the
    exception of [requests] through.  It becomes a reported failure in the
    caller.  When the connection test has passed and the portfolio query
    then fails, [get_collateral_composition] catches the exception of the
    client, prints it and returns [None], without a further request; and
    the loop over the markets prints the error for the market whose query
    failed and goes on with the next market. *)
Theorem transport_errors_are_raised_then_handled_by_the_caller
        (w : world) (e : requests_error) :
  (forall addresses chain_ids s,
      http_post w (sent s) API_URL
                (PortfolioV2 addresses (requested_chain_ids chain_ids)) (Some 30)
      = Failed e ->
      fst (Zapper.fetch_defi_positions w addresses chain_ids s)
      = Raise (RequestFailed e))
  /\ (forall q s,
         http_post w (sent s) base_url q None = Failed e ->
         fst (Morpho._execute_query w q s) = Raise (RequestException e))
  /\ (forall decode s,
         let test := HttpPost API_URL SchemaTest (Some 10) in
         connection_ok (http_post w (sent s) API_URL SchemaTest (Some 10)) = true ->
         http_post w (test :: sent s) API_URL
                   (PortfolioV2 Main.wallet_addresses (requested_chain_ids None))
                   (Some 30)
         = Failed e ->
         Main.get_collateral_composition w decode s
         = (Ok None,
            {| sent := portfolio_request :: test :: sent s;
               out := Problem "Error fetching Zapper data:" (RequestFailed e)
                      :: Text "API connection successful!"
                      :: Numbers "Response Status:" [200]
                      :: Text "Testing API connection..."
                      :: Header "Collateral Composition (Zapper)" :: out s;
               hp := hp s |}))
  /\ (forall strtod name id rest s,
         http_post w (sent s) base_url (GetMarketById id 1) None = Failed e ->
         for_each ((name, id) :: rest) (Morpho.report_market w strtod) s
         = for_each rest (Morpho.report_market w strtod)
             {| sent := HttpPost base_url (GetMarketById id 1) None :: sent s;
                out := Problem ("Error fetching " ++ name ++ " market data:")
                               (RequestException e) :: out s;
                hp := hp s |}).
Proof.
  split; [| split; [| split]].
  - intros addresses chain_ids s H.
    destruct (fetch_defi_positions_run w addresses chain_ids s) as (warning & E).
    simpl in E. rewrite E, H. reflexivity.
  - intros q s H. rewrite execute_query_run, H. reflexivity.
  - intros decode s test Hok Hfail. subst test.
    unfold connection_ok in Hok.
    destruct (http_post w (sent s) API_URL SchemaTest (Some 10)) as [r | x] eqn:Ht;
      [| discriminate Hok].
    apply andb_prop in Hok. destruct Hok as [Hst Hb].
    destruct (body r) as [data |] eqn:Hbody; [| discriminate Hb].
    destruct (Py.contains "errors" data) as [[|] | x] eqn:Hc; try discriminate Hb.
    unfold Main.get_collateral_composition, Main.print_header.
    unfold bind at 1, print at 1. unfold bind at 1.
    unfold Zapper.test_api_connection.
    unfold bind at 1, print at 1. unfold try_except at 1.
    unfold bind at 1, post at 1. cbn [sent out hp record_request].
    rewrite Ht.
    unfold bind at 1, print at 1. cbn [sent out hp].
    rewrite Hst.
    unfold bind at 1, lift at 1, response_json. rewrite Hbody.
    unfold bind at 1, lift at 1. rewrite Hc. cbn [negb].
    unfold bind at 1, print at 1, ret at 1. cbn [sent out hp negb].
    unfold try_except. unfold bind at 1.
    unfold Zapper.get_defi_positions, Zapper.fetch_defi_positions. cbv zeta.
    change (filter (fun cid => negb (existsb (Z.eqb cid)
                                       (map snd Zapper.SUPPORTED_CHAIN_IDS))) [1])
      with (@nil Z).
    cbv iota. unfold bind at 1. unfold bind at 1, ret at 1.
    rewrite fetch_body_run. cbn [sent out hp record_request].
    change (requested_chain_ids None) with [1] in Hfail.
    rewrite Hfail. cbn [portfolio_result].
    unfold bind, print, ret. cbn [sent out hp].
    apply Z.eqb_eq in Hst. rewrite Hst. reflexivity.
  - intros strtod name id rest s H. cbn [for_each]. unfold bind at 1.
    rewrite (report_market_failed w strtod name id s (RequestException e));
      [reflexivity |].
    rewrite H. reflexivity.
Qed.

(** The Zapper endpoint answers the connection test and then times out:
    the client raises, the caller prints the failure and returns
    [None]. *)
Lemma transport_errors_are_raised_then_handled_by_the_caller_witness :
  Main.get_collateral_composition Scenario.stalled Scenario.decode initial
  = (Ok None,
     {| sent := [portfolio_request; HttpPost API_URL SchemaTest (Some 10)];
        out := [ Problem "Error fetching Zapper data:" (RequestFailed Timeout);
                 Text "API connection successful!";
                 Numbers "Response Status:" [200];
                 Text "Testing API connection...";
                 Header "Collateral Composition (Zapper)" ];
        hp := empty_heap |}).
Proof.
  apply (proj1 (proj2 (proj2 (transport_errors_are_raised_then_handled_by_the_caller
                                Scenario.stalled Timeout)))
               Scenario.decode initial);
    reflexivity.
Defined.

(** C3 as stated fails: on a timeout both clients raise, no failure value
    is returned to the caller. *)
Lemma a_timeout_is_raised_by_the_clients :
  fst (Zapper.fetch_defi_positions Scenario.offline Main.wallet_addresses None initial)
  = Raise (RequestFailed Timeout)
  /\ fst (Morpho._execute_query Scenario.offline (GetMarketById "0x3a85" 1) initial)
     = Raise (RequestException Timeout).
Proof. split; vm_compute; reflexivity. Qed.

(** C4.  A response whose body has an [errors] entry never yields a
    result, whatever its [data] entry holds: both clients raise, and on a
    response that passes the status check the exception is the one that
    carries the errors.  (The clients test the presence of the entry, so an
    empty array fails the fetch as well.) *)
Theorem graphql_errors_fail_the_fetch
        (w : world) (s : state) (r : response)
        (fields : list (string * json)) (errors : json) :
  body r = Some (JObj fields) ->
  Py.lookup "errors" fields = Some errors ->
  (forall q,
      http_post w (sent s) base_url q None = Responded r ->
      exists x, fst (Morpho._execute_query w q s) = Raise x
                /\ (raise_for_status r = Ok tt -> x = GraphQLErrors errors))
  /\ (forall addresses chain_ids,
         http_post w (sent s) API_URL
                   (PortfolioV2 addresses (requested_chain_ids chain_ids)) (Some 30)
         = Responded r ->
         exists x, fst (Zapper.fetch_defi_positions w addresses chain_ids s) = Raise x
                   /\ (status_code r = 200 -> x = GraphQLErrors errors)).
Proof.
  intros Hbody Herr. split.
  - intros q Hpost. rewrite execute_query_run, Hpost. simpl.
    destruct (raise_for_status r) as [[] | x].
    + rewrite Hbody. simpl. unfold Py.has_key. rewrite Herr.
      exists (GraphQLErrors errors). split; reflexivity.
    + exists x. split; [reflexivity | discriminate].
  - intros addresses chain_ids Hpost.
    destruct (fetch_defi_positions_run w addresses chain_ids s) as (warning & E).
    simpl in E. rewrite E, Hpost. simpl.
    destruct (status_code r =? 200) eqn:Hst; simpl.
    + rewrite Hbody. simpl. unfold Py.has_key. rewrite Herr.
      exists (GraphQLErrors errors). split; reflexivity.
    + eexists. split; [reflexivity |].
      intros H200. rewrite H200 in Hst. discriminate.
Qed.

(** A reply with errors and non-null data. *)
Lemma graphql_errors_fail_the_fetch_witness :
  exists x,
    fst (Morpho._execute_query Scenario.degraded (GetMarketById "0x3a85" 1) initial)
    = Raise x
    /\ (raise_for_status (Scenario.ok_response Scenario.partial_reply) = Ok tt ->
        x = GraphQLErrors (JArr [JObj [("message", JStr "rate limited")]])).
Proof.
  apply (proj1 (graphql_errors_fail_the_fetch
                  Scenario.degraded initial
                  (Scenario.ok_response Scenario.partial_reply)
                  [ ("errors", JArr [JObj [("message", JStr "rate limited")]]);
                    ("data", JObj [("marketByUniqueKey", Scenario.market)]) ]
                  (JArr [JObj [("message", JStr "rate limited")]])
                  eq_refl eq_refl)).
  reflexivity.
Defined.

(** C5, as the code has it.  No source is retried.  A call of either
    client sends exactly one request, whatever its outcome; when that
    request fails at the transport level the call raises, whatever a
    further request would have been answered. *)
Theorem no_source_is_retried (w : world) :
  (forall q s,
      sent (snd (Morpho._execute_query w q s)) = HttpPost base_url q None :: sent s)
  /\ (forall addresses chain_ids s,
         sent (snd (Zapper.fetch_defi_positions w addresses chain_ids s))
         = HttpPost API_URL (PortfolioV2 addresses (requested_chain_ids chain_ids))
                    (Some 30) :: sent s)
  /\ (forall q s e,
         http_post w (sent s) base_url q None = Failed e ->
         fst (Morpho._execute_query w q s) = Raise (RequestException e))
  /\ (forall addresses chain_ids s e,
         http_post w (sent s) API_URL
                   (PortfolioV2 addresses (requested_chain_ids chain_ids)) (Some 30)
         = Failed e ->
         fst (Zapper.fetch_defi_positions w addresses chain_ids s)
         = Raise (RequestFailed e)).
Proof.
  repeat split.
  - intros q s. rewrite execute_query_run. reflexivity.
  - intros addresses chain_ids s.
    destruct (fetch_defi_positions_run w addresses chain_ids s) as (warning & E).
    simpl in E. rewrite E. reflexivity.
  - intros q s e H. rewrite execute_query_run, H. reflexivity.
  - intros addresses chain_ids s e H.
    destruct (fetch_defi_positions_run w addresses chain_ids s) as (warning & E).
    simpl in E. rewrite E, H. reflexivity.
Qed.

Lemma no_source_is_retried_witness :
  fst (Morpho._execute_query Scenario.flaky (GetMarketById "0x3a85" 1) initial)
  = Raise (RequestException Timeout).
Proof.
  apply (proj1 (proj2 (proj2 (no_source_is_retried Scenario.flaky)))).
  reflexivity.
Defined.

(** C5 as stated fails.  The first request times out and any later one is
    answered: the query raises after its single request, although the same
    query sent again succeeds; and in the stakehouse report the first
    market is reported as an error while the next two are shown. *)
Lemma a_failed_first_attempt_is_final :
  let q := GetMarketById "0x3a85" 1 in
  let first := Morpho._execute_query Scenario.flaky q initial in
  fst first = Raise (RequestException Timeout)
  /\ sent (snd first) = [HttpPost base_url q None]
  /\ fst (Morpho._execute_query Scenario.flaky q (snd first))
     = Ok (JObj [("marketByUniqueKey", Scenario.market)])
  /\ firstn 3 (rev (out (snd (Stakehouse.get_stakehouse_situation
                                Scenario.flaky Scenario.strtod initial))))
     = [ Header "Stakehouse USDC Vault Positions on Morpho";
         Problem "Error fetching cbBTC/USDC market data:" (RequestException Timeout);
         Field "Market:" ["WBTC/USDC"] ].
Proof. vm_compute. repeat split. Qed.

(* ------------------------------------------------------------------ *)
(** * C8: fractions are reported as percentages *)









(* ------------------------------------------------------------------ *)
(** * The order of floats and the sort *)

Lemma ltb_rank (x y : PyFloat.float) :
  PyFloat.is_nan x = false -> PyFloat.is_nan y = false ->
  (PyFloat.ltb x y = true <-> lex_lt (rank x) (rank y)).
Proof.
  unfold PyFloat.ltb, SFltb, lex_lt.
  destruct x as [sx | sx | | sx mx ex], y as [sy | sy | | sy my ey];
    simpl; try discriminate; intros _ _;
    try (destruct sx); try (destruct sy); simpl;
    try (split; [discriminate | lia]);
    try (split; [intros _; lia | reflexivity]).
  - change (PosDef.Pos.compare_cont Eq mx my) with (Pos.compare mx my).
    destruct (Z.compare_spec ex ey); simpl;
      [ destruct (Pos.compare_spec mx my); simpl | | ];
      split; try discriminate; try reflexivity; lia.
  - change (PosDef.Pos.compare_cont Eq mx my) with (Pos.compare mx my).
    destruct (Z.compare_spec ex ey); simpl;
      [ destruct (Pos.compare_spec mx my); simpl | | ];
      split; try discriminate; try reflexivity; lia.
Qed.

(** On floats that are not NaN, "not less than" is transitive. *)
Lemma not_ltb_trans (x y z : PyFloat.float) :
  PyFloat.is_nan x = false -> PyFloat.is_nan y = false -> PyFloat.is_nan z = false ->
  PyFloat.ltb y x = false -> PyFloat.ltb z y = false -> PyFloat.ltb z x = false.
Proof.
  intros Hx Hy Hz H1 H2.
  destruct (PyFloat.ltb z x) eqn:H3; [| reflexivity].
  apply (ltb_rank z x Hz Hx) in H3.
  assert (N1 : ~ lex_lt (rank y) (rank x))
    by (intros C; apply (ltb_rank y x Hy Hx) in C; congruence).
  assert (N2 : ~ lex_lt (rank z) (rank y))
    by (intros C; apply (ltb_rank z y Hz Hy) in C; congruence).
  unfold lex_lt in *.
  destruct (rank x) as [a1 [b1 c1]], (rank y) as [a2 [b2 c2]], (rank z) as [a3 [b3 c3]].
  simpl in *. lia.
Qed.

Lemma ltb_asym (x y : PyFloat.float) :
  PyFloat.ltb x y = true -> PyFloat.ltb y x = false.
Proof.
  intros H.
  destruct (PyFloat.is_nan x) eqn:Hx;
    [destruct x; try discriminate; destruct y; reflexivity |].
  destruct (PyFloat.is_nan y) eqn:Hy;
    [destruct y; try discriminate; destruct x; discriminate |].
  destruct (PyFloat.ltb y x) eqn:H2; [| reflexivity].
  apply (ltb_rank x y Hx Hy) in H. apply (ltb_rank y x Hy Hx) in H2.
  unfold lex_lt in *.
  destruct (rank x) as [a1 [b1 c1]], (rank y) as [a2 [b2 c2]]. simpl in *. lia.
Qed.

Section SortFacts.

Variable A : Type.
Variable key : A -> PyFloat.float.

Lemma insert_perm (x : A) (l : list A) :
  Permutation (x :: l) (PyFloat.insert key x l).
Proof.
  induction l as [| y l IH]; simpl; [apply Permutation_refl |].
  destruct (PyFloat.ltb (key y) (key x)); [| apply Permutation_refl].
  eapply Permutation_trans; [apply perm_swap |].
  apply perm_skip. exact IH.
Qed.

Lemma sort_ascending_perm (l : list A) :
  Permutation l (PyFloat.sort_ascending key l).
Proof.
  induction l as [| x l IH]; simpl; [apply perm_nil |].
  eapply Permutation_trans; [apply perm_skip; exact IH | apply insert_perm].
Qed.

Lemma sort_reverse_perm (l : list A) :
  Permutation l (PyFloat.sort_reverse key l).
Proof.
  unfold PyFloat.sort_reverse.
  eapply Permutation_trans; [apply Permutation_rev |].
  eapply Permutation_trans; [apply sort_ascending_perm |].
  apply Permutation_rev.
Qed.

Lemma no_nan_perm (l l' : list A) : Permutation l l' -> no_nan A key l -> no_nan A key l'.
Proof. intros P H. unfold no_nan. eapply Permutation_Forall; eassumption. Qed.

(** Ascending: no item is above a later one. *)
Lemma insert_sorted (x : A) (l : list A) :
  PyFloat.is_nan (key x) = false -> no_nan A key l ->
  StronglySorted (fun a b => not_below A key b a) l ->
  StronglySorted (fun a b => not_below A key b a) (PyFloat.insert key x l).
Proof.
  intros Hx Hn Hs. induction Hs as [| y l Hs IH Hall]; simpl.
  - constructor; constructor.
  - inversion Hn as [| ? ? Hy Hn']; subst.
    destruct (PyFloat.ltb (key y) (key x)) eqn:Hlt.
    + constructor; [apply IH; exact Hn' |].
      eapply Permutation_Forall; [apply insert_perm |].
      constructor; [| exact Hall].
      unfold not_below. apply ltb_asym. exact Hlt.
    + constructor; [constructor; assumption |].
      constructor; [exact Hlt |].
      rewrite Forall_forall in *. intros z Hz.
      unfold not_below in *.
      apply (not_ltb_trans (key x) (key y) (key z)); auto.
Qed.

Lemma sort_ascending_sorted (l : list A) :
  no_nan A key l -> StronglySorted (fun a b => not_below A key b a) (PyFloat.sort_ascending key l).
Proof.
  induction l as [| x l IH]; intros Hn; simpl; [constructor |].
  inversion Hn; subst.
  apply insert_sorted; auto.
  eapply no_nan_perm; [apply sort_ascending_perm | assumption].
Qed.

Lemma sorted_snoc (R : A -> A -> Prop) (l : list A) (x : A) :
  StronglySorted R l -> Forall (fun y => R y x) l -> StronglySorted R (l ++ [x]).
Proof.
  intros Hs. induction Hs as [| y l Hs IH Hall]; intros Hf; simpl.
  - constructor; constructor.
  - inversion Hf; subst. constructor; [apply IH; assumption |].
    apply Forall_app. split; [exact Hall | constructor; [assumption | constructor]].
Qed.

Lemma sorted_rev (R : A -> A -> Prop) (l : list A) :
  StronglySorted R l -> StronglySorted (fun a b => R b a) (rev l).
Proof.
  intros Hs. induction Hs as [| y l Hs IH Hall]; simpl; [constructor |].
  apply sorted_snoc; [exact IH |].
  apply Forall_rev. exact Hall.
Qed.

(** The result of [sort(key=..., reverse=True)] is in descending order
    of the keys. *)
Lemma sort_reverse_sorted (l : list A) :
  no_nan A key l -> StronglySorted (not_below A key) (PyFloat.sort_reverse key l).
Proof.
  intros Hn. unfold PyFloat.sort_reverse.
  apply (sorted_rev (fun a b => not_below A key b a)).
  apply sort_ascending_sorted.
  eapply no_nan_perm; [apply Permutation_rev | exact Hn].
Qed.

End SortFacts.

(* ------------------------------------------------------------------ *)
(** * The heap under the reports *)

Lemma replace_nth_length {A} (n : nat) (x : A) (l : list A) :
  List.length (replace_nth n x l) = List.length l.
Proof.
  revert n. induction l as [| y l IH]; intros [| n]; simpl; auto.
Qed.

Lemma replace_nth_same {A} (n : nat) (x : A) (l : list A) :
  (n < List.length l)%nat -> nth_error (replace_nth n x l) n = Some x.
Proof.
  revert n. induction l as [| y l IH]; intros [| n] H; simpl in *; try lia; auto.
  apply IH. lia.
Qed.

Lemma replace_nth_other {A} (n m : nat) (x : A) (l : list A) :
  n <> m -> nth_error (replace_nth n x l) m = nth_error l m.
Proof.
  revert n m. induction l as [| y l IH]; intros [| n] [| m] H; simpl; auto.
  congruence.
Qed.

Lemma keeps_ret {A} (a : A) : keeps_heap (ret a).
Proof. intros s. reflexivity. Qed.

Lemma keeps_raise {A} (e : exn) : keeps_heap (@raise A e).
Proof. intros s. reflexivity. Qed.

Lemma keeps_lift {A} (r : result A) : keeps_heap (lift r).
Proof. intros s. reflexivity. Qed.

Lemma keeps_print (l : line) : keeps_heap (print l).
Proof. intros s. reflexivity. Qed.

Lemma keeps_items_of (l : addr) : keeps_heap (Zapper.items_of l).
Proof. intros s. reflexivity. Qed.

Lemma keeps_positions_of (l : addr) : keeps_heap (Zapper.positions_of l).
Proof. intros s. reflexivity. Qed.

Lemma keeps_position_at (a : addr) : keeps_heap (Zapper.position_at a).
Proof.
  intros s. unfold Zapper.position_at.
  destruct (nth_error (objs (hp s)) a); reflexivity.
Qed.

Lemma keeps_bind {A B} (m : M A) (k : A -> M B) :
  keeps_heap m -> (forall a, keeps_heap (k a)) -> keeps_heap (bind m k).
Proof.
  intros Hm Hk s. unfold bind. specialize (Hm s).
  destruct (m s) as [[a | e] s1]; simpl in *.
  - rewrite Hk. exact Hm.
  - exact Hm.
Qed.

Lemma keeps_for_each {A} (xs : list A) (body : A -> M unit) :
  (forall x, keeps_heap (body x)) -> keeps_heap (for_each xs body).
Proof.
  intros Hb. induction xs as [| x xs IH]; simpl.
  - apply keeps_ret.
  - apply keeps_bind; [apply Hb | intros _; exact IH].
Qed.

Lemma keeps_if {A} (b : bool) (m1 m2 : M A) :
  keeps_heap m1 -> keeps_heap m2 -> keeps_heap (if b then m1 else m2).
Proof. destruct b; auto. Qed.

Ltac keeps_tac :=
  repeat first
    [ apply keeps_ret
    | apply keeps_raise
    | apply keeps_lift
    | apply keeps_print
    | apply keeps_items_of
    | apply keeps_positions_of
    | apply keeps_position_at
    | apply keeps_for_each; intros
    | apply keeps_if
    | apply keeps_bind; [| intros] ].

Lemma keeps_print_underlying position token_info :
  keeps_heap (Zapper.print_underlying position token_info).
Proof. unfold Zapper.print_underlying. keeps_tac. Qed.

Lemma keeps_print_reward token_info : keeps_heap (Zapper.print_reward token_info).
Proof. unfold Zapper.print_reward. keeps_tac. Qed.

(** A loop that only prints returns, and adds its lines. *)
Lemma for_each_print {A} (xs : list A) (f : A -> line) (s : state) :
  for_each xs (fun x => print (f x)) s
  = (Ok tt, {| sent := sent s; out := (rev (map f xs) ++ out s)%list; hp := hp s |}).
Proof.
  revert s. induction xs as [| x xs IH]; intros s; simpl.
  - destruct s; reflexivity.
  - unfold bind, print at 1. rewrite IH. simpl. rewrite <- app_assoc. reflexivity.
Qed.

Lemma sort_by_balance_sorts (l : addr) (s : state) :
  (l < List.length (lists (hp s)))%nat ->
  no_nan addr (Zapper.balance_at (objs (hp s))) (list_at (hp s) l) ->
  sorted_in_place (hp s) (hp (snd (Zapper.sort_by_balance l s))) l.
Proof.
  intros Hl Hn. unfold sorted_in_place, Zapper.sort_by_balance, list_at. simpl.
  rewrite (replace_nth_same _ _ _ Hl).
  repeat split.
  - apply sort_reverse_perm.
  - apply sort_reverse_sorted. exact Hn.
  - apply replace_nth_length.
  - intros l' Hne. rewrite replace_nth_other; [reflexivity | congruence].
Qed.

Lemma sorted_in_place_nil (h : heap) (l : addr) :
  list_at h l = [] -> sorted_in_place h h l.
Proof.
  intros H. unfold sorted_in_place. rewrite H.
  repeat split; auto. constructor.
Qed.

Lemma returns_lift_ok {A} (a : A) : returns (lift (Ok a)).
Proof. intros s. exists a, s. reflexivity. Qed.

Lemma returns_items_of (l : addr) : returns (Zapper.items_of l).
Proof. intros s. eexists; eexists; reflexivity. Qed.

Lemma returns_positions_of (l : addr) : returns (Zapper.positions_of l).
Proof. intros s. eexists; eexists; reflexivity. Qed.

(** A first step that returns and keeps the heap. *)
Lemma sorts_after {A B} (h0 : heap) (l : addr) (m : M A) (k : A -> M B) :
  returns m -> keeps_heap m -> (forall a, sorts h0 l (k a)) -> sorts h0 l (bind m k).
Proof.
  intros Hr Hk H s Hs. unfold bind. specialize (Hk s).
  destruct (Hr s) as (a & s1 & E). rewrite E in *. simpl in Hk.
  apply H. congruence.
Qed.

(** The sort, followed by steps that keep the heap. *)
Lemma sorts_then {B} (h0 : heap) (l : addr) (rest : M B) :
  (l < List.length (lists h0))%nat ->
  no_nan addr (Zapper.balance_at (objs h0)) (list_at h0 l) ->
  keeps_heap rest ->
  sorts h0 l (bind (Zapper.sort_by_balance l) (fun _ => rest)).
Proof.
  intros Hl Hn Hrest s Hs.
  assert (E : bind (Zapper.sort_by_balance l) (fun _ => rest) s
              = rest (snd (Zapper.sort_by_balance l s))) by reflexivity.
  rewrite E, Hrest. subst h0.
  apply sort_by_balance_sorts; assumption.
Qed.

Ltac skip_steps :=
  repeat (apply sorts_after;
          [ first [apply returns_print | apply returns_lift_ok
                  | apply returns_items_of | apply returns_positions_of]
          | first [apply keeps_print | apply keeps_lift
                  | apply keeps_items_of | apply keeps_positions_of]
          | intros ? ]).

(** [print_defi_report] formats the portfolio total before it sorts: when
    it returns, the total was a number. *)
Lemma print_defi_report_returned (summary : Zapper.summary) (l : addr) (s : state) :
  fst (Zapper.print_defi_report summary l s) = Ok tt ->
  is_Ok (Py.format_f (Zapper.total_value_usd summary)) = true.
Proof.
  unfold Zapper.print_defi_report.
  destruct (Py.format_f (Zapper.total_value_usd summary)) as [total | x];
    [reflexivity |].
  unfold bind, print, lift. simpl. discriminate.
Qed.

(** C10.  [print_defi_report] and [print_claimable_report] sort the list
    object they are given in place.  For a list that exists on the heap
    and whose positions have a [balance_usd] that is not NaN: once the
    portfolio total of the summary has been formatted (it is a number),
    [print_defi_report] leaves the caller's list holding the same
    positions in descending order of [balance_usd], in particular
    whenever it returns; so does [print_claimable_report]; and in both
    cases no position object and no other list is changed. *)
Theorem reports_sort_their_argument_in_place
        (summary : Zapper.summary) (l : addr) (s : state) :
  (l < List.length (lists (hp s)))%nat ->
  no_nan addr (Zapper.balance_at (objs (hp s))) (list_at (hp s) l) ->
  (is_Ok (Py.format_f (Zapper.total_value_usd summary)) = true ->
   sorted_in_place (hp s) (hp (snd (Zapper.print_defi_report summary l s))) l)
  /\ (fst (Zapper.print_defi_report summary l s) = Ok tt ->
      sorted_in_place (hp s) (hp (snd (Zapper.print_defi_report summary l s))) l)
  /\ sorted_in_place (hp s) (hp (snd (Zapper.print_claimable_report l s))) l.
Proof.
  intros Hl Hn.
  assert (Hdefi : is_Ok (Py.format_f (Zapper.total_value_usd summary)) = true ->
                  sorted_in_place (hp s)
                    (hp (snd (Zapper.print_defi_report summary l s))) l);
    [| split; [exact Hdefi | split];
       [intros Hret; apply Hdefi;
        apply (print_defi_report_returned summary l s Hret) |] ].
  - intros Htotal.
    assert (G : sorts (hp s) l (Zapper.print_defi_report summary l));
      [| apply G; reflexivity].
    unfold Zapper.print_defi_report.
    destruct (Py.format_f (Zapper.total_value_usd summary)) as [total | x];
      [| discriminate Htotal].
    skip_steps.
    apply sorts_after.
    + destruct (Zapper.meta_type_summary summary); returns_tac.
    + destruct (Zapper.meta_type_summary summary); keeps_tac.
    + intros _. skip_steps.
      apply sorts_then; [exact Hl | exact Hn |].
      keeps_tac.
      match goal with
      | |- keeps_heap (match underlying_tokens ?p with _ => _ end) =>
          destruct (underlying_tokens p)
      end; keeps_tac.
  - assert (G : sorts (hp s) l (Zapper.print_claimable_report l));
      [| apply G; reflexivity].
    unfold Zapper.print_claimable_report.
    intros s1 Hs1. unfold bind at 1. unfold Zapper.items_of at 1. cbv beta iota.
    rewrite Hs1.
    destruct (list_at (hp s) l) as [| a0 rest] eqn:Hitems.
    + unfold print. simpl. rewrite Hs1. apply sorted_in_place_nil. exact Hitems.
    + rewrite <- Hitems in Hn.
      revert s1 Hs1.
      change (sorts (hp s) l
                (positions <- Zapper.positions_of l ;;
                 let total_claimable :=
                   fold_left (fun acc pos => PyFloat.add acc (balance_usd pos))
                             positions (S754_zero false) in
                 print (Header "CLAIMABLE REWARDS SUMMARY") ;;
                 print (Amount "Total Claimable Value:" total_claimable) ;;
                 print (Count "Number of Claimable Positions:"
                              (List.length (a0 :: rest))) ;;
                 print (Text "Claimable Positions:") ;;
                 Zapper.sort_by_balance l ;;
                 items <- Zapper.items_of l ;;
                 for_each (Zapper.enumerate 1 items)
                          (fun ia =>
                             position <- Zapper.position_at (snd ia) ;;
                             print (Listed (fst ia) position) ;;
                             for_each (underlying_tokens position) Zapper.print_reward))).
      skip_steps. cbv zeta. skip_steps.
      apply sorts_then; [exact Hl | exact Hn |].
      keeps_tac.
Qed.

(** Three positions of 500, 20 and 980 dollars: after either report the
    list holds them in the order 980, 500, 20. *)
Lemma reports_sort_their_argument_in_place_witness :
  (sorted_in_place (hp Scenario.portfolio_heap)
     (hp (snd (Zapper.print_defi_report Scenario.a_summary 0%nat
                                        Scenario.portfolio_heap))) 0%nat
   /\ sorted_in_place (hp Scenario.portfolio_heap)
        (hp (snd (Zapper.print_claimable_report 0%nat Scenario.portfolio_heap))) 0%nat)
  /\ list_at (hp (snd (Zapper.print_defi_report Scenario.a_summary 0%nat
                                                Scenario.portfolio_heap))) 0%nat
     = [2; 0; 1]%nat.
Proof.
  split; [| vm_compute; reflexivity].
  assert (Hl : (0 < List.length (lists (hp Scenario.portfolio_heap)))%nat)
    by (simpl; lia).
  assert (Hn : no_nan addr (Zapper.balance_at (objs (hp Scenario.portfolio_heap)))
                      (list_at (hp Scenario.portfolio_heap) 0%nat))
    by (repeat constructor).
  destruct (reports_sort_their_argument_in_place
              Scenario.a_summary 0%nat Scenario.portfolio_heap Hl Hn)
    as (Hd & _ & Hc).
  split; [apply Hd; reflexivity | exact Hc].
Defined.

(** C10 as stated fails: the list is not always left in descending
    order.  Of three positions with the balances 1.0, NaN and 2.0, in
    this order, no one is less than the one before it in the reversed
    list, so the sort of either report leaves the list as it is: the
    position of 1.0 still stands before the position of 2.0.  And when the
    total of the summary is not a number, [print_defi_report] raises
    before it sorts and leaves the list 500, 20, 980 as it was. *)
Lemma a_nan_balance_is_left_unsorted :
  let claimable := Zapper.print_claimable_report 0%nat Scenario.nan_heap in
  let defi := Zapper.print_defi_report Scenario.a_summary 0%nat Scenario.nan_heap in
  let no_total :=
    Zapper.print_defi_report
      {| Zapper.addresses := Main.wallet_addresses;
         Zapper.chain_ids := None;
         Zapper.chain_names := [];
         Zapper.total_value_usd := JNull;
         Zapper.position_count := 3;
         Zapper.unique_apps := 3;
         Zapper.app_summary := [];
         Zapper.meta_type_summary := [] |}
      0%nat Scenario.portfolio_heap in
  (fst claimable = Ok tt
   /\ map (Zapper.balance_at (objs (hp (snd claimable))))
          (list_at (hp (snd claimable)) 0%nat)
      = [Scenario.num 1; S754_nan; Scenario.num 2]
   /\ ~ sorted_in_place (hp Scenario.nan_heap) (hp (snd claimable)) 0%nat)
  /\ (fst defi = Ok tt
      /\ map (Zapper.balance_at (objs (hp (snd defi)))) (list_at (hp (snd defi)) 0%nat)
         = [Scenario.num 1; S754_nan; Scenario.num 2]
      /\ ~ sorted_in_place (hp Scenario.nan_heap) (hp (snd defi)) 0%nat)
  /\ (fst no_total = Raise TypeError
      /\ map (Zapper.balance_at (objs (hp (snd no_total))))
             (list_at (hp (snd no_total)) 0%nat)
         = [Scenario.num 500; Scenario.num 20; Scenario.num 980]
      /\ ~ sorted_in_place (hp Scenario.portfolio_heap) (hp (snd no_total)) 0%nat)
  /\ PyFloat.ltb (Scenario.num 1) (Scenario.num 2) = true
  /\ PyFloat.ltb (Scenario.num 500) (Scenario.num 980) = true.
Proof.
  assert (N : forall (h h' : heap) (a b : addr) (rest : list addr),
             list_at h' 0%nat = a :: rest ->
             In b rest ->
             PyFloat.ltb (Zapper.balance_at (objs h') a) (Zapper.balance_at (objs h') b)
             = true ->
             ~ sorted_in_place h h' 0%nat).
  { intros h h' a b rest E Hb Hlt (_ & Hs & _). rewrite E in Hs.
    apply StronglySorted_inv in Hs. destruct Hs as [_ Hall].
    rewrite Forall_forall in Hall. specialize (Hall b Hb).
    unfold not_below in Hall. congruence. }
  cbv zeta. repeat split; try (vm_compute; reflexivity).
  - apply (N _ _ 0%nat 2%nat [1; 2]%nat); [| right; left |]; vm_compute; reflexivity.
  - apply (N _ _ 0%nat 2%nat [1; 2]%nat); [| right; left |]; vm_compute; reflexivity.
  - apply (N _ _ 0%nat 2%nat [1; 2]%nat); [| right; left |]; vm_compute; reflexivity.
Qed.

(* ------------------------------------------------------------------ *)
(** * C9: the claimable filter *)

Lemma deref_filter (os : list DeFiPosition) (l : list addr) :
  deref os (filter (Zapper.claimable_at os) l) = filter Zapper.claimable (deref os l).
Proof.
  induction l as [| a l IH]; simpl; [reflexivity |].
  unfold Zapper.claimable_at at 1.
  destruct (nth_error os a) as [pos |] eqn:E; [| exact IH].
  destruct (Zapper.claimable pos) eqn:C; simpl.
  - rewrite E, C, IH. reflexivity.
  - rewrite C. exact IH.
Qed.

Lemma list_at_app_old (ls : list (list addr)) (x : list addr) (os os' : list DeFiPosition)
      (l : addr) :
  (l < List.length ls)%nat ->
  list_at {| objs := os; lists := (ls ++ [x])%list |} l
  = list_at {| objs := os'; lists := ls |} l.
Proof.
  intros H. unfold list_at. simpl. rewrite nth_error_app1 by exact H. reflexivity.
Qed.

Lemma list_at_app_new (ls : list (list addr)) (x : list addr) (os : list DeFiPosition) :
  list_at {| objs := os; lists := (ls ++ [x])%list |} (List.length ls) = x.
Proof.
  unfold list_at. simpl. rewrite nth_error_app2 by lia.
  rewrite Nat.sub_diag. reflexivity.
Qed.

(** C9.  [get_claimable_positions] returns a new list that holds, in
    their original order, exactly the positions of its argument whose
    [meta_type] is ['CLAIMABLE'] and whose [balance_usd] is greater than
    [0.01]; a position whose balance is [0.01] is left out; the call
    changes no position, no existing list (in particular not its
    argument), sends nothing and prints nothing. *)
Theorem claimable_positions_are_filtered (l : addr) (s : state) :
  let h := hp s in
  let run := Zapper.get_claimable_positions l s in
  let h' := hp (snd run) in
  let new := List.length (lists h) in
  fst run = Ok new
  /\ list_at h' new = filter (Zapper.claimable_at (objs h)) (list_at h l)
  /\ deref (objs h') (list_at h' new) = filter Zapper.claimable (deref (objs h) (list_at h l))
  /\ (forall pos,
         Zapper.claimable pos = true
         <-> meta_type pos = "CLAIMABLE"
             /\ PyFloat.ltb PyFloat.f0_01 (balance_usd pos) = true)
  /\ (forall pos, balance_usd pos = PyFloat.f0_01 -> Zapper.claimable pos = false)
  /\ objs h' = objs h
  /\ (forall l', (l' < List.length (lists h))%nat -> list_at h' l' = list_at h l')
  /\ sent (snd run) = sent s
  /\ out (snd run) = out s.
Proof.
  intros h run h' new. subst run h' new h.
  unfold Zapper.get_claimable_positions, Zapper.new_list. simpl.
  destruct (hp s) as [os ls]. simpl.
  split; [reflexivity |].
  split; [apply list_at_app_new |].
  split; [rewrite list_at_app_new; apply deref_filter |].
  split.
  { intros pos. unfold Zapper.claimable, PyFloat.gtb.
    rewrite andb_true_iff, String.eqb_eq. reflexivity. }
  split.
  { intros pos E. unfold Zapper.claimable. rewrite E.
    apply andb_false_iff. right. vm_compute. reflexivity. }
  split; [reflexivity |].
  split; [| split; reflexivity].
  intros l' Hl'. apply list_at_app_old. exact Hl'.
Qed.

(** Of the positions Aave (SUPPLIED, 500), Morpho (CLAIMABLE, 20) and
    Pendle (CLAIMABLE, 980) the second and the third are kept. *)
Lemma claimable_positions_are_filtered_witness :
  list_at (hp (snd (Zapper.get_claimable_positions 0%nat Scenario.portfolio_heap))) 1%nat
  = [1; 2]%nat
  /\ list_at (hp (snd (Zapper.get_claimable_positions 0%nat Scenario.portfolio_heap)))
             0%nat
     = list_at (hp Scenario.portfolio_heap) 0%nat.
Proof.
  pose proof (claimable_positions_are_filtered 0%nat Scenario.portfolio_heap) as H.
  cbv zeta in H.
  destruct H as (_ & Hnew & _ & _ & _ & _ & Hold & _).
  split.
  - exact Hnew.
  - apply Hold. simpl. lia.
Defined.

(* ------------------------------------------------------------------ *)
(** * Binary64 arithmetic on values that need no rounding *)

Lemma digits2_pos_bounds (p : positive) :
  2 ^ (Zpos (digits2_pos p) - 1) <= Zpos p < 2 ^ Zpos (digits2_pos p).
Proof.
  induction p as [p IH | p IH |]; simpl digits2_pos.
  - rewrite Pos2Z.inj_succ.
    replace (Z.succ (Zpos (digits2_pos p)) - 1) with (Z.succ (Zpos (digits2_pos p) - 1)) by lia.
    rewrite !Z.pow_succ_r by lia. lia.
  - rewrite Pos2Z.inj_succ.
    replace (Z.succ (Zpos (digits2_pos p)) - 1) with (Z.succ (Zpos (digits2_pos p) - 1)) by lia.
    rewrite !Z.pow_succ_r by lia. lia.
  - simpl. lia.
Qed.

Lemma digits_unique (z n : Z) :
  2 ^ (n - 1) <= z < 2 ^ n -> 0 < n -> Zdigits2 z = n.
Proof.
  intros [Hlo Hhi] Hn.
  assert (Hz : 0 < z) by (pose proof (Z.pow_pos_nonneg 2 (n - 1)); lia).
  destruct z as [| p | p]; try lia. simpl.
  pose proof (digits2_pos_bounds p) as [Blo Bhi].
  set (d := Zpos (digits2_pos p)) in *.
  assert (0 < d) by (unfold d; lia).
  destruct (Z.lt_trichotomy d n) as [C | [C | C]]; [| exact C |].
  - assert (2 ^ d <= 2 ^ (n - 1)) by (apply Z.pow_le_mono_r; lia). lia.
  - assert (2 ^ n <= 2 ^ (d - 1)) by (apply Z.pow_le_mono_r; lia). lia.
Qed.

Lemma digits_bounds (z : Z) :
  0 < z -> 0 < Zdigits2 z /\ 2 ^ (Zdigits2 z - 1) <= z < 2 ^ Zdigits2 z.
Proof.
  intros Hz. destruct z as [| p | p]; try lia. simpl.
  split; [lia | apply digits2_pos_bounds].
Qed.

Lemma digits_mul (a b : Z) :
  0 < a -> 0 < b ->
  Zdigits2 a + Zdigits2 b - 1 <= Zdigits2 (a * b) <= Zdigits2 a + Zdigits2 b.
Proof.
  intros Ha Hb.
  destruct (digits_bounds a Ha) as (Pa & La & Ua).
  destruct (digits_bounds b Hb) as (Pb & Lb & Ub).
  assert (Hab : 0 < a * b) by lia.
  destruct (digits_bounds (a * b) Hab) as (Pab & Lab & Uab).
  set (da := Zdigits2 a) in *. set (db := Zdigits2 b) in *.
  set (dab := Zdigits2 (a * b)) in *.
  assert (L : 2 ^ (da + db - 2) <= a * b).
  { replace (da + db - 2) with ((da - 1) + (db - 1)) by lia.
    rewrite Z.pow_add_r by lia.
    apply Z.mul_le_mono_nonneg; try assumption; apply Z.pow_nonneg; lia. }
  assert (U : a * b < 2 ^ (da + db)).
  { rewrite Z.pow_add_r by lia.
    apply Z.mul_lt_mono_nonneg; lia. }
  split.
  - destruct (Z_lt_le_dec dab (da + db - 1)) as [C |]; [| assumption].
    assert (2 ^ dab <= 2 ^ (da + db - 2)) by (apply Z.pow_le_mono_r; lia). lia.
  - destruct (Z_lt_le_dec (da + db) dab) as [C |]; [| assumption].
    assert (2 ^ (da + db) <= 2 ^ (dab - 1)) by (apply Z.pow_le_mono_r; lia). lia.
Qed.

Lemma digits_shift (a t : Z) :
  0 < a -> 0 <= t -> Zdigits2 (a * 2 ^ t) = Zdigits2 a + t.
Proof.
  intros Ha Ht. destruct (digits_bounds a Ha) as (Pa & La & Ua).
  apply digits_unique; [| lia].
  replace (Zdigits2 a + t - 1) with ((Zdigits2 a - 1) + t) by lia.
  rewrite !Z.pow_add_r by lia.
  assert (0 < 2 ^ t) by (apply Z.pow_pos_nonneg; lia).
  split; [apply Z.mul_le_mono_nonneg_r; lia | apply Z.mul_lt_mono_pos_r; lia].
Qed.

Lemma iter_pos_nat {A} (f : A -> A) (p : positive) (x : A) :
  iter_pos f p x = Nat.iter (Pos.to_nat p) f x.
Proof.
  revert x. induction p as [p IH | p IH |]; intros x; simpl iter_pos.
  - rewrite !IH. rewrite Pos2Nat.inj_xI.
    replace (S (2 * Pos.to_nat p)) with (Pos.to_nat p + (Pos.to_nat p + 1))%nat by lia.
    rewrite !Nat.iter_add. simpl. reflexivity.
  - rewrite !IH. rewrite Pos2Nat.inj_xO.
    replace (2 * Pos.to_nat p)%nat with (Pos.to_nat p + Pos.to_nat p)%nat by lia.
    rewrite Nat.iter_add. reflexivity.
  - reflexivity.
Qed.

Lemma shiftl_nat_Z (m : positive) (n : nat) :
  Zpos (Pos.shiftl_nat m n) = Zpos m * 2 ^ Z.of_nat n.
Proof.
  induction n as [| n IH].
  - simpl. lia.
  - rewrite Nat2Z.inj_succ, Z.pow_succ_r by lia.
    change (Pos.shiftl_nat m (S n)) with (xO (Pos.shiftl_nat m n)).
    rewrite Pos2Z.inj_xO, IH. lia.
Qed.

Lemma shr_exact (m : positive) (n : nat) :
  Nat.iter n shr_1 {| shr_m := Zpos (Pos.shiftl_nat m n); shr_r := false; shr_s := false |}
  = {| shr_m := Zpos m; shr_r := false; shr_s := false |}.
Proof.
  induction n as [| n IH]; [reflexivity |].
  rewrite Nat.iter_succ_r.
  change (Pos.shiftl_nat m (S n)) with (xO (Pos.shiftl_nat m n)).
  simpl shr_1. exact IH.
Qed.

Lemma fexp_normal (e : Z) : -1021 <= e -> fexp PyFloat.prec PyFloat.emax e = e - 53.
Proof. intros H. unfold fexp, emin, PyFloat.prec, PyFloat.emax. lia. Qed.

(** Rounding a mantissa whose low bits are zero. *)
Lemma round_exact (s : bool) (M : Z) (m : positive) (e : Z) (n : nat) :
  M = Zpos m * 2 ^ Z.of_nat n ->
  Zpos (digits2_pos m) = 53 ->
  -1074 <= e + Z.of_nat n <= 971 ->
  binary_round_aux PyFloat.prec PyFloat.emax s M e loc_Exact = S754_finite s m (e + Z.of_nat n).
Proof.
  intros HM Hd He. rewrite <- shiftl_nat_Z in HM. subst M.
  unfold binary_round_aux.
  assert (Hdig : Zdigits2 (Zpos (Pos.shiftl_nat m n)) = 53 + Z.of_nat n).
  { rewrite shiftl_nat_Z. rewrite digits_shift by lia. cbn [Zdigits2]. rewrite Hd. reflexivity. }
  assert (E1 : shr_fexp PyFloat.prec PyFloat.emax (Zpos (Pos.shiftl_nat m n)) e loc_Exact
               = ({| shr_m := Zpos m; shr_r := false; shr_s := false |},
                  e + Z.of_nat n)).
  { unfold shr_fexp. rewrite Hdig, fexp_normal by lia.
    replace (53 + Z.of_nat n + e - 53 - e) with (Z.of_nat n) by lia.
    unfold shr, shr_record_of_loc.
    destruct n as [| n'].
    - simpl. f_equal. lia.
    - change (Z.of_nat (S n')) with (Zpos (Pos.of_succ_nat n')). cbv iota beta.
      rewrite iter_pos_nat, SuccNat2Pos.id_succ, shr_exact. reflexivity. }
  rewrite E1. cbn [shr_m loc_of_shr_record round_nearest_even].
  assert (E2 : shr_fexp PyFloat.prec PyFloat.emax (Zpos m) (e + Z.of_nat n) loc_Exact
               = ({| shr_m := Zpos m; shr_r := false; shr_s := false |},
                  e + Z.of_nat n)).
  { unfold shr_fexp. cbn [Zdigits2]. rewrite Hd, fexp_normal by lia.
    replace (53 + (e + Z.of_nat n) - 53 - (e + Z.of_nat n)) with 0 by lia.
    reflexivity. }
  rewrite E2. cbn [shr_m].
  unfold PyFloat.emax, PyFloat.prec.
  destruct (Z.leb_spec (e + Z.of_nat n) (1024 - 53)); [reflexivity | lia].
Qed.

Lemma digits_le_53 (u : Z) : 0 < u < 2 ^ 53 -> 0 < Zdigits2 u <= 53.
Proof.
  intros [Hlo Hhi]. destruct (digits_bounds u Hlo) as (P & L & U).
  split; [exact P |].
  destruct (Z_lt_le_dec 53 (Zdigits2 u)) as [C |]; [| assumption].
  assert (2 ^ 53 <= 2 ^ (Zdigits2 u - 1)) by (apply Z.pow_le_mono_r; lia). lia.
Qed.

Lemma canon_mantissa (u : Z) :
  0 < u < 2 ^ 53 ->
  0 < u * 2 ^ (53 - Zdigits2 u)
  /\ Zpos (digits2_pos (Z.to_pos (u * 2 ^ (53 - Zdigits2 u)))) = 53.
Proof.
  intros Hu. destruct (digits_le_53 u Hu) as [P L].
  assert (Hpos : 0 < u * 2 ^ (53 - Zdigits2 u)).
  { apply Z.mul_pos_pos; [lia | apply Z.pow_pos_nonneg; lia]. }
  split; [exact Hpos |].
  assert (E : Zdigits2 (u * 2 ^ (53 - Zdigits2 u)) = 53)
    by (rewrite digits_shift by lia; lia).
  destruct (u * 2 ^ (53 - Zdigits2 u)) as [| p | p]; try lia.
  exact E.
Qed.

Lemma round_to_canon (M e u t : Z) (n : nat) :
  0 < u < 2 ^ 53 ->
  M = u * 2 ^ (53 - Zdigits2 u) * 2 ^ Z.of_nat n ->
  e + Z.of_nat n = Zdigits2 u + t - 53 ->
  -1074 <= Zdigits2 u + t - 53 <= 971 ->
  binary_round_aux PyFloat.prec PyFloat.emax false M e loc_Exact = canon u t.
Proof.
  intros Hu HM He Hr. destruct (canon_mantissa u Hu) as [Hpos Hd].
  unfold canon. rewrite <- He.
  apply round_exact; [| exact Hd | lia].
  rewrite Z2Pos.id by exact Hpos. exact HM.
Qed.

Lemma iter_xO_Z (m d : positive) : Zpos (Pos.iter xO m d) = Zpos m * 2 ^ Zpos d.
Proof.
  induction d as [| d IH] using Pos.peano_ind.
  - simpl. lia.
  - rewrite Pos.iter_succ, Pos2Z.inj_xO, IH, Pos2Z.inj_succ, Z.pow_succ_r by lia. lia.
Qed.

Lemma of_int_canon (u t : Z) :
  0 < u < 2 ^ 53 -> 0 <= t -> Zdigits2 u + t <= 1024 ->
  PyFloat.of_int (u * 2 ^ t) = Ok (canon u t).
Proof.
  intros Hu Ht Hr. destruct (digits_le_53 u Hu) as [P L].
  assert (Hn : 0 < u * 2 ^ t)
    by (apply Z.mul_pos_pos; [lia | apply Z.pow_pos_nonneg; lia]).
  assert (Hdn : Zdigits2 (u * 2 ^ t) = Zdigits2 u + t) by (apply digits_shift; lia).
  destruct (u * 2 ^ t) as [| p | p] eqn:En; try lia.
  unfold PyFloat.of_int, binary_normalize, binary_round.
  cbn [Zdigits2] in Hdn.
  rewrite Z.add_0_r, Hdn, fexp_normal by lia.
  assert (R : (let '(mz, ez) := shl_align p 0 (Zdigits2 u + t - 53) in
               binary_round_aux PyFloat.prec PyFloat.emax false (Zpos mz) ez loc_Exact) = canon u t).
  { unfold shl_align. rewrite Z.sub_0_r.
    destruct (Zdigits2 u + t - 53) as [| q | q] eqn:Eq.
    - apply (round_to_canon _ _ u t 0%nat Hu); try lia.
      rewrite <- En. replace t with (53 - Zdigits2 u) by lia. simpl. lia.
    - apply (round_to_canon _ _ u t (Pos.to_nat q) Hu); rewrite ?positive_nat_Z; try lia.
      rewrite <- En. rewrite <- Z.mul_assoc, <- Z.pow_add_r by lia.
      f_equal. f_equal. lia.
    - apply (round_to_canon _ _ u t 0%nat Hu); try lia.
      rewrite iter_xO_Z, <- En. simpl (Z.of_nat 0). rewrite Z.pow_0_r, Z.mul_1_r.
      rewrite <- Z.mul_assoc, <- Z.pow_add_r by lia.
      f_equal. f_equal. lia. }
  rewrite R. reflexivity.
Qed.

Lemma new_location_zero (b : Z) : new_location b 0 = loc_Exact.
Proof. unfold new_location. destruct (Z.even b); reflexivity. Qed.

(** The division of a multiple [k * b] by [b]: exact, and equal to the
    float of [k]. *)
Lemma div_core_multiple (k b : Z) :
  0 < k < 2 ^ 53 -> 0 < b ->
  let '(q, e, l) := SFdiv_core_binary PyFloat.prec PyFloat.emax (k * b) 0 b 0 in
  binary_round_aux PyFloat.prec PyFloat.emax false q e l = canon k 0.
Proof.
  intros Hk Hb. destruct (digits_le_53 k Hk) as [P L].
  assert (Hkb : 0 < k * b) by lia.
  pose proof (digits_mul k b (proj1 Hk) Hb) as Hd.
  destruct (digits_bounds b Hb) as (Pb & _).
  unfold SFdiv_core_binary.
  rewrite !Z.add_0_r, Z.sub_0_r.
  set (d1 := Zdigits2 (k * b)) in *. set (d2 := Zdigits2 b) in *.
  rewrite fexp_normal by lia.
  rewrite Z.min_l by lia.
  replace (0 - (d1 - d2 - 53)) with (53 - (d1 - d2)) by lia.
  remember (53 - (d1 - d2)) as s eqn:Es.
  assert (Hs : 0 <= s) by lia.
  assert (Hm' : match s with
                | 0 => k * b
                | Zpos _ => Z.shiftl (k * b) s
                | Zneg _ => 0
                end = k * 2 ^ s * b).
  { clear Es. destruct s as [| p | p]; try lia.
    rewrite Z.shiftl_mul_pow2 by lia. lia. }
  rewrite Hm'.
  assert (Hdiv : Z.div_eucl (k * 2 ^ s * b) b = (k * 2 ^ s, 0)).
  { pose proof (Z.div_mul (k * 2 ^ s) b ltac:(lia)) as Hq.
    pose proof (Z.mod_mul (k * 2 ^ s) b ltac:(lia)) as Hr.
    unfold Z.div, Z.modulo in Hq, Hr.
    destruct (Z.div_eucl (k * 2 ^ s * b) b) as [q r]. simpl in *. congruence. }
  rewrite Hdiv, new_location_zero.
  assert (Hn : 0 <= Zdigits2 k - (d1 - d2)) by lia.
  apply (round_to_canon _ _ k 0 (Z.to_nat (Zdigits2 k - (d1 - d2))) Hk);
    rewrite ?Z2Nat.id by lia; try lia.
  rewrite <- Z.mul_assoc, <- Z.pow_add_r by lia.
  f_equal. f_equal. lia.
Qed.

Lemma mul_canon (a ta b tb : Z) :
  0 < a -> 0 < b -> a * b < 2 ^ 53 ->
  -1074 <= Zdigits2 (a * b) + (ta + tb) - 53 <= 971 ->
  PyFloat.mul (canon a ta) (canon b tb) = canon (a * b) (ta + tb).
Proof.
  intros Ha Hb Hab Hr.
  assert (Ha' : 0 < a < 2 ^ 53) by nia.
  assert (Hb' : 0 < b < 2 ^ 53) by nia.
  assert (Hab' : 0 < a * b < 2 ^ 53) by lia.
  destruct (digits_le_53 a Ha') as [Pa La].
  destruct (digits_le_53 b Hb') as [Pb Lb].
  destruct (digits_le_53 (a * b) Hab') as [Pab Lab].
  pose proof (digits_mul a b Ha Hb) as Hd.
  destruct (canon_mantissa a Ha') as [Ma _].
  destruct (canon_mantissa b Hb') as [Mb _].
  unfold PyFloat.mul, canon at 1 2. cbn [SFmul xorb].
  rewrite Pos2Z.inj_mul, !Z2Pos.id by assumption.
  set (da := Zdigits2 a) in *. set (db := Zdigits2 b) in *.
  set (dab := Zdigits2 (a * b)) in *.
  assert (Hn : 0 <= 53 + dab - da - db) by lia.
  apply (round_to_canon _ _ (a * b) (ta + tb) (Z.to_nat (53 + dab - da - db)) Hab');
    rewrite ?Z2Nat.id by lia; fold dab; try lia.
  replace (a * 2 ^ (53 - da) * (b * 2 ^ (53 - db)))
    with (a * b * (2 ^ (53 - da) * 2 ^ (53 - db))) by lia.
  rewrite <- !Z.mul_assoc, <- !Z.pow_add_r by lia.
  f_equal. f_equal. f_equal. lia.
Qed.

Lemma eq_int_canon (u t : Z) :
  0 < u < 2 ^ 53 -> 0 <= t -> PyFloat.eq_int (canon u t) (u * 2 ^ t) = true.
Proof.
  intros Hu Ht. destruct (digits_le_53 u Hu) as [P L].
  destruct (canon_mantissa u Hu) as [Hpos _].
  unfold canon, PyFloat.eq_int. cbv zeta.
  set (du := Zdigits2 u) in *.
  destruct (du + t - 53) as [| p | p] eqn:E; apply Z.eqb_eq;
    rewrite Z2Pos.id by exact Hpos.
  - f_equal. f_equal. lia.
  - rewrite <- E, <- Z.mul_assoc, <- Z.pow_add_r by lia. f_equal. f_equal. lia.
  - replace (Zpos p) with (53 - du - t) by lia.
    rewrite <- Z.mul_assoc, <- Z.pow_add_r by lia. f_equal. f_equal. lia.
Qed.

(* ------------------------------------------------------------------ *)
(** * C6: scaling by the decimals *)

Lemma is_exactly_canon (k b : Z) :
  0 < k < 2 ^ 53 -> is_exactly (canon k 0) (k * b) b = true.
Proof.
  intros Hk. destruct (digits_le_53 k Hk) as [P L].
  destruct (canon_mantissa k Hk) as [Hpos _].
  unfold canon, is_exactly, PyFloat.signed.
  set (dk := Zdigits2 k) in *.
  destruct (dk + 0 - 53) as [| p | p] eqn:E; try lia; apply Z.eqb_eq;
    rewrite Z2Pos.id by exact Hpos.
  - replace (53 - dk) with 0 by lia. rewrite Z.pow_0_r. lia.
  - replace (Zpos p) with (53 - dk) by lia. lia.
Qed.

Lemma scale_whole (k d : Z) :
  0 < k < 2 ^ 53 -> 0 <= d -> scale (Uint (k * 10 ^ d)) d = Ok (canon k 0).
Proof.
  intros Hk Hd.
  assert (Hb : 0 < 10 ^ d) by (apply Z.pow_pos_nonneg; lia).
  assert (Hkb : 0 < k * 10 ^ d) by lia.
  pose proof (div_core_multiple k (10 ^ d) Hk Hb) as H.
  unfold scale, PyFloat.int_truediv.
  destruct (10 ^ d) as [| pb | pb] eqn:Eb; try lia.
  destruct (k * Zpos pb) as [| pa | pa] eqn:Ea; try lia.
  cbn [Z.abs Z.ltb Z.compare xorb].
  destruct (SFdiv_core_binary PyFloat.prec PyFloat.emax (Zpos pa) 0 (Zpos pb) 0)
    as [[q e] l].
  rewrite H. reflexivity.
Qed.

Lemma pow10_split (d : Z) : 0 <= d -> 10 ^ d = 5 ^ d * 2 ^ d.
Proof. intros Hd. change 10 with (5 * 2). apply Z.pow_mul_l. Qed.

Lemma pow5_bound (k d : Z) :
  0 < k -> 0 <= d -> k * 5 ^ d < 2 ^ 53 -> 0 < 5 ^ d < 2 ^ 53 /\ d < 53.
Proof.
  intros Hk Hd H.
  assert (H5 : 0 < 5 ^ d) by (apply Z.pow_pos_nonneg; lia).
  assert (H5' : 5 ^ d < 2 ^ 53) by nia.
  split; [lia |].
  destruct (Z_lt_le_dec d 53) as [| C]; [assumption |].
  assert (2 ^ 53 <= 2 ^ d) by (apply Z.pow_le_mono_r; lia).
  assert (2 ^ d <= 5 ^ d) by (apply Z.pow_le_mono_l; lia).
  lia.
Qed.

(** C6, as the code has it.  The normalized value is the binary64
    quotient [v / 10**d].  For a whole number of tokens, [v = k * 10^d]
    with [0 < k < 2^53], it is [float(k)] and equals [v / 10^d] exactly;
    and when moreover [k * 5^d < 2^53], multiplying it by [10**d]
    recovers [v] exactly. *)
Theorem whole_tokens_scale_exactly (k d : Z) :
  0 < k < 2 ^ 53 -> 0 <= d ->
  scale (Uint (k * 10 ^ d)) d = PyFloat.of_int k
  /\ (exists f, scale (Uint (k * 10 ^ d)) d = Ok f
                /\ is_exactly f (k * 10 ^ d) (10 ^ d) = true)
  /\ (k * 5 ^ d < 2 ^ 53 -> round_trips (k * 10 ^ d) d = true).
Proof.
  intros Hk Hd.
  destruct (digits_le_53 k Hk) as [P L].
  pose proof (scale_whole k d Hk Hd) as Hs.
  split; [| split].
  - rewrite Hs. symmetry.
    replace k with (k * 2 ^ 0) at 1 by (rewrite Z.pow_0_r; lia).
    apply of_int_canon; lia.
  - exists (canon k 0). split; [exact Hs | apply is_exactly_canon; exact Hk].
  - intros Hu.
    destruct (pow5_bound k d (proj1 Hk) Hd Hu) as [H5 Hd53].
    destruct (digits_le_53 (5 ^ d) H5) as [P5 L5].
    assert (Hku : 0 < k * 5 ^ d < 2 ^ 53) by lia.
    destruct (digits_le_53 (k * 5 ^ d) Hku) as [Pu Lu].
    unfold round_trips, rescale. rewrite Hs. cbn [rbind].
    rewrite (pow10_split d Hd) at 1.
    rewrite (of_int_canon (5 ^ d) d H5 Hd) by lia. cbn [rbind].
    rewrite mul_canon by lia.
    replace (k * 10 ^ d) with (k * 5 ^ d * 2 ^ (0 + d))
      by (rewrite (pow10_split d Hd), Z.add_0_l; lia).
    apply eq_int_canon; lia.
Qed.

(** 1500 tokens with 18 decimals. *)
Lemma whole_tokens_scale_exactly_witness :
  scale (Uint (1500 * 10 ^ 18)) 18 = PyFloat.of_int 1500
  /\ round_trips (1500 * 10 ^ 18) 18 = true.
Proof.
  assert (Hk : 0 < 1500 < 2 ^ 53) by (split; reflexivity).
  assert (Hd : 0 <= 18) by discriminate.
  destruct (whole_tokens_scale_exactly 1500 18 Hk Hd) as (H1 & _ & H3).
  split; [exact H1 | apply H3; reflexivity].
Defined.

(** C6 as stated fails: one base unit with 18 decimals is normalized to a
    float that is not [1 / 10^18], and 29 base units with 18 decimals, or
    123 with 6, do not come back when the normalized value is multiplied
    by [10**d]. *)
Lemma scaling_does_not_round_trip :
  scale (Uint 1) 18 = Ok (S754_finite false 5192296858534828 (-112))
  /\ is_exactly (S754_finite false 5192296858534828 (-112)) 1 (10 ^ 18) = false
  /\ round_trips 29 18 = false
  /\ round_trips 123 6 = false.
Proof. repeat split; vm_compute; reflexivity. Qed.

(* ------------------------------------------------------------------ *)
(** * C7: the percentage is the ratio of the supplies times 100 *)

Lemma canon_shift (u a t : Z) :
  0 < u -> 0 <= a -> u * 2 ^ a < 2 ^ 53 -> canon (u * 2 ^ a) t = canon u (t + a).
Proof.
  intros Hu Ha Hb.
  assert (H2 : 0 < 2 ^ a) by (apply Z.pow_pos_nonneg; lia).
  assert (Hu' : 0 < u * 2 ^ a < 2 ^ 53) by lia.
  destruct (digits_le_53 _ Hu') as [P L].
  rewrite digits_shift in P, L by lia.
  unfold canon. rewrite digits_shift by lia.
  f_equal; [| lia].
  f_equal. rewrite <- Z.mul_assoc, <- Z.pow_add_r by lia.
  f_equal. f_equal. lia.
Qed.

(** The quotient of two floats with the same mantissa is a power of
    two. *)
Lemma div_same_mantissa (m : positive) (e1 e2 : Z) :
  Zpos (digits2_pos m) = 53 ->
  -1021 <= e1 - e2 <= 1023 ->
  SFdiv PyFloat.prec PyFloat.emax (S754_finite false m e1) (S754_finite false m e2)
  = S754_finite false 4503599627370496 (e1 - e2 - 52).
Proof.
  intros Hd He. unfold SFdiv, SFdiv_core_binary. cbn [Zdigits2 xorb]. rewrite Hd.
  replace (53 + e1 - (53 + e2)) with (e1 - e2) by lia.
  rewrite fexp_normal by lia.
  rewrite Z.min_l by lia.
  replace (e1 - e2 - (e1 - e2 - 53)) with 53 by lia.
  rewrite Z.shiftl_mul_pow2 by lia.
  assert (Hdiv : Z.div_eucl (Zpos m * 2 ^ 53) (Zpos m) = (2 ^ 53, 0)).
  { pose proof (Z.div_mul (2 ^ 53) (Zpos m) ltac:(lia)) as Hq.
    pose proof (Z.mod_mul (2 ^ 53) (Zpos m) ltac:(lia)) as Hr.
    rewrite (Z.mul_comm (Zpos m)).
    unfold Z.div, Z.modulo in Hq, Hr.
    destruct (Z.div_eucl (2 ^ 53 * Zpos m) (Zpos m)) as [q r]. simpl in *. congruence. }
  rewrite Hdiv, new_location_zero.
  rewrite (round_exact false (2 ^ 53) 4503599627370496 (e1 - e2 - 53) 1);
    [f_equal; lia | reflexivity | reflexivity | simpl Z.of_nat; lia].
Qed.

(** [k] whole tokens over [k * 2^a] whole tokens make [100 / 2^a] per
    cent, exactly. *)
Lemma percentage_of_a_binary_fraction (k a : Z) :
  0 < k -> 0 <= a -> k * 2 ^ a < 2 ^ 53 ->
  Supply.percentage (canon k 0) (canon (k * 2 ^ a) 0) = Ok (canon 100 (- a))
  /\ is_exactly (canon 100 (- a)) 100 (2 ^ a) = true.
Proof.
  intros Hk Ha Hb.
  assert (H2 : 1 <= 2 ^ a) by (pose proof (Z.pow_pos_nonneg 2 a); lia).
  assert (Hk' : 0 < k < 2 ^ 53) by nia.
  assert (Ha' : a <= 52).
  { destruct (Z_lt_le_dec 52 a) as [C |]; [| assumption].
    assert (2 ^ 53 <= 2 ^ a) by (apply Z.pow_le_mono_r; lia). nia. }
  destruct (digits_le_53 k Hk') as [P L].
  destruct (canon_mantissa k Hk') as [_ Hd].
  split.
  - rewrite percentage_nonzero by reflexivity. f_equal.
    rewrite canon_shift by assumption.
    unfold canon at 1 2. rewrite div_same_mantissa by (try exact Hd; lia).
    replace (Zdigits2 k + 0 - 53 - (Zdigits2 k + (0 + a) - 53) - 52)
      with (Zdigits2 1 + - a - 53) by (simpl Zdigits2; lia).
    change (S754_finite false 4503599627370496 (Zdigits2 1 + - a - 53))
      with (canon 1 (- a)).
    change PyFloat.f100 with (canon 100 0).
    rewrite mul_canon; [f_equal; lia | lia | lia | reflexivity |].
    change (Zdigits2 (1 * 100)) with 7. lia.
  - unfold canon, is_exactly, PyFloat.signed.
    change (Zdigits2 100) with 7.
    change (Z.to_pos (100 * 2 ^ (53 - 7))) with 7036874417766400%positive.
    destruct (7 + - a - 53) as [| q | q] eqn:E; try lia.
    apply Z.eqb_eq. replace (Zpos q) with (46 + a) by lia.
    rewrite Z.pow_add_r by lia. lia.
Qed.

(** C7.  The percentage is the slvlUSD supply divided by the lvlUSD
    supply, times 100, in binary64 arithmetic: whatever the two contracts
    answer, when the answers scale and the lvlUSD supply is not zero,
    [get_supply_info] and the import of the supply module both return and
    print that number for the supplies they have read.  The number is
    exact where the ratio can be: for [k] whole tokens of slvlUSD and
    [k * 2^a] whole tokens of lvlUSD the percentage is [100 / 2^a]
    exactly.  In particular, when the lvlUSD contract reports 1,000,000
    tokens (10^24 base units) and the slvlUSD contract 250,000
    (25 * 10^22), both obtain the supplies 1000000.0 and 250000.0 and the
    percentage 25.0 exactly. *)
Theorem percentage_of_a_quarter_is_25 (w : world) (s : state) :
  let l_reply := eth_call w (sent s) lvlUSD_contract totalSupply in
  let s_reply :=
    eth_call w (EthCall lvlUSD_contract totalSupply :: sent s)
             slvlUSD_contract totalSupply in
  let info := Main.get_supply_info w s in
  let import := Supply.module_body w s in
  (forall raw_l raw_s l sl,
      l_reply = Ok raw_l -> scale raw_l 18 = Ok l ->
      s_reply = Ok raw_s -> scale raw_s 18 = Ok sl ->
      PyFloat.is_zero l = false ->
      let pct := PyFloat.mul (SFdiv PyFloat.prec PyFloat.emax sl l) PyFloat.f100 in
      fst info = Ok {| Main.lvlUSD_supply := l;
                       Main.slvlUSD_supply := sl;
                       Main.percentage := pct |}
      /\ out (snd info)
         = Percent "Percentage of slvlUSD over lvlUSD:" pct
           :: Amount "Total supply of slvlUSD:" sl
           :: Amount "Total supply of lvlUSD:" l
           :: Header "lvlUSD & slvlUSD Supply Information" :: out s
      /\ fst import = Ok {| Supply.lvlUSD_total_supply := l;
                            Supply.slvlUSD_total_supply := sl;
                            Supply.percentage_value := pct |}
      /\ out (snd import)
         = Percent "Percentage of slvlUSD over lvlUSD" pct
           :: Amount "Total supply of slvlUSD" sl
           :: Amount "Total supply of lvlUSD" l :: out s)
  /\ (forall k a,
         0 < k -> 0 <= a -> k * 2 ^ a < 2 ^ 53 ->
         l_reply = Ok (Uint (k * 2 ^ a * 10 ^ 18)) ->
         s_reply = Ok (Uint (k * 10 ^ 18)) ->
         exists l sl pct,
           fst info = Ok {| Main.lvlUSD_supply := l;
                            Main.slvlUSD_supply := sl;
                            Main.percentage := pct |}
           /\ fst import = Ok {| Supply.lvlUSD_total_supply := l;
                                 Supply.slvlUSD_total_supply := sl;
                                 Supply.percentage_value := pct |}
           /\ is_exactly l (k * 2 ^ a) 1 = true
           /\ is_exactly sl k 1 = true
           /\ is_exactly pct 100 (2 ^ a) = true)
  /\ (l_reply = Ok (Uint (10 ^ 24)) ->
      s_reply = Ok (Uint (25 * 10 ^ 22)) ->
      fst info
      = Ok {| Main.lvlUSD_supply := S754_finite false 8589934592000000 (-33);
              Main.slvlUSD_supply := S754_finite false 8589934592000000 (-35);
              Main.percentage := S754_finite false 7036874417766400 (-48) |}
      /\ fst import
         = Ok {| Supply.lvlUSD_total_supply := S754_finite false 8589934592000000 (-33);
                 Supply.slvlUSD_total_supply := S754_finite false 8589934592000000 (-35);
                 Supply.percentage_value := S754_finite false 7036874417766400 (-48) |}
      /\ PyFloat.of_int 1000000 = Ok (S754_finite false 8589934592000000 (-33))
      /\ PyFloat.of_int 250000 = Ok (S754_finite false 8589934592000000 (-35))
      /\ PyFloat.of_int 25 = Ok (S754_finite false 7036874417766400 (-48))).
Proof.
  intros l_reply s_reply info import.
  assert (Run : forall raw_l raw_s l sl pct,
             l_reply = Ok raw_l -> scale raw_l 18 = Ok l ->
             s_reply = Ok raw_s -> scale raw_s 18 = Ok sl ->
             Supply.percentage sl l = Ok pct ->
             info
             = (Ok {| Main.lvlUSD_supply := l;
                      Main.slvlUSD_supply := sl;
                      Main.percentage := pct |},
                {| sent := EthCall slvlUSD_contract totalSupply
                           :: EthCall lvlUSD_contract totalSupply :: sent s;
                   out := Percent "Percentage of slvlUSD over lvlUSD:" pct
                          :: Amount "Total supply of slvlUSD:" sl
                          :: Amount "Total supply of lvlUSD:" l
                          :: Header "lvlUSD & slvlUSD Supply Information" :: out s;
                   hp := hp s |})
             /\ import
                = (Ok {| Supply.lvlUSD_total_supply := l;
                         Supply.slvlUSD_total_supply := sl;
                         Supply.percentage_value := pct |},
                   {| sent := EthCall slvlUSD_contract totalSupply
                              :: EthCall lvlUSD_contract totalSupply :: sent s;
                      out := Percent "Percentage of slvlUSD over lvlUSD" pct
                             :: Amount "Total supply of slvlUSD" sl
                             :: Amount "Total supply of lvlUSD" l :: out s;
                      hp := hp s |})).
  { intros raw_l raw_s l sl pct Hl Hsl Hs Hss Hp.
    subst l_reply s_reply info import.
    unfold Main.get_supply_info, Supply.module_body, Main.print_header.
    split; run_monad; rewrite Hl, Hsl; simpl; rewrite Hs, Hss; simpl;
      rewrite Hp; reflexivity. }
  split; [| split].
  - intros raw_l raw_s l sl Hl Hsl Hs Hss Hz pct.
    destruct (Run raw_l raw_s l sl pct Hl Hsl Hs Hss (percentage_nonzero sl l Hz))
      as [-> ->].
    repeat split.
  - intros k a Hk Ha Hb Hl Hs.
    assert (H2 : 1 <= 2 ^ a) by (pose proof (Z.pow_pos_nonneg 2 a); lia).
    assert (Hk' : 0 < k < 2 ^ 53) by nia.
    assert (Hka : 0 < k * 2 ^ a < 2 ^ 53) by lia.
    destruct (percentage_of_a_binary_fraction k a Hk Ha Hb) as [Hp Hx].
    destruct (Run _ _ _ _ _ Hl (scale_whole (k * 2 ^ a) 18 Hka ltac:(lia))
                  Hs (scale_whole k 18 Hk' ltac:(lia)) Hp) as [-> ->].
    exists (canon (k * 2 ^ a) 0), (canon k 0), (canon 100 (- a)).
    split; [reflexivity |]. split; [reflexivity |].
    split; [| split; [| exact Hx]].
    + pose proof (is_exactly_canon (k * 2 ^ a) 1 Hka) as E.
      rewrite Z.mul_1_r in E. exact E.
    + pose proof (is_exactly_canon k 1 Hk') as E.
      rewrite Z.mul_1_r in E. exact E.
  - intros Hl Hs.
    assert (El : scale (Uint (10 ^ 24)) 18
                 = Ok (S754_finite false 8589934592000000 (-33)))
      by (vm_compute; reflexivity).
    assert (Es : scale (Uint (25 * 10 ^ 22)) 18
                 = Ok (S754_finite false 8589934592000000 (-35)))
      by (vm_compute; reflexivity).
    assert (Ep : Supply.percentage (S754_finite false 8589934592000000 (-35))
                                   (S754_finite false 8589934592000000 (-33))
                 = Ok (S754_finite false 7036874417766400 (-48)))
      by (vm_compute; reflexivity).
    destruct (Run _ _ _ _ _ Hl El Hs Es Ep) as [-> ->].
    repeat split.
Qed.

(** 1,000,000 lvlUSD and 250,000 slvlUSD: [250000 * 2^2] and [250000]
    whole tokens. *)
Lemma percentage_of_a_quarter_is_25_witness :
  fst (Main.get_supply_info Scenario.healthy initial)
  = Ok {| Main.lvlUSD_supply := S754_finite false 8589934592000000 (-33);
          Main.slvlUSD_supply := S754_finite false 8589934592000000 (-35);
          Main.percentage := S754_finite false 7036874417766400 (-48) |}
  /\ exists l sl pct,
       fst (Main.get_supply_info Scenario.healthy initial)
       = Ok {| Main.lvlUSD_supply := l;
               Main.slvlUSD_supply := sl;
               Main.percentage := pct |}
       /\ is_exactly pct 100 (2 ^ 2) = true.
Proof.
  split.
  - apply (proj2 (proj2 (percentage_of_a_quarter_is_25 Scenario.healthy initial)));
      reflexivity.
  - assert (H1 : 0 < 250000) by reflexivity.
    assert (H2 : 0 <= 2) by discriminate.
    assert (H3 : 250000 * 2 ^ 2 < 2 ^ 53) by reflexivity.
    destruct (proj1 (proj2 (percentage_of_a_quarter_is_25 Scenario.healthy initial))
                    250000 2 H1 H2 H3 eq_refl eq_refl)
      as (l & sl & pct & E & _ & _ & _ & Hx).
    exists l, sl, pct. split; [exact E | exact Hx].
Defined.

(* ------------------------------------------------------------------ *)
(** * Further properties of the two clients *)

(** [test_api_connection] is one request followed by the reading of its
    outcome. *)
Lemma test_api_connection_run (w : world) (api_key : string) (s : state) :
  let r := Zapper.test_api_connection w api_key s in
  fst r = Ok (connection_ok (http_post w (sent s) API_URL SchemaTest (Some 10)))
  /\ sent (snd r) = HttpPost API_URL SchemaTest (Some 10) :: sent s
  /\ hp (snd r) = hp s.
Proof.
  unfold Zapper.test_api_connection, connection_ok.
  run_monad. unfold response_json.
  destruct (http_post w (sent s) API_URL SchemaTest (Some 10)) as [r | e]; simpl;
    [| repeat split].
  destruct (status_code r =? 200); simpl; [| repeat split].
  destruct (body r) as [data |]; simpl; [| repeat split].
  destruct (Py.contains "errors" data) as [[|] | x]; simpl; [| repeat split ..].
  destruct (Py.subscript data "errors"); simpl; repeat split.
Qed.

(** [test_api_connection] sends the schema query once, with a timeout of
    ten seconds, and never raises: it answers [True] exactly when the
    request is answered with status 200 and a JSON body that has no
    [errors] member, and [False] in every other case (a transport error,
    another status, a body that is not JSON or that cannot be searched
    for the member); no object of the heap is touched. *)
Theorem test_api_connection_asks_once (w : world) (api_key : string) (s : state) :
  let r := Zapper.test_api_connection w api_key s in
  (fst r = Ok true
   <-> exists response data,
         http_post w (sent s) API_URL SchemaTest (Some 10) = Responded response
         /\ status_code response = 200
         /\ body response = Some data
         /\ Py.contains "errors" data = Ok false)
  /\ (fst r = Ok true \/ fst r = Ok false)
  /\ sent (snd r) = HttpPost API_URL SchemaTest (Some 10) :: sent s
  /\ hp (snd r) = hp s.
Proof.
  intros r. subst r.
  destruct (test_api_connection_run w api_key s) as (Hr & Hs & Hh).
  rewrite Hr. split; [| split; [| split; assumption]].
  - unfold connection_ok. split.
    + destruct (http_post _ _ _ _ _) as [response | e]; [| discriminate].
      destruct (status_code response =? 200) eqn:Hst; cbn [andb]; [| discriminate].
      destruct (body response) as [data |] eqn:Hb; [| discriminate].
      destruct (Py.contains "errors" data) as [[|] | x] eqn:Hc; try discriminate.
      intros _. exists response, data. apply Z.eqb_eq in Hst. auto.
    + intros (response & data & -> & Hst & -> & ->).
      rewrite Hst. reflexivity.
  - destruct (connection_ok _); auto.
Qed.

(** [fetch_defi_positions] drops the chain ids that are not in
    [SUPPORTED_CHAIN_IDS] and keeps the others in their order; it warns,
    with the ids it drops, exactly when it drops one; and it sends its
    request in every case, also when no id is left.  Without an argument
    the id is 1. *)
Theorem unsupported_chain_ids_are_dropped
        (w : world) (addresses : list string) (chain_ids : option (list Z))
        (s : state) :
  let given := match chain_ids with None => [1] | Some c => c end in
  let dropped := filter (fun cid => negb (supported cid)) given in
  let r := Zapper.fetch_defi_positions w addresses chain_ids s in
  sent (snd r)
  = HttpPost API_URL (PortfolioV2 addresses (filter supported given)) (Some 30)
    :: sent s
  /\ (forall cid,
         In cid (filter supported given)
         <-> In cid given
             /\ In cid [1; 137; 56; 42161; 10; 43114; 250; 8453; 324])
  /\ (dropped = [] -> filter supported given = given /\ out (snd r) = out s)
  /\ (dropped <> [] ->
      out (snd r)
      = Numbers "Warning: Unsupported chain IDs will be ignored:" dropped :: out s).
Proof.
  intros given dropped r. subst r.
  assert (Hsup : forall cid,
             supported cid = true
             <-> In cid [1; 137; 56; 42161; 10; 43114; 250; 8453; 324]).
  { intros cid. unfold supported. rewrite existsb_exists. simpl. split.
    - intros (x & Hx & E). apply Z.eqb_eq in E. subst x. exact Hx.
    - intros H. exists cid. split; [exact H | apply Z.eqb_refl]. }
  split; [| split; [| split]].
  - destruct (fetch_defi_positions_run w addresses chain_ids s) as (warning & E).
    simpl in E. rewrite E. reflexivity.
  - intros cid. rewrite filter_In, Hsup. reflexivity.
  - intros Hd. split; [apply filter_negb_nil; exact Hd |].
    subst dropped given. unfold supported in Hd.
    unfold Zapper.fetch_defi_positions. cbv zeta. rewrite Hd.
    unfold bind at 1, ret at 1. rewrite fetch_body_run. reflexivity.
  - intros Hd. subst dropped given. unfold supported in *.
    unfold Zapper.fetch_defi_positions. cbv zeta.
    destruct (filter (fun cid =>
                        negb (existsb (Z.eqb cid) (map snd Zapper.SUPPORTED_CHAIN_IDS)))
                     match chain_ids with None => [1] | Some c => c end)
      as [| c0 rest]; [congruence |].
    unfold bind at 1. unfold bind at 1. unfold print at 1, ret at 1.
    rewrite fetch_body_run. reflexivity.
Qed.

Lemma contains_false_subscript (data d : json) :
  Py.contains "errors" data = Ok false ->
  Py.subscript data "data" = Ok d ->
  exists fields,
    data = JObj fields
    /\ Py.lookup "errors" fields = None
    /\ Py.lookup "data" fields = Some d.
Proof.
  destruct data; simpl; try discriminate.
  unfold Py.has_key. intros Hc Hs. exists fields.
  destruct (Py.lookup "errors" fields); [discriminate |].
  destruct (Py.lookup "data" fields); [| discriminate].
  injection Hs as ->. auto.
Qed.

(** [fetch_defi_positions] returns only on a response with status 200
    whose body is a JSON object without an [errors] member and with a
    [data] member, and it returns that member; every other outcome of the
    request makes it raise. *)
Theorem fetch_returns_the_data_of_a_clean_200
        (w : world) (addresses : list string) (chain_ids : option (list Z))
        (s : state) (d : json) :
  fst (Zapper.fetch_defi_positions w addresses chain_ids s) = Ok d
  <-> exists r fields,
        http_post w (sent s) API_URL
                  (PortfolioV2 addresses (requested_chain_ids chain_ids)) (Some 30)
        = Responded r
        /\ status_code r = 200
        /\ body r = Some (JObj fields)
        /\ Py.lookup "errors" fields = None
        /\ Py.lookup "data" fields = Some d.
Proof.
  destruct (fetch_defi_positions_run w addresses chain_ids s) as (warning & E).
  simpl in E. rewrite E. simpl. unfold portfolio_result.
  split.
  - destruct (http_post _ _ _ _ _) as [r | e]; [| discriminate].
    destruct (status_code r =? 200) eqn:Hst; simpl; [| discriminate].
    destruct (body r) as [data |] eqn:Hb; [| discriminate].
    destruct (Py.contains "errors" data) as [[|] | x] eqn:Hc; try discriminate.
    + destruct (Py.subscript data "errors"); discriminate.
    + intros Hs.
      destruct (contains_false_subscript data d Hc Hs) as (fields & -> & He & Hd).
      exists r, fields. apply Z.eqb_eq in Hst. auto.
  - intros (r & fields & -> & Hst & Hb & He & Hd).
    rewrite Hst, Hb. simpl. unfold Py.has_key. rewrite He, Hd. reflexivity.
Qed.

(** A healthy reply. *)
Lemma fetch_returns_the_data_of_a_clean_200_witness :
  exists r fields,
    http_post Scenario.healthy (sent initial) API_URL
              (PortfolioV2 Main.wallet_addresses (requested_chain_ids None)) (Some 30)
    = Responded r
    /\ status_code r = 200
    /\ body r = Some (JObj fields)
    /\ Py.lookup "errors" fields = None
    /\ Py.lookup "data" fields
       = Some (Scenario.portfolio
                 1500 [ Scenario.app_edge "Aave" "SUPPLIED" (Scenario.num 500);
                        Scenario.app_edge "Morpho" "CLAIMABLE" (Scenario.num 20);
                        Scenario.app_edge "Pendle" "CLAIMABLE" (Scenario.num 980) ]).
Proof.
  apply (proj1 (fetch_returns_the_data_of_a_clean_200
                  Scenario.healthy Main.wallet_addresses None initial _)).
  reflexivity.
Defined.

(** [_execute_query] checks the status with [raise_for_status] only: it
    returns the [data] member of every response whose status is outside
    400..599 and whose body is a JSON object without an [errors] member,
    and it returns on no other outcome.  A response with status 204 or 301
    is accepted here, while [fetch_defi_positions] rejects it. *)
Theorem query_returns_the_data_of_any_status_below_400
        (w : world) (q : graphql) (s : state) (d : json) :
  fst (Morpho._execute_query w q s) = Ok d
  <-> exists r fields,
        http_post w (sent s) base_url q None = Responded r
        /\ ~ (400 <= status_code r < 600)
        /\ body r = Some (JObj fields)
        /\ Py.lookup "errors" fields = None
        /\ Py.lookup "data" fields = Some d.
Proof.
  rewrite execute_query_run. simpl. unfold query_result, raise_for_status.
  split.
  - destruct (http_post _ _ _ _ _) as [r | e]; [| discriminate].
    destruct ((400 <=? status_code r) && (status_code r <? 600)) eqn:Hst;
      [discriminate |].
    destruct (body r) as [data |] eqn:Hb; [| discriminate].
    destruct (Py.contains "errors" data) as [[|] | x] eqn:Hc; try discriminate.
    + destruct (Py.subscript data "errors"); discriminate.
    + intros Hs.
      destruct (contains_false_subscript data d Hc Hs) as (fields & -> & He & Hd).
      exists r, fields. repeat split; auto.
      apply andb_false_iff in Hst. destruct Hst as [H | H].
      * apply Z.leb_gt in H. lia.
      * apply Z.ltb_ge in H. lia.
  - intros (r & fields & -> & Hst & Hb & He & Hd).
    assert (E : (400 <=? status_code r) && (status_code r <? 600) = false).
    { apply andb_false_iff.
      destruct (Z.leb_spec 400 (status_code r)); [right | left; reflexivity].
      apply Z.ltb_ge. lia. }
    rewrite E, Hb. simpl. unfold Py.has_key. rewrite He, Hd. reflexivity.
Qed.

(** A reply with status 204 and the data of a market. *)
Lemma query_returns_the_data_of_any_status_below_400_witness :
  let w := {| eth_call := fun _ _ _ => Raise Web3Error;
              is_connected := fun _ _ => true;
              http_post := fun _ _ _ _ =>
                Responded {| status_code := 204; reason := "No Content";
                             text := "{...}";
                             body := Some Scenario.market_reply |} |} in
  fst (Morpho._execute_query w (GetMarketById "0x3a85" 1) initial)
  = Ok (JObj [("marketByUniqueKey", Scenario.market)])
  /\ fst (Zapper.fetch_defi_positions w Main.wallet_addresses None initial)
     = Raise (HTTPStatus 204 "No Content").
Proof.
  intros w. split; [| reflexivity].
  apply (proj2 (query_returns_the_data_of_any_status_below_400
                  w (GetMarketById "0x3a85" 1) initial _)).
  eexists. eexists. split; [reflexivity |].
  split; [simpl; lia |]. split; [reflexivity |]. split; reflexivity.
Defined.

(* ------------------------------------------------------------------ *)
(** * Which steps send a request *)

Lemma sent_ret {A} (a : A) : keeps_sent (ret a).
Proof. intros s. reflexivity. Qed.

Lemma sent_raise {A} (e : exn) : keeps_sent (@raise A e).
Proof. intros s. reflexivity. Qed.

Lemma sent_lift {A} (r : result A) : keeps_sent (lift r).
Proof. intros s. reflexivity. Qed.

Lemma sent_print (l : line) : keeps_sent (print l).
Proof. intros s. reflexivity. Qed.

Lemma sent_items_of (l : addr) : keeps_sent (Zapper.items_of l).
Proof. intros s. reflexivity. Qed.

Lemma sent_positions_of (l : addr) : keeps_sent (Zapper.positions_of l).
Proof. intros s. reflexivity. Qed.

Lemma sent_position_at (a : addr) : keeps_sent (Zapper.position_at a).
Proof.
  intros s. unfold Zapper.position_at.
  destruct (nth_error (objs (hp s)) a); reflexivity.
Qed.

Lemma sent_sort_by_balance (l : addr) : keeps_sent (Zapper.sort_by_balance l).
Proof. intros s. reflexivity. Qed.

Lemma sent_new_positions ps : keeps_sent (Zapper.new_positions ps).
Proof. intros s. reflexivity. Qed.

Lemma sent_get_claimable_positions (l : addr) :
  keeps_sent (Zapper.get_claimable_positions l).
Proof. intros s. reflexivity. Qed.

Lemma sent_bind {A B} (m : M A) (k : A -> M B) :
  keeps_sent m -> (forall a, keeps_sent (k a)) -> keeps_sent (bind m k).
Proof.
  intros Hm Hk s. unfold bind. specialize (Hm s).
  destruct (m s) as [[a | e] s1]; simpl in *.
  - rewrite Hk. exact Hm.
  - exact Hm.
Qed.

Lemma sent_try_except {A} (m : M A) (h : exn -> M A) :
  keeps_sent m -> (forall e, keeps_sent (h e)) -> keeps_sent (try_except m h).
Proof.
  intros Hm Hh s. unfold try_except. specialize (Hm s).
  destruct (m s) as [[a | e] s1]; simpl in *.
  - exact Hm.
  - rewrite Hh. exact Hm.
Qed.

Lemma sent_for_each {A} (xs : list A) (body : A -> M unit) :
  (forall x, keeps_sent (body x)) -> keeps_sent (for_each xs body).
Proof.
  intros Hb. induction xs as [| x xs IH]; simpl.
  - apply sent_ret.
  - apply sent_bind; [apply Hb | intros _; exact IH].
Qed.

Lemma sent_if {A} (b : bool) (m1 m2 : M A) :
  keeps_sent m1 -> keeps_sent m2 -> keeps_sent (if b then m1 else m2).
Proof. destruct b; auto. Qed.

Ltac sent_tac :=
  repeat first
    [ apply sent_ret
    | apply sent_raise
    | apply sent_lift
    | apply sent_print
    | apply sent_items_of
    | apply sent_positions_of
    | apply sent_position_at
    | apply sent_sort_by_balance
    | apply sent_new_positions
    | apply sent_get_claimable_positions
    | apply sent_for_each; intros
    | apply sent_try_except; [| intros]
    | apply sent_if
    | apply sent_bind; [| intros] ].

Lemma sent_print_market strtod name m : keeps_sent (Morpho.print_market strtod name m).
Proof. unfold Morpho.print_market. sent_tac. Qed.

Lemma sent_print_underlying position token_info :
  keeps_sent (Zapper.print_underlying position token_info).
Proof. unfold Zapper.print_underlying. sent_tac. Qed.

Lemma sent_print_reward token_info : keeps_sent (Zapper.print_reward token_info).
Proof. unfold Zapper.print_reward. sent_tac. Qed.

Lemma sent_print_defi_report summary l : keeps_sent (Zapper.print_defi_report summary l).
Proof.
  unfold Zapper.print_defi_report. sent_tac.
  - destruct (Zapper.meta_type_summary summary); sent_tac.
  - match goal with
    | |- context [underlying_tokens ?p] => destruct (underlying_tokens p)
    end; sent_tac.
Qed.

Lemma sent_print_claimable_report l : keeps_sent (Zapper.print_claimable_report l).
Proof.
  unfold Zapper.print_claimable_report. sent_tac.
  match goal with
  | |- context [match ?items with [] => _ | _ => _ end] => destruct items
  end; sent_tac.
Qed.

Lemma keeps_print_market strtod name m : keeps_heap (Morpho.print_market strtod name m).
Proof. unfold Morpho.print_market. keeps_tac. Qed.

(** One turn of the report loop: one request, whatever comes back. *)
Lemma report_market_run (w : world) strtod (market : string * string) (s : state) :
  exists lines,
    Morpho.report_market w strtod market s
    = (Ok tt, {| sent := market_request market :: sent s; out := lines; hp := hp s |}).
Proof.
  destruct market as [name id]. unfold market_request. cbn [snd].
  unfold Morpho.report_market, Morpho.get_market_by_id, try_except.
  unfold bind at 1. rewrite execute_query_run.
  destruct (query_result _) as [market_data | x].
  - set (s1 := record_request _ s).
    set (rest := bind (lift (Py.subscript market_data "marketByUniqueKey")) _).
    assert (Hs : keeps_sent rest).
    { subst rest. sent_tac. }
    assert (Hh : keeps_heap rest).
    { subst rest. keeps_tac. }
    specialize (Hs s1). specialize (Hh s1).
    destruct (rest s1) as [[[] | x] [sn ou h]]; simpl in Hs, Hh; subst sn h.
    + eexists. reflexivity.
    + eexists. reflexivity.
  - eexists. reflexivity.
Qed.

Lemma report_loop_run (w : world) strtod (markets : list (string * string))
      (s : state) :
  let s' := snd (for_each markets (Morpho.report_market w strtod) s) in
  sent s' = (rev (map market_request markets) ++ sent s)%list
  /\ hp s' = hp s.
Proof.
  revert s. induction markets as [| m markets IH]; intros s; simpl.
  - split; reflexivity.
  - unfold bind.
    destruct (report_market_run w strtod m s) as (lines & E).
    rewrite E.
    match goal with
    | |- context [for_each markets _ ?s1] => destruct (IH s1) as [IHs IHh]
    end.
    rewrite IHs, IHh, <- app_assoc. split; reflexivity.
Qed.

(** The report loop of [get_stakehouse_situation] and
    [get_lvlusd_pendle_situation] queries every market of its table, once
    and in the order of the table, whatever the earlier queries came to (a
    transport error, an HTTP error, a market that is not found, a reply
    that cannot be read); it touches no object of the heap. *)
Theorem every_market_is_queried_once
        (w : world) strtod (banner : string) (markets : list (string * string))
        (s : state) :
  let s' := snd (Morpho.situation w strtod banner markets s) in
  sent s' = (rev (map market_request markets) ++ sent s)%list
  /\ hp s' = hp s.
Proof.
  unfold Morpho.situation. unfold bind, print. cbv beta iota.
  apply (report_loop_run w strtod markets
                         {| sent := sent s; out := Header banner :: out s; hp := hp s |}).
Qed.

(* ------------------------------------------------------------------ *)
(** * Further properties of [main.py] and of the on-chain reads *)

(** [check_web3_connections] asks each of the three connections once,
    in the order of its table, also after one of them has failed; it
    prints one line per connection and answers [True] exactly when the three
    are connected. *)
Theorem every_connection_is_checked (w : world) (s : state) :
  let h1 := sent s in
  let h2 := IsConnected web3_supply :: h1 in
  let h3 := IsConnected web3_aUSDC :: h2 in
  let supply := is_connected w h1 web3_supply in
  let aUSDC := is_connected w h2 web3_aUSDC in
  let curve := is_connected w h3 web3_curve in
  Main.check_web3_connections w s
  = (Ok (supply && aUSDC && curve),
     {| sent := IsConnected web3_curve :: h3;
        out := connection_line "Curve Pool Check" curve
               :: connection_line "aUSDC Check" aUSDC
               :: connection_line "Supply Check" supply :: out s;
        hp := hp s |}).
Proof.
  unfold Main.check_web3_connections, Main.check_connection, connection_line.
  run_monad.
  destruct (is_connected w (sent s) web3_supply); simpl;
    destruct (is_connected w (IsConnected web3_supply :: sent s) web3_aUSDC); simpl;
    destruct (is_connected w _ web3_curve); reflexivity.
Qed.

Lemma get_collateral_composition_skipped (w : world) decode (s : state) :
  connection_ok (http_post w (sent s) API_URL SchemaTest (Some 10)) = false ->
  exists lines,
    Main.get_collateral_composition w decode s
    = (Ok None,
       {| sent := HttpPost API_URL SchemaTest (Some 10) :: sent s;
          out := lines; hp := hp s |}).
Proof.
  intros Hc.
  unfold Main.get_collateral_composition, Main.print_header.
  unfold bind at 1, print at 1. unfold bind at 1.
  set (s0 := {| sent := sent s; out := _ :: out s; hp := hp s |}).
  destruct (test_api_connection_run w Zapper.API_KEY s0) as (Hr & Hs & Hh).
  destruct (Zapper.test_api_connection w Zapper.API_KEY s0) as [r [sn ou h]].
  simpl in Hr, Hs, Hh. subst r sn h. change (sent s0) with (sent s).
  rewrite Hc. eexists. reflexivity.
Qed.

(** When the connection test of the Zapper API fails,
    [get_collateral_composition] sends nothing but the request of the
    test: no portfolio is fetched, the answer is [None], and no list or
    position object is created. *)
Theorem failed_connection_test_skips_the_portfolio
        (w : world) decode (s : state) :
  connection_ok (http_post w (sent s) API_URL SchemaTest (Some 10)) = false ->
  let r := Main.get_collateral_composition w decode s in
  fst r = Ok None
  /\ sent (snd r) = HttpPost API_URL SchemaTest (Some 10) :: sent s
  /\ hp (snd r) = hp s.
Proof.
  intros Hc r. subst r.
  destruct (get_collateral_composition_skipped w decode s Hc) as (lines & E).
  rewrite E. repeat split.
Qed.

(** Every HTTP request times out. *)
Lemma failed_connection_test_skips_the_portfolio_witness :
  let r := Main.get_collateral_composition Scenario.offline Scenario.decode initial in
  fst r = Ok None
  /\ sent (snd r) = [HttpPost API_URL SchemaTest (Some 10)]
  /\ hp (snd r) = empty_heap.
Proof.
  apply (failed_connection_test_skips_the_portfolio
           Scenario.offline Scenario.decode initial).
  reflexivity.
Defined.

(** The lines of a pool report that went through, most recent first. *)
Lemma pool_lines_run (pool_name : string) (bs : list abi_value)
      (x y : PyFloat.float) (s : state) :
  exists label,
    (print (Raw (pool_name ++ " Token Balances:") bs) ;;
     print (Amount (pool_name ++ " lvlUSD Balance:") x) ;;
     if String.eqb pool_name "lvlUSD/USDC Pool"
     then print (Amount (pool_name ++ " USDC Balance:") y)
     else print (Amount (pool_name ++ " slvlUSD Balance:") y)) s
    = (Ok tt,
       {| sent := sent s;
          out := Amount label y
                 :: Amount (pool_name ++ " lvlUSD Balance:") x
                 :: Raw (pool_name ++ " Token Balances:") bs :: out s;
          hp := hp s |}).
Proof.
  unfold bind, print. cbn [sent out hp].
  destruct (String.eqb pool_name "lvlUSD/USDC Pool"); eexists; reflexivity.
Qed.

(** [get_token_balances], called as the sources call it, for a pool
    contract whose ABI declares the function of the interface named,
    never raises and reports a pool entirely or not at all: it prints
    either the three lines of the pool, or the single line of the error,
    and nothing of a pool whose second figure could not be read or
    scaled.  With the [get_balances] interface it makes one contract call;
    with the other interface it calls [balances(0)] and, only when that
    call has answered, [balances(1)]. *)
Theorem pool_report_is_all_or_nothing
        (w : world) (pool_contract : contract) (pool_name abi_type : string)
        (s : state) :
  let r := Curve.get_token_balances w pool_contract pool_name abi_type s in
  let first_call := if String.eqb abi_type "get_balances"
                    then get_balances else balances 0 in
  in_abi pool_contract first_call = true ->
  fst r = Ok tt
  /\ hp (snd r) = hp s
  /\ ((exists e, out (snd r) = Problem ("Error for " ++ pool_name ++ ":") e :: out s)
      \/ (exists raw x y label,
             out (snd r)
             = Amount label y
               :: Amount (pool_name ++ " lvlUSD Balance:") x
               :: Raw (pool_name ++ " Token Balances:") raw :: out s))
  /\ (sent (snd r) = EthCall pool_contract first_call :: sent s
      \/ (abi_type <> "get_balances"
          /\ is_Ok (eth_call w (sent s) pool_contract (balances 0)) = true
          /\ sent (snd r)
             = EthCall pool_contract (balances 1)
               :: EthCall pool_contract (balances 0) :: sent s))
  /\ (is_Ok (eth_call w (sent s) pool_contract first_call) = false ->
      sent (snd r) = EthCall pool_contract first_call :: sent s).
Proof.
  intros r first_call _. subst r first_call.
  assert (E : exists e lines reqs,
             Curve.get_token_balances w pool_contract pool_name abi_type s
             = (Ok tt, {| sent := (reqs ++ sent s)%list;
                          out := (lines ++ out s)%list; hp := hp s |})
             /\ (lines = [Problem ("Error for " ++ pool_name ++ ":") e]
                 \/ exists raw x y label,
                      lines = [ Amount label y;
                                Amount (pool_name ++ " lvlUSD Balance:") x;
                                Raw (pool_name ++ " Token Balances:") raw ])
             /\ (if String.eqb abi_type "get_balances"
                 then reqs = [EthCall pool_contract get_balances]
                 else match eth_call w (sent s) pool_contract (balances 0) with
                      | Ok _ => reqs = [ EthCall pool_contract (balances 1);
                                         EthCall pool_contract (balances 0) ]
                      | Raise _ => reqs = [EthCall pool_contract (balances 0)]
                      end)).
  { unfold Curve.get_token_balances, try_except.
    destruct (String.eqb abi_type "get_balances").
    - unfold bind at 1. unfold bind at 1. unfold call at 1.
      destruct (eth_call w (sent s) pool_contract get_balances) as [bs | e].
      2:{ exists e. eexists [_]. eexists [_]. split; [reflexivity | auto]. }
      unfold bind at 1, lift at 1.
      destruct (Curve.item bs 0) as [b0 | e].
      2:{ exists e. eexists [_]. eexists [_]. split; [reflexivity | auto]. }
      unfold bind at 1, lift at 1.
      destruct (scale b0 6) as [x | e].
      2:{ exists e. eexists [_]. eexists [_]. split; [reflexivity | auto]. }
      unfold bind at 1, lift at 1.
      destruct (Curve.item bs 1) as [b1 | e].
      2:{ exists e. eexists [_]. eexists [_]. split; [reflexivity | auto]. }
      unfold bind at 1, lift at 1.
      destruct (scale b1 18) as [y | e].
      2:{ exists e. eexists [_]. eexists [_]. split; [reflexivity | auto]. }
      unfold ret at 1. cbv beta iota.
      destruct (pool_lines_run pool_name [bs] x y
                               (record_request (EthCall pool_contract get_balances) s))
        as (label & El).
      rewrite El. exists Web3Error. eexists [_; _; _]. eexists [_].
      split; [reflexivity |]. split; [right; eauto | reflexivity].
    - unfold bind at 1. unfold bind at 1. unfold call at 1.
      destruct (eth_call w (sent s) pool_contract (balances 0)) as [b0 | e].
      2:{ exists e. eexists [_]. eexists [_]. split; [reflexivity | auto]. }
      unfold bind at 1, call at 1.
      destruct (eth_call w _ pool_contract (balances 1)) as [b1 | e].
      2:{ exists e. eexists [_]. eexists [_; _]. split; [reflexivity | auto]. }
      unfold bind at 1, lift at 1.
      destruct (scale b0 18) as [x | e].
      2:{ exists e. eexists [_]. eexists [_; _]. split; [reflexivity | auto]. }
      unfold bind at 1, lift at 1.
      destruct (scale b1 18) as [y | e].
      2:{ exists e. eexists [_]. eexists [_; _]. split; [reflexivity | auto]. }
      unfold ret at 1. cbv beta iota.
      destruct (pool_lines_run
                  pool_name [b0; b1] x y
                  (record_request (EthCall pool_contract (balances 1))
                     (record_request (EthCall pool_contract (balances 0)) s)))
        as (label & El).
      rewrite El. exists Web3Error. eexists [_; _; _]. eexists [_; _].
      split; [reflexivity |]. split; [right; eauto | reflexivity]. }
  destruct E as (e & lines & reqs & E & Hlines & Hreqs).
  rewrite E. cbn [fst snd sent out hp].
  split; [reflexivity |]. split; [reflexivity |]. split; [| split].
  - destruct Hlines as [-> | (raw & x & y & label & ->)].
    + left. exists e. reflexivity.
    + right. exists raw, x, y, label. reflexivity.
  - destruct (String.eqb abi_type "get_balances") eqn:Habi.
    + left. subst reqs. reflexivity.
    + destruct (eth_call w (sent s) pool_contract (balances 0)); subst reqs.
      * right. split; [| split; reflexivity].
        intros ->. discriminate Habi.
      * left. reflexivity.
  - destruct (String.eqb abi_type "get_balances").
    + subst reqs. reflexivity.
    + destruct (eth_call w (sent s) pool_contract (balances 0)); [discriminate |].
      subst reqs. reflexivity.
Qed.

(** The two calls of the sources.  The report of the lvlUSD/USDC pool
    returns; a node that fails the first call of the lvlUSD/slvlUSD pool
    is not asked for the second balance. *)
Lemma pool_report_is_all_or_nothing_witness :
  fst (Curve.get_token_balances Scenario.healthy lvlusd_usdc_pool_contract
                                "lvlUSD/USDC Pool" "get_balances" initial)
  = Ok tt
  /\ sent (snd (Curve.get_token_balances
                  Scenario.pools_down lvlusd_slvlusd_pool_contract
                  "lvlUSD/slvlUSD Pool" "balances" initial))
     = [EthCall lvlusd_slvlusd_pool_contract (balances 0)].
Proof.
  split.
  - apply (proj1 (pool_report_is_all_or_nothing
                    Scenario.healthy lvlusd_usdc_pool_contract
                    "lvlUSD/USDC Pool" "get_balances" initial eq_refl)).
  - apply (proj2 (proj2 (proj2 (proj2
             (pool_report_is_all_or_nothing
                Scenario.pools_down lvlusd_slvlusd_pool_contract
                "lvlUSD/slvlUSD Pool" "balances" initial eq_refl)))));
      reflexivity.
Defined.

(** [get_supply_info] and [get_aUSDC_situation] of [main.py] repeat the
    statements that the supply and aUSDC modules run when they are
    imported: from the same state they make the same contract calls and
    either obtain the same figures or raise the same exception. *)
Theorem main_refreshes_the_figures_of_the_modules (w : world) (s : state) :
  (let a := Supply.module_body w s in
   let b := Main.get_supply_info w s in
   sent (snd a) = sent (snd b)
   /\ match fst a, fst b with
      | Ok x, Ok y =>
          Supply.lvlUSD_total_supply x = Main.lvlUSD_supply y
          /\ Supply.slvlUSD_total_supply x = Main.slvlUSD_supply y
          /\ Supply.percentage_value x = Main.percentage y
      | Raise e, Raise e' => e = e'
      | _, _ => False
      end)
  /\ (let a := AUSDC.module_body w s in
      let b := Main.get_aUSDC_situation w s in
      sent (snd a) = sent (snd b)
      /\ match fst a, fst b with
         | Ok x, Ok y =>
             AUSDC.total_supply x = Main.total_supply y
             /\ AUSDC.total_borrow x = Main.total_borrow y
             /\ AUSDC.available_liquidity x = Main.available_liquidity y
         | Raise e, Raise e' => e = e'
         | _, _ => False
         end).
Proof.
  split.
  - unfold Supply.module_body, Main.get_supply_info, Main.print_header.
    run_monad.
    destruct (eth_call w (sent s) lvlUSD_contract totalSupply) as [raw_l | e];
      simpl; [| auto].
    destruct (scale raw_l 18) as [l | e]; simpl; [| auto].
    destruct (eth_call w _ slvlUSD_contract totalSupply) as [raw_s | e];
      simpl; [| auto].
    destruct (scale raw_s 18) as [sl | e]; simpl; [| auto].
    destruct (Supply.percentage sl l) as [pct | e]; simpl; auto.
  - unfold AUSDC.module_body, Main.get_aUSDC_situation, Main.print_header.
    run_monad.
    destruct (eth_call w (sent s) aEthUSDC_contract totalSupply) as [raw_s | e];
      simpl; [| auto].
    destruct (scale raw_s 6) as [sup | e]; simpl; [| auto].
    destruct (eth_call w _ variableDebtEthUSDC_contract totalSupply) as [raw_b | e];
      simpl; [| auto].
    destruct (scale raw_b 6) as [bor | e]; simpl; auto.
Qed.

(* ------------------------------------------------------------------ *)
(** * The sort of the reports is stable and leaves a sorted list alone *)

Section SortStable.

Variable A : Type.
Variable key : A -> PyFloat.float.

Lemma ltb_nan_l (x y : PyFloat.float) :
  PyFloat.is_nan x = true -> PyFloat.ltb x y = false.
Proof. destruct x; try discriminate. destruct y; reflexivity. Qed.

Lemma ltb_nan_r (x y : PyFloat.float) :
  PyFloat.is_nan y = true -> PyFloat.ltb x y = false.
Proof. destruct y; try discriminate. destruct x; reflexivity. Qed.

(** Two items with the key [k] are not ordered by the sort. *)
Lemma same_key_not_below (k : PyFloat.float) (x y : A) :
  PyFloat.is_nan k = false ->
  same_key A key k x = true -> same_key A key k y = true ->
  PyFloat.ltb (key y) (key x) = false.
Proof.
  unfold same_key. intros Hk Hx Hy.
  apply andb_true_iff in Hx. destruct Hx as [_ Hx].
  apply andb_true_iff in Hy. destruct Hy as [Hy _].
  apply negb_true_iff in Hx. apply negb_true_iff in Hy.
  destruct (PyFloat.is_nan (key x)) eqn:Nx; [apply ltb_nan_r; exact Nx |].
  destruct (PyFloat.is_nan (key y)) eqn:Ny; [apply ltb_nan_l; exact Ny |].
  apply (not_ltb_trans (key x) k (key y)); assumption.
Qed.

Lemma insert_filter_same (k : PyFloat.float) (x : A) (l : list A) :
  PyFloat.is_nan k = false ->
  filter (same_key A key k) (PyFloat.insert key x l)
  = filter (same_key A key k) (x :: l).
Proof.
  intros Hk. induction l as [| y l IH]; [reflexivity |].
  cbn [PyFloat.insert].
  destruct (PyFloat.ltb (key y) (key x)) eqn:Hlt; [| reflexivity].
  cbn [filter] in *. rewrite IH.
  destruct (same_key A key k x) eqn:Px, (same_key A key k y) eqn:Py;
    try reflexivity.
  rewrite (same_key_not_below k x y Hk Px Py) in Hlt. discriminate.
Qed.

Lemma sort_ascending_filter_same (k : PyFloat.float) (l : list A) :
  PyFloat.is_nan k = false ->
  filter (same_key A key k) (PyFloat.sort_ascending key l)
  = filter (same_key A key k) l.
Proof.
  intros Hk. induction l as [| x l IH]; [reflexivity |].
  cbn [PyFloat.sort_ascending]. rewrite (insert_filter_same k x _ Hk).
  cbn [filter]. rewrite IH. reflexivity.
Qed.

Lemma filter_rev (f : A -> bool) (l : list A) : filter f (rev l) = rev (filter f l).
Proof.
  induction l as [| x l IH]; [reflexivity |].
  cbn [rev filter]. rewrite filter_app, IH. cbn [filter].
  destruct (f x); [reflexivity | apply app_nil_r].
Qed.

(** The items of equal key leave the sort in the order they came in. *)
Lemma sort_reverse_stable (k : PyFloat.float) (l : list A) :
  PyFloat.is_nan k = false ->
  filter (same_key A key k) (PyFloat.sort_reverse key l)
  = filter (same_key A key k) l.
Proof.
  intros Hk. unfold PyFloat.sort_reverse.
  rewrite filter_rev, (sort_ascending_filter_same k _ Hk), filter_rev.
  apply rev_involutive.
Qed.

Lemma sort_ascending_fixed (l : list A) :
  StronglySorted (fun a b => not_below A key b a) l ->
  PyFloat.sort_ascending key l = l.
Proof.
  intros Hs. induction Hs as [| x l Hs IH Hall]; [reflexivity |].
  cbn [PyFloat.sort_ascending]. rewrite IH.
  destruct l as [| y l]; [reflexivity |].
  cbn [PyFloat.insert]. inversion Hall as [| ? ? Hy _]; subst.
  unfold not_below in Hy. rewrite Hy. reflexivity.
Qed.

(** A list in descending order is a fixed point of the sort. *)
Lemma sort_reverse_fixed (l : list A) :
  StronglySorted (not_below A key) l -> PyFloat.sort_reverse key l = l.
Proof.
  intros Hs. unfold PyFloat.sort_reverse.
  rewrite sort_ascending_fixed; [apply rev_involutive |].
  apply (sorted_rev A (not_below A key)). exact Hs.
Qed.

End SortStable.

Lemma replace_nth_fixed {A} (n : nat) (l : list A) (d : A) :
  replace_nth n (match nth_error l n with Some x => x | None => d end) l = l.
Proof.
  revert n. induction l as [| y l IH]; intros [| n]; simpl; try reflexivity.
  rewrite IH. reflexivity.
Qed.

Lemma becomes_sort_by_balance (l : addr) :
  heap_becomes (fun h => sorted_heap h l) (Zapper.sort_by_balance l).
Proof. intros s. reflexivity. Qed.

(** A first step that returns and keeps the heap. *)
Lemma becomes_after {A B} (f : heap -> heap) (m : M A) (k : A -> M B) :
  returns m -> keeps_heap m -> (forall a, heap_becomes f (k a)) ->
  heap_becomes f (bind m k).
Proof.
  intros Hr Hk H s. unfold bind. specialize (Hk s).
  destruct (Hr s) as (a & s1 & E). rewrite E in *. simpl in Hk.
  rewrite H, Hk. reflexivity.
Qed.

(** A step, followed by steps that keep the heap. *)
Lemma becomes_then {A B} (f : heap -> heap) (m : M A) (k : A -> M B) :
  heap_becomes f m -> (forall a, keeps_heap (k a)) -> heap_becomes f (bind m k).
Proof.
  intros Hm Hk s. unfold bind. specialize (Hm s).
  destruct (m s) as [[a | e] s1]; simpl in *.
  - rewrite Hk. exact Hm.
  - exact Hm.
Qed.

Ltac becomes_steps :=
  repeat (apply becomes_after;
          [ first [apply returns_print | apply returns_lift_ok
                  | apply returns_items_of | apply returns_positions_of]
          | first [apply keeps_print | apply keeps_lift
                  | apply keeps_items_of | apply keeps_positions_of]
          | intros ? ]).

Lemma sorted_heap_nil (h : heap) (l : addr) : list_at h l = [] -> sorted_heap h l = h.
Proof.
  intros H. unfold sorted_heap. rewrite H. cbn [PyFloat.sort_reverse rev
    PyFloat.sort_ascending]. unfold list_at in H.
  destruct h as [os ls]. cbn [objs lists] in *. f_equal.
  destruct (nth_error ls l) as [xs |] eqn:E.
  - subst xs. pose proof (replace_nth_fixed l ls []) as R. rewrite E in R. exact R.
  - pose proof (replace_nth_fixed l ls []) as R. rewrite E in R. exact R.
Qed.

(** The heap that [print_claimable_report] leaves. *)
Lemma print_claimable_report_heap (l : addr) :
  heap_becomes (fun h => sorted_heap h l) (Zapper.print_claimable_report l).
Proof.
  unfold Zapper.print_claimable_report.
  intros s. unfold bind at 1. unfold Zapper.items_of at 1. cbv beta iota.
  destruct (list_at (hp s) l) as [| a0 rest] eqn:Hitems.
  - unfold print. simpl. symmetry. apply sorted_heap_nil. exact Hitems.
  - revert s Hitems. intros s _. revert s.
    change (heap_becomes (fun h => sorted_heap h l)
              (positions <- Zapper.positions_of l ;;
               let total_claimable :=
                 fold_left (fun acc pos => PyFloat.add acc (balance_usd pos))
                           positions (S754_zero false) in
               print (Header "CLAIMABLE REWARDS SUMMARY") ;;
               print (Amount "Total Claimable Value:" total_claimable) ;;
               print (Count "Number of Claimable Positions:"
                            (List.length (a0 :: rest))) ;;
               print (Text "Claimable Positions:") ;;
               Zapper.sort_by_balance l ;;
               items <- Zapper.items_of l ;;
               for_each (Zapper.enumerate 1 items)
                        (fun ia =>
                           position <- Zapper.position_at (snd ia) ;;
                           print (Listed (fst ia) position) ;;
                           for_each (underlying_tokens position) Zapper.print_reward))).
    becomes_steps. cbv zeta. becomes_steps.
    apply becomes_then; [apply becomes_sort_by_balance |].
    intros _. keeps_tac.
Qed.

(** The heap that [print_defi_report] leaves once the total has been
    formatted. *)
Lemma print_defi_report_heap (summary : Zapper.summary) (l : addr) :
  is_Ok (Py.format_f (Zapper.total_value_usd summary)) = true ->
  heap_becomes (fun h => sorted_heap h l) (Zapper.print_defi_report summary l).
Proof.
  intros Htotal. unfold Zapper.print_defi_report.
  destruct (Py.format_f (Zapper.total_value_usd summary)) as [total | x];
    [| discriminate Htotal].
  becomes_steps.
  apply becomes_after.
  - destruct (Zapper.meta_type_summary summary); returns_tac.
  - destruct (Zapper.meta_type_summary summary); keeps_tac.
  - intros _. becomes_steps.
    apply becomes_then; [apply becomes_sort_by_balance |].
    intros _. keeps_tac.
    match goal with
    | |- keeps_heap (match underlying_tokens ?p with _ => _ end) =>
        destruct (underlying_tokens p)
    end; keeps_tac.
Qed.

Lemma replace_nth_beyond {A} (n : nat) (x : A) (l : list A) :
  nth_error l n = None -> replace_nth n x l = l.
Proof.
  revert n. induction l as [| y l IH]; intros [| n]; simpl; try reflexivity.
  - discriminate.
  - intros H. rewrite (IH n H). reflexivity.
Qed.

Lemma list_at_sorted_heap (h : heap) (l : addr) :
  list_at (sorted_heap h l) l
  = PyFloat.sort_reverse (Zapper.balance_at (objs h)) (list_at h l).
Proof.
  unfold sorted_heap, list_at. cbn [lists].
  destruct (nth_error (lists h) l) as [xs |] eqn:E.
  - rewrite replace_nth_same; [reflexivity |].
    apply nth_error_Some. congruence.
  - rewrite (replace_nth_beyond _ _ _ E), E. reflexivity.
Qed.

(** The in-place sort of the two reports is stable, and a list that is
    already in descending order of [balance_usd] is left exactly as it
    is.  For a list none of whose [balance_usd] is a NaN, after
    [print_claimable_report], and after [print_defi_report] once the
    total of the summary has been formatted: the positions whose balance
    equals a given number stand in the list in the order they stood in
    before; and when the list was in descending order, no object of the
    heap has changed at all. *)
Theorem reports_sort_stably
        (summary : Zapper.summary) (l : addr) (s : state) :
  no_nan addr (Zapper.balance_at (objs (hp s))) (list_at (hp s) l) ->
  forall h',
    h' = hp (snd (Zapper.print_claimable_report l s))
    \/ (is_Ok (Py.format_f (Zapper.total_value_usd summary)) = true
        /\ h' = hp (snd (Zapper.print_defi_report summary l s))) ->
    (forall k,
        PyFloat.is_nan k = false ->
        filter (same_key addr (Zapper.balance_at (objs (hp s))) k) (list_at h' l)
        = filter (same_key addr (Zapper.balance_at (objs (hp s))) k)
                 (list_at (hp s) l))
    /\ (StronglySorted (not_below addr (Zapper.balance_at (objs (hp s))))
                       (list_at (hp s) l) ->
        h' = hp s).
Proof.
  intros Hn h' Hh'.
  assert (E : h' = sorted_heap (hp s) l).
  { destruct Hh' as [-> | [Htotal ->]].
    - apply print_claimable_report_heap.
    - apply print_defi_report_heap. exact Htotal. }
  subst h'. split.
  - intros k Hk. rewrite list_at_sorted_heap. apply sort_reverse_stable. exact Hk.
  - intros Hs. unfold sorted_heap. rewrite (sort_reverse_fixed _ _ _ Hs).
    unfold list_at. rewrite replace_nth_fixed. destruct (hp s); reflexivity.
Qed.

(** Two positions of 20 dollars around one of 980: the report moves the
    larger one to the front and keeps the order of the other two. *)
Lemma reports_sort_stably_witness :
  let s := {| sent := []; out := [];
              hp := {| objs := [ Scenario.position "Aave" "SUPPLIED" (Scenario.num 20);
                                 Scenario.position "Pendle" "CLAIMABLE" (Scenario.num 980);
                                 Scenario.position "Morpho" "CLAIMABLE" (Scenario.num 20) ];
                       lists := [[0; 1; 2]%nat] |} |} in
  let h' := hp (snd (Zapper.print_claimable_report 0%nat s)) in
  list_at h' 0%nat = [1; 0; 2]%nat
  /\ filter (same_key addr (Zapper.balance_at (objs (hp s))) (Scenario.num 20))
            (list_at h' 0%nat)
     = [0; 2]%nat.
Proof.
  intros s h'. split; [reflexivity |].
  apply (proj1 (reports_sort_stably Scenario.a_summary 0%nat s
                  ltac:(repeat constructor) h' (or_introl eq_refl))).
  reflexivity.
Defined.


(* ------------------------------------------------------------------ *)
(** * The counts of [get_defi_summary] *)

Lemma add_app_keys (k : string) (p : DeFiPosition) (d : list (string * Zapper.app_entry)) :
  map fst (Zapper.add_app k p d)
  = if existsb (fun k' => String.eqb k' k) (map fst d)
    then map fst d else (map fst d ++ [k])%list.
Proof.
  induction d as [| [k' e] d IH]; [reflexivity |].
  cbn [Zapper.add_app map fst existsb].
  destruct (String.eqb k' k); [reflexivity |].
  cbn [map fst orb]. rewrite IH.
  destruct (existsb _ (map fst d)); reflexivity.
Qed.

Lemma add_app_positions (k : string) (p : DeFiPosition)
      (d : list (string * Zapper.app_entry)) :
  app_positions (Zapper.add_app k p d) = S (app_positions d).
Proof.
  induction d as [| [k' e] d IH]; [reflexivity |].
  cbn [Zapper.add_app]. destruct (String.eqb k' k); cbn [app_positions fold_right snd
    Zapper.entry_count].
  - fold (app_positions d). lia.
  - fold (app_positions (Zapper.add_app k p d)). fold (app_positions d).
    rewrite IH. lia.
Qed.

Lemma add_app_counts (k : string) (p : DeFiPosition)
      (d : list (string * Zapper.app_entry)) :
  Forall (fun kv => (1 <= Zapper.entry_count (snd kv))%nat) d ->
  Forall (fun kv => (1 <= Zapper.entry_count (snd kv))%nat) (Zapper.add_app k p d).
Proof.
  induction d as [| [k' e] d IH]; intros H.
  - repeat constructor.
  - inversion H; subst. cbn [Zapper.add_app].
    destruct (String.eqb k' k); constructor; auto.
    cbn [snd Zapper.entry_count]. lia.
Qed.

Lemma nodup_add_key (k : string) (ks : list string) :
  NoDup ks ->
  NoDup (if existsb (fun k' => String.eqb k' k) ks then ks else (ks ++ [k])%list).
Proof.
  intros H. destruct (existsb _ ks) eqn:E; [exact H |].
  apply NoDup_app; [exact H | repeat constructor; intros [] |].
  intros x Hx [-> | []].
  assert (C : existsb (fun k' => String.eqb k' x) ks = true).
  { apply existsb_exists. exists x. split; [exact Hx | apply String.eqb_refl]. }
  congruence.
Qed.

Lemma add_meta_keys (p : DeFiPosition) (d : list (string * Zapper.meta_entry)) :
  map fst (Zapper.add_meta p d)
  = if existsb (fun k' => String.eqb k' (meta_type p)) (map fst d)
    then map fst d else (map fst d ++ [meta_type p])%list.
Proof.
  induction d as [| [k' e] d IH]; [reflexivity |].
  cbn [Zapper.add_meta map fst existsb].
  destruct (String.eqb k' (meta_type p)); [reflexivity |].
  cbn [map fst orb]. rewrite IH.
  destruct (existsb _ (map fst d)); reflexivity.
Qed.

Lemma add_meta_positions (p : DeFiPosition) (d : list (string * Zapper.meta_entry)) :
  meta_positions (Zapper.add_meta p d) = S (meta_positions d).
Proof.
  induction d as [| [k' e] d IH]; [reflexivity |].
  cbn [Zapper.add_meta]. destruct (String.eqb k' (meta_type p));
    cbn [meta_positions fold_right snd Zapper.meta_count].
  - fold (meta_positions d). lia.
  - fold (meta_positions (Zapper.add_meta p d)). fold (meta_positions d).
    rewrite IH. lia.
Qed.

(** The loop that builds [app_summary]. *)
Lemma app_summary_loop (positions : list DeFiPosition)
      (d : list (string * Zapper.app_entry)) :
  let d' := fold_left
              (fun d position =>
                 Zapper.add_app (app_name position ++ " (" ++ network position ++ ")")
                                position d)
              positions d in
  NoDup (map fst d) ->
  Forall (fun kv => (1 <= Zapper.entry_count (snd kv))%nat) d ->
  NoDup (map fst d')
  /\ Forall (fun kv => (1 <= Zapper.entry_count (snd kv))%nat) d'
  /\ app_positions d' = (app_positions d + List.length positions)%nat.
Proof.
  revert d. induction positions as [| p positions IH]; intros d d' Hn Hc.
  - subst d'. simpl. repeat split; auto.
  - subst d'. cbn [fold_left].
    destruct (IH (Zapper.add_app (app_name p ++ " (" ++ network p ++ ")") p d))
      as (H1 & H2 & H3).
    + rewrite add_app_keys. apply nodup_add_key. exact Hn.
    + apply add_app_counts. exact Hc.
    + repeat split; auto. rewrite H3, add_app_positions. cbn [List.length]. lia.
Qed.

(** The loop that builds [meta_type_summary]. *)
Lemma meta_summary_loop (positions : list DeFiPosition)
      (d : list (string * Zapper.meta_entry)) :
  let d' := fold_left
              (fun d position =>
                 if String.eqb (meta_type position) EmptyString
                 then d else Zapper.add_meta position d)
              positions d in
  NoDup (map fst d) -> ~ In EmptyString (map fst d) ->
  NoDup (map fst d')
  /\ ~ In EmptyString (map fst d')
  /\ meta_positions d'
     = (meta_positions d + List.length (filter has_meta_type positions))%nat.
Proof.
  revert d. induction positions as [| p positions IH]; intros d d' Hn He.
  - subst d'. simpl. repeat split; auto.
  - subst d'. cbn [fold_left filter]. unfold has_meta_type at 1.
    destruct (String.eqb (meta_type p) EmptyString) eqn:Hm; cbn [negb].
    + apply IH; assumption.
    + destruct (IH (Zapper.add_meta p d)) as (H1 & H2 & H3).
      * rewrite add_meta_keys. apply nodup_add_key. exact Hn.
      * rewrite add_meta_keys.
        destruct (existsb _ (map fst d)); [exact He |].
        intros C. apply in_app_or in C. destruct C as [C | [C | []]]; [tauto |].
        rewrite C, String.eqb_refl in Hm. discriminate.
      * repeat split; auto. rewrite H3, add_meta_positions. cbn [List.length]. lia.
Qed.

(** The summary that [get_defi_summary] returns is built from the
    positions of its own list. *)
Lemma get_defi_summary_run (w : world) decode addresses chain_ids
      (s s' : state) (sm : Zapper.summary) :
  Zapper.get_defi_summary w decode addresses chain_ids s = (Ok sm, s') ->
  exists positions,
    Zapper.addresses sm = addresses
    /\ Zapper.chain_ids sm = chain_ids
    /\ Zapper.position_count sm = List.length positions
    /\ Zapper.unique_apps sm = List.length (Zapper.app_summary sm)
    /\ Zapper.app_summary sm
       = fold_left
           (fun d position =>
              Zapper.add_app (app_name position ++ " (" ++ network position ++ ")")
                             position d)
           positions []
    /\ Zapper.meta_type_summary sm
       = fold_left
           (fun d position =>
              if String.eqb (meta_type position) EmptyString
              then d else Zapper.add_meta position d)
           positions [].
Proof.
  unfold Zapper.get_defi_summary.
  unfold bind at 1.
  destruct (Zapper.fetch_defi_positions w addresses chain_ids s)
    as [[portfolio_data | e] s1]; [| discriminate].
  unfold bind at 1.
  destruct (Zapper.get_defi_positions w decode addresses chain_ids s1)
    as [[defi_positions | e] s2]; [| discriminate].
  unfold bind at 1, lift at 1.
  destruct (rbind (Py.subscript portfolio_data "portfolioV2") _)
    as [total | e]; [| discriminate].
  unfold bind, Zapper.positions_of, ret. cbv zeta.
  intros [= <- <-]. eexists. cbn [Zapper.addresses Zapper.chain_ids
    Zapper.position_count Zapper.unique_apps Zapper.app_summary
    Zapper.meta_type_summary].
  repeat split; reflexivity.
Qed.

(** The counts of a summary returned by [get_defi_summary] add up:
    every position is counted under exactly one application, so the
    [count] members of [app_summary] sum to [position_count], each
    is at least 1, the keys are distinct and [unique_apps] is their
    number, at most [position_count]; [meta_type_summary] has distinct
    keys, none of them empty, and its counts sum to at most
    [position_count].  The summary repeats the addresses and the chain
    ids as they were passed, before any filtering. *)
Theorem summary_counts_add_up
        (w : world) decode (addresses : list string) (chain_ids : option (list Z))
        (s s' : state) (sm : Zapper.summary) :
  Zapper.get_defi_summary w decode addresses chain_ids s = (Ok sm, s') ->
  app_positions (Zapper.app_summary sm) = Zapper.position_count sm
  /\ Forall (fun kv => (1 <= Zapper.entry_count (snd kv))%nat) (Zapper.app_summary sm)
  /\ NoDup (map fst (Zapper.app_summary sm))
  /\ Zapper.unique_apps sm = List.length (Zapper.app_summary sm)
  /\ (Zapper.unique_apps sm <= Zapper.position_count sm)%nat
  /\ NoDup (map fst (Zapper.meta_type_summary sm))
  /\ ~ In EmptyString (map fst (Zapper.meta_type_summary sm))
  /\ (meta_positions (Zapper.meta_type_summary sm) <= Zapper.position_count sm)%nat
  /\ Zapper.addresses sm = addresses
  /\ Zapper.chain_ids sm = chain_ids.
Proof.
  intros H.
  destruct (get_defi_summary_run w decode addresses chain_ids s s' sm H)
    as (positions & Ha & Hc & Hn & Hu & Happ & Hmeta).
  destruct (app_summary_loop positions [] (NoDup_nil _) (Forall_nil _))
    as (A1 & A2 & A3).
  destruct (meta_summary_loop positions [] (NoDup_nil _) (fun C => C))
    as (M1 & M2 & M3).
  rewrite <- Happ in A1, A2, A3. rewrite <- Hmeta in M1, M2, M3.
  cbn [app_positions meta_positions fold_right Nat.add] in A3, M3.
  assert (Hlen : (List.length (Zapper.app_summary sm)
                  <= app_positions (Zapper.app_summary sm))%nat).
  { clear - A2. induction A2 as [| kv d Hkv _ IH]; [apply le_n |].
    cbn [List.length app_positions fold_right]. fold (app_positions d). lia. }
  pose proof (filter_length_le has_meta_type positions) as Hf.
  repeat split; try assumption; lia.
Qed.

(** Three positions in three applications, two of them claimable. *)
Lemma summary_counts_add_up_witness :
  exists sm,
    fst (Zapper.get_defi_summary Scenario.healthy Scenario.decode
                                 Main.wallet_addresses None initial) = Ok sm
    /\ Zapper.position_count sm = 3%nat
    /\ app_positions (Zapper.app_summary sm) = Zapper.position_count sm.
Proof.
  eexists. split; [vm_compute; reflexivity |]. split; [reflexivity |].
  refine (proj1 (summary_counts_add_up
                   Scenario.healthy Scenario.decode Main.wallet_addresses None
                   initial _ _ _)).
  vm_compute. reflexivity.
Defined.

(* ------------------------------------------------------------------ *)
(** * [get_collateral_composition]: requests and objects *)

(** [get_defi_positions] is one fetch followed by the decoding of the
    payload; the positions decoded are new objects, held by a new list. *)
Lemma get_defi_positions_run (w : world) decode addresses chain_ids (s : state) :
  exists warning : list line,
    let q := PortfolioV2 addresses (requested_chain_ids chain_ids) in
    let h := hp s in
    Zapper.get_defi_positions w decode addresses chain_ids s
    = match rbind (portfolio_result (http_post w (sent s) API_URL q (Some 30))) decode with
      | Ok positions =>
          (Ok (List.length (lists h)),
           {| sent := HttpPost API_URL q (Some 30) :: sent s;
              out := (warning ++ out s)%list;
              hp := {| objs := (objs h ++ positions)%list;
                       lists := (lists h
                                 ++ [seq (List.length (objs h))
                                         (List.length positions)])%list |} |})
      | Raise e =>
          (Raise e,
           {| sent := HttpPost API_URL q (Some 30) :: sent s;
              out := (warning ++ out s)%list;
              hp := h |})
      end.
Proof.
  destruct (fetch_defi_positions_run w addresses chain_ids s) as (warning & E).
  exists warning. cbv zeta in *.
  unfold Zapper.get_defi_positions. unfold bind at 1. rewrite E.
  destruct (portfolio_result _) as [portfolio_data | e]; [| reflexivity].
  unfold bind, lift. cbn [rbind].
  destruct (decode portfolio_data) as [positions | e]; reflexivity.
Qed.

(** [get_defi_summary] fetches the portfolio itself and then has
    [get_defi_positions] fetch it again. *)
Lemma get_defi_summary_state (w : world) decode addresses chain_ids (s : state) :
  let q := PortfolioV2 addresses (requested_chain_ids chain_ids) in
  let r := Zapper.get_defi_summary w decode addresses chain_ids s in
  (is_Ok (fst r) = false
   /\ sent (snd r) = HttpPost API_URL q (Some 30) :: sent s
   /\ hp (snd r) = hp s)
  \/ (sent (snd r)
      = HttpPost API_URL q (Some 30) :: HttpPost API_URL q (Some 30) :: sent s
      /\ ((is_Ok (fst r) = false /\ hp (snd r) = hp s)
          \/ exists portfolio_data positions,
               decode portfolio_data = Ok positions
               /\ hp (snd r) = with_positions (hp s) positions)).
Proof.
  intros q r. subst r.
  destruct (fetch_defi_positions_run w addresses chain_ids s) as (warning & E).
  cbv zeta in E. fold q in E.
  destruct (Zapper.get_defi_summary w decode addresses chain_ids s) as [res st] eqn:R.
  cbn [fst snd]. unfold Zapper.get_defi_summary in R.
  unfold bind at 1 in R. rewrite E in R. clear E.
  destruct (portfolio_result _) as [portfolio_data | e];
    [| injection R as <- <-; left; repeat split].
  right. unfold bind at 1 in R.
  match type of R with
  | context [Zapper.get_defi_positions w decode addresses chain_ids ?s1] =>
      destruct (get_defi_positions_run w decode addresses chain_ids s1)
        as (warning' & E')
  end.
  cbv zeta in E'. fold q in E'. rewrite E' in R. clear E'.
  cbn [sent hp record_request] in R.
  destruct (portfolio_result _) as [portfolio_data' | e];
    [| injection R as <- <-; split; [reflexivity | left; split; reflexivity]].
  cbn [rbind] in R. destruct (decode portfolio_data') as [positions | e] eqn:Hd;
    [| injection R as <- <-; split; [reflexivity | left; split; reflexivity]].
  unfold bind at 1, lift at 1 in R.
  destruct (rbind (Py.subscript portfolio_data "portfolioV2") _) as [total | e];
    unfold bind, Zapper.positions_of, ret in R; cbv zeta in R;
    injection R as <- <-;
    (split; [reflexivity |]); right; exists portfolio_data', positions;
    (split; [exact Hd | reflexivity]).
Qed.

Lemma rbind_ok {A B} (r : result A) (k : A -> result B) (b : B) :
  rbind r k = Ok b -> exists a, r = Ok a /\ k a = Ok b.
Proof. destruct r as [a | e]; [| discriminate]. intros H. exists a. auto. Qed.

(** [get_defi_summary] when it returns: the total is read from the
    reply to its own fetch, the positions that it counts are decoded from
    the reply to the fetch of [get_defi_positions] that follows, and
    they are new objects. *)
Lemma get_defi_summary_ok (w : world) decode addresses chain_ids
      (s s' : state) (sm : Zapper.summary) :
  Zapper.get_defi_summary w decode addresses chain_ids s = (Ok sm, s') ->
  let q := PortfolioV2 addresses (requested_chain_ids chain_ids) in
  exists portfolio_data portfolio_data' positions',
    portfolio_result (http_post w (sent s) API_URL q (Some 30)) = Ok portfolio_data
    /\ rbind (Py.subscript portfolio_data "portfolioV2") (fun a =>
       rbind (Py.subscript a "appBalances") (fun b =>
       Py.subscript b "totalBalanceUSD"))
       = Ok (Zapper.total_value_usd sm)
    /\ portfolio_result
         (http_post w (HttpPost API_URL q (Some 30) :: sent s) API_URL q (Some 30))
       = Ok portfolio_data'
    /\ decode portfolio_data' = Ok positions'
    /\ sent s' = HttpPost API_URL q (Some 30) :: HttpPost API_URL q (Some 30) :: sent s
    /\ hp s' = with_positions (hp s) positions'.
Proof.
  intros R q.
  destruct (fetch_defi_positions_run w addresses chain_ids s) as (warning & E).
  cbv zeta in E. fold q in E.
  unfold Zapper.get_defi_summary in R.
  unfold bind at 1 in R. rewrite E in R. clear E.
  destruct (portfolio_result _) as [portfolio_data | e]; [| discriminate R].
  exists portfolio_data.
  unfold bind at 1 in R.
  match type of R with
  | context [Zapper.get_defi_positions w decode addresses chain_ids ?s1] =>
      destruct (get_defi_positions_run w decode addresses chain_ids s1)
        as (warning' & E')
  end.
  cbv zeta in E'. fold q in E'. rewrite E' in R. clear E'.
  cbn [sent out hp record_request] in R.
  destruct (portfolio_result _) as [portfolio_data' | e];
    [| discriminate R].
  exists portfolio_data'. cbn [rbind] in R.
  destruct (decode portfolio_data') as [positions' | e]; [| discriminate R].
  exists positions'.
  unfold bind at 1, lift at 1 in R.
  destruct (rbind (Py.subscript portfolio_data "portfolioV2") _) as [total | e];
    [| discriminate R].
  unfold bind, Zapper.positions_of, ret in R. cbv zeta in R.
  injection R as <- <-. repeat split; reflexivity.
Qed.

(** The run of [get_collateral_composition] that returns a dictionary:
    the three replies it has read, and the heap it leaves. *)
Lemma get_collateral_composition_some (w : world) decode (s s' : state)
      (c : Main.collateral) :
  Main.get_collateral_composition w decode s = (Ok (Some c), s') ->
  let k0 := List.length (lists (hp s)) in
  let reply history :=
    portfolio_result
      (http_post w history API_URL
                 (PortfolioV2 Main.wallet_addresses (requested_chain_ids None))
                 (Some 30)) in
  let h1 := HttpPost API_URL SchemaTest (Some 10) :: sent s in
  let h2 := portfolio_request :: h1 in
  let h3 := portfolio_request :: h2 in
  exists first positions second third positions',
    (reply h1 = Ok first /\ decode first = Ok positions)
    /\ (reply h2 = Ok second
        /\ rbind (Py.subscript second "portfolioV2") (fun a =>
           rbind (Py.subscript a "appBalances") (fun b =>
           Py.subscript b "totalBalanceUSD"))
           = Ok (Main.total_value c))
    /\ (reply h3 = Ok third /\ decode third = Ok positions')
    /\ Main.positions c = k0
    /\ Main.claimable c = S (S k0)
    /\ sent s' = portfolio_request :: h3
    /\ hp s'
       = sorted_heap
           (with_claimable
              (sorted_heap
                 (with_positions (with_positions (hp s) positions) positions') k0)
              k0)
           (S (S k0))
    /\ is_Ok (Py.format_f (Main.total_value c)) = true.
Proof.
  intros R k0 reply h1 h2 h3.
  unfold Main.get_collateral_composition, Main.print_header in R.
  unfold bind at 1, print at 1 in R. unfold bind at 1 in R.
  match type of R with
  | context [Zapper.test_api_connection w Zapper.API_KEY ?s0] =>
      destruct (test_api_connection_run w Zapper.API_KEY s0) as (Hr & Hs & Hh);
      destruct (Zapper.test_api_connection w Zapper.API_KEY s0) as [res [sn ? h]]
  end.
  cbn [fst snd sent hp] in Hr, Hs, Hh. subst res sn h.
  destruct (connection_ok _); cbn [negb] in R;
    [| unfold bind, print, ret in R; discriminate R].
  unfold try_except in R. unfold bind at 1 in R.
  match type of R with
  | context [Zapper.get_defi_positions w decode Main.wallet_addresses None ?s1] =>
      destruct (get_defi_positions_run w decode Main.wallet_addresses None s1)
        as (warning & E)
  end.
  cbv zeta in E. cbn [sent out hp] in E. rewrite E in R. clear E.
  fold h1 in R. change (portfolio_result _) with (reply h1) in R.
  destruct (reply h1) as [first |] eqn:H1; cbn [rbind] in R;
    [| unfold bind, print, ret in R; discriminate R].
  destruct (decode first) as [positions |] eqn:Hd;
    [| unfold bind, print, ret in R; discriminate R].
  unfold bind at 1 in R.
  match type of R with
  | context [Zapper.get_defi_summary w decode Main.wallet_addresses None ?s2] =>
      pose proof (get_defi_summary_ok w decode Main.wallet_addresses None s2) as Hsm;
      destruct (Zapper.get_defi_summary w decode Main.wallet_addresses None s2)
        as [[sm | e] [sn ? h]]
  end; [| unfold bind, print, ret in R; discriminate R].
  destruct (Hsm _ sm eq_refl)
    as (second & third & positions' & H2 & Htotal & H3 & Hd' & Hs & Hh).
  clear Hsm. cbn [sent hp] in H2, H3, Hs, Hh. subst sn h.
  unfold bind at 1 in R.
  match type of R with
  | context [Zapper.print_defi_report sm ?l ?s3] =>
      pose proof (print_defi_report_returned sm l s3) as Hformat;
      pose proof (sent_print_defi_report sm l s3) as Hs4;
      pose proof (fun H => print_defi_report_heap sm l H s3) as Hh4;
      destruct (Zapper.print_defi_report sm l s3) as [[[] | e] [sn ? h]]
  end; [| unfold bind, print, ret in R; discriminate R].
  cbn [fst snd sent hp] in Hformat, Hs4, Hh4.
  specialize (Hformat eq_refl). specialize (Hh4 Hformat). subst sn h.
  unfold bind at 1 in R.
  unfold Zapper.get_claimable_positions at 1, Zapper.new_list at 1 in R.
  cbn [sent out hp] in R.
  unfold bind at 1 in R.
  match type of R with
  | context [Zapper.print_claimable_report ?l ?s5] =>
      pose proof (sent_print_claimable_report l s5) as Hs6;
      pose proof (print_claimable_report_heap l s5) as Hh6;
      destruct (Zapper.print_claimable_report l s5) as [[[] | e] [sn ? h]]
  end; [| unfold bind, print, ret in R; discriminate R].
  cbn [fst snd sent hp] in Hs6, Hh6. subst sn h.
  unfold ret in R. injection R as <- <-.
  exists first, positions, second, third, positions'.
  split; [split; [reflexivity | exact Hd] |].
  split; [split; [exact H2 | exact Htotal] |].
  split; [split; [exact H3 | exact Hd'] |].
  cbn [Main.positions Main.claimable sent hp].
  split; [reflexivity |]. split.
  { unfold sorted_heap, with_positions. cbn [lists objs].
    rewrite replace_nth_length, !length_app. cbn [List.length]. subst k0. lia. }
  split; [reflexivity |]. split; [| exact Hformat].
  unfold with_claimable.
  match goal with
  | |- sorted_heap _ ?n = sorted_heap _ ?m => replace n with m; [reflexivity |]
  end.
  rewrite replace_nth_length, !length_app. cbn [List.length]. subst k0. lia.
Qed.

Lemma lists_sorted_heap (h : heap) (l : addr) :
  List.length (lists (sorted_heap h l)) = List.length (lists h).
Proof. apply replace_nth_length. Qed.

Lemma list_at_sorted_heap_other (h : heap) (l l' : addr) :
  l' <> l -> list_at (sorted_heap h l) l' = list_at h l'.
Proof.
  intros H. unfold sorted_heap, list_at. cbn [lists].
  rewrite replace_nth_other; [reflexivity | congruence].
Qed.

Lemma list_at_with_claimable_old (h : heap) (l l' : addr) :
  (l' < List.length (lists h))%nat -> list_at (with_claimable h l) l' = list_at h l'.
Proof.
  intros H. unfold with_claimable, list_at. cbn [lists].
  rewrite nth_error_app1 by exact H. reflexivity.
Qed.

Lemma list_at_with_claimable_new (h : heap) (l : addr) :
  list_at (with_claimable h l) (List.length (lists h))
  = filter (Zapper.claimable_at (objs h)) (list_at h l).
Proof.
  unfold with_claimable, list_at at 1. cbn [lists].
  rewrite nth_error_app2 by lia. rewrite Nat.sub_diag. reflexivity.
Qed.

Lemma list_at_with_positions_old (h : heap) ps (l' : addr) :
  (l' < List.length (lists h))%nat -> list_at (with_positions h ps) l' = list_at h l'.
Proof.
  intros H. unfold with_positions, list_at. cbn [lists].
  rewrite nth_error_app1 by exact H. reflexivity.
Qed.

Lemma list_at_with_positions_new (h : heap) ps :
  list_at (with_positions h ps) (List.length (lists h))
  = seq (List.length (objs h)) (List.length ps).
Proof.
  unfold with_positions, list_at. cbn [lists].
  rewrite nth_error_app2 by lia. rewrite Nat.sub_diag. reflexivity.
Qed.

(** The addresses of newly created positions denote them. *)
Lemma deref_new (os ps rest : list DeFiPosition) :
  deref ((os ++ ps) ++ rest) (seq (List.length os) (List.length ps)) = ps.
Proof.
  revert os. induction ps as [| p ps IH]; intros os; [reflexivity |].
  cbn [List.length seq deref].
  rewrite <- app_assoc, nth_error_app2 by lia. rewrite Nat.sub_diag.
  cbn [app nth_error]. f_equal.
  specialize (IH (os ++ [p])%list).
  rewrite length_app in IH. cbn [List.length] in IH.
  rewrite Nat.add_1_r in IH. rewrite <- !app_assoc in IH. cbn [app] in IH.
  exact IH.
Qed.

Lemma deref_perm (os : list DeFiPosition) (l l' : list addr) :
  Permutation l l' -> Permutation (deref os l) (deref os l').
Proof.
  intros P. induction P as [| a l l' P IH | a b l | l1 l2 l3 P1 IH1 P2 IH2];
    cbn [deref].
  - constructor.
  - destruct (nth_error os a); [apply perm_skip |]; exact IH.
  - destruct (nth_error os a), (nth_error os b);
      try apply Permutation_refl. apply perm_swap.
  - eapply Permutation_trans; eassumption.
Qed.

Lemma deref_balances (os : list DeFiPosition) (l : list addr) :
  Forall (fun a => (a < List.length os)%nat) l ->
  Forall (fun p => PyFloat.is_nan (balance_usd p) = false) (deref os l) ->
  no_nan addr (Zapper.balance_at os) l.
Proof.
  unfold no_nan, Zapper.balance_at.
  induction l as [| a l IH]; intros Hl Hp; [constructor |].
  inversion Hl as [| ? ? Ha Hl']; subst. cbn [deref] in Hp.
  destruct (nth_error os a) as [p |] eqn:E.
  - inversion Hp; subst. constructor; [rewrite E; assumption | auto].
  - apply nth_error_None in E. lia.
Qed.

Lemma sorted_filter {A} (R : A -> A -> Prop) (f : A -> bool) (l : list A) :
  StronglySorted R l -> StronglySorted R (filter f l).
Proof.
  intros Hs. induction Hs as [| x l Hs IH Hall]; cbn [filter]; [constructor |].
  destruct (f x); [| exact IH].
  constructor; [exact IH |].
  apply Forall_forall. intros y Hy. apply filter_In in Hy.
  rewrite Forall_forall in Hall. apply Hall. tauto.
Qed.

(** What [get_collateral_composition] returns when it returns a
    dictionary.  [positions] and [claimable] are two new list objects.
    The first holds the positions decoded from the reply to the first
    portfolio query; the second holds those positions of the first that
    are claimable, so the two lists share their position objects.  When
    no [balance_usd] of these positions is a NaN, the first list is in
    descending order of [balance_usd] and the second is in the same
    order.  The positions that [get_defi_summary] decoded from its own
    fetch are further objects; and no list and no position that existed
    before the call has changed. *)
Theorem collateral_lists_share_their_positions
        (w : world) decode (s s' : state) (c : Main.collateral) :
  Main.get_collateral_composition w decode s = (Ok (Some c), s') ->
  let h := hp s in
  let h' := hp s' in
  let first :=
    portfolio_result
      (http_post w (HttpPost API_URL SchemaTest (Some 10) :: sent s) API_URL
                 (PortfolioV2 Main.wallet_addresses (requested_chain_ids None))
                 (Some 30)) in
  exists positions,
    rbind first decode = Ok positions
    /\ Main.positions c = List.length (lists h)
    /\ Main.claimable c = S (S (List.length (lists h)))
    /\ Permutation positions (deref (objs h') (list_at h' (Main.positions c)))
    /\ Permutation (list_at h' (Main.claimable c))
                   (filter (Zapper.claimable_at (objs h'))
                           (list_at h' (Main.positions c)))
    /\ (Forall (fun p => PyFloat.is_nan (balance_usd p) = false) positions ->
        StronglySorted (not_below addr (Zapper.balance_at (objs h')))
                       (list_at h' (Main.positions c))
        /\ list_at h' (Main.claimable c)
           = filter (Zapper.claimable_at (objs h')) (list_at h' (Main.positions c)))
    /\ (exists created, objs h' = (objs h ++ created)%list)
    /\ (forall l, (l < List.length (lists h))%nat -> list_at h' l = list_at h l).
Proof.
  intros R h h' first.
  destruct (get_collateral_composition_some w decode s s' c R)
    as (pd & ps & _ & pd' & ps' & (H1 & Hd) & _ & (_ & Hd') & Hp & Hc & _ & Hh & _).
  exists ps. split; [subst first; rewrite H1; exact Hd |].
  clear first H1 Hd.
  subst h'. fold h in Hp, Hc, Hh. rewrite Hh, Hp, Hc. clear Hh Hp Hc R.
  set (k0 := List.length (lists h)).
  set (h2 := with_positions (with_positions h ps) ps').
  set (h3 := sorted_heap h2 k0).
  set (h4 := with_claimable h3 k0).
  assert (L2 : List.length (lists h2) = S (S k0)).
  { unfold h2, with_positions. cbn [lists]. rewrite !length_app. cbn [List.length].
    subst k0. lia. }
  assert (L3 : List.length (lists h3) = S (S k0))
    by (unfold h3; rewrite lists_sorted_heap; exact L2).
  assert (O : objs (sorted_heap h4 (S (S k0))) = ((objs h ++ ps) ++ ps')%list)
    by reflexivity.
  assert (E2 : list_at h2 k0 = seq (List.length (objs h)) (List.length ps)).
  { unfold h2. rewrite list_at_with_positions_old.
    - apply list_at_with_positions_new.
    - unfold with_positions. cbn [lists]. rewrite length_app. cbn [List.length].
      subst k0. lia. }
  assert (E0 : list_at (sorted_heap h4 (S (S k0))) k0
               = PyFloat.sort_reverse (Zapper.balance_at (objs h2)) (list_at h2 k0)).
  { rewrite list_at_sorted_heap_other by lia.
    unfold h4. rewrite list_at_with_claimable_old by lia.
    unfold h3. apply list_at_sorted_heap. }
  assert (E1 : list_at (sorted_heap h4 (S (S k0))) (S (S k0))
               = PyFloat.sort_reverse
                   (Zapper.balance_at (objs h2))
                   (filter (Zapper.claimable_at (objs h2))
                           (PyFloat.sort_reverse (Zapper.balance_at (objs h2))
                                                 (list_at h2 k0)))).
  { rewrite list_at_sorted_heap.
    rewrite <- L3. unfold h4. rewrite list_at_with_claimable_new.
    change (list_at h3 k0) with (list_at (sorted_heap h2 k0) k0).
    rewrite list_at_sorted_heap. reflexivity. }
  split; [reflexivity |]. split; [reflexivity |].
  split; [| split; [| split; [| split]]].
  - rewrite E0, O, E2.
    rewrite <- (deref_new (objs h) ps ps') at 1.
    apply deref_perm. apply sort_reverse_perm.
  - rewrite E1, E0. change (objs (sorted_heap h4 (S (S k0)))) with (objs h2).
    apply Permutation_sym. apply sort_reverse_perm.
  - intros Hnan.
    assert (N : no_nan addr (Zapper.balance_at (objs h2)) (list_at h2 k0)).
    { rewrite E2. apply deref_balances.
      - apply Forall_forall. intros a Ha. apply in_seq in Ha.
        change (objs h2) with ((objs h ++ ps) ++ ps')%list.
        rewrite !length_app. lia.
      - change (objs h2) with ((objs h ++ ps) ++ ps')%list.
        rewrite deref_new. exact Hnan. }
    assert (S0 : StronglySorted (not_below addr (Zapper.balance_at (objs h2)))
                   (PyFloat.sort_reverse (Zapper.balance_at (objs h2)) (list_at h2 k0)))
      by (apply sort_reverse_sorted; exact N).
    split.
    + rewrite E0. exact S0.
    + rewrite E1, E0. change (objs (sorted_heap h4 (S (S k0)))) with (objs h2).
      apply sort_reverse_fixed. apply sorted_filter. exact S0.
  - exists (ps ++ ps')%list. rewrite O. symmetry. apply app_assoc.
  - intros l Hl. fold k0 in Hl.
    rewrite list_at_sorted_heap_other by lia.
    unfold h4. rewrite list_at_with_claimable_old by lia.
    unfold h3. rewrite list_at_sorted_heap_other by lia.
    unfold h2. rewrite list_at_with_positions_old.
    + apply list_at_with_positions_old. exact Hl.
    + unfold with_positions. cbn [lists]. rewrite length_app. cbn [List.length].
      subst k0. lia.
Qed.

(** The healthy world, with the loop of [get_defi_positions] as the
    decoder: the positions of the reply are Aave (500), Morpho (20) and
    Pendle (980); the portfolio list is sorted to Pendle, Aave, Morpho,
    and the claimable list holds Pendle and Morpho, the same two
    objects. *)
Lemma collateral_lists_share_their_positions_witness :
  let r := Main.get_collateral_composition Scenario.healthy Scenario.decode initial in
  exists c,
    fst r = Ok (Some c)
    /\ deref (objs (hp (snd r))) [0; 1; 2]%nat = Scenario.three_positions
    /\ list_at (hp (snd r)) (Main.positions c) = [2; 0; 1]%nat
    /\ list_at (hp (snd r)) (Main.claimable c) = [2; 1]%nat.
Proof.
  intros r.
  destruct r as [[[c |] | e] s'] eqn:R; try (vm_compute in R; discriminate R).
  exists c. split; [reflexivity |].
  destruct (collateral_lists_share_their_positions
              Scenario.healthy Scenario.decode initial s' c R)
    as (positions & Hd & Hp & _ & _ & _ & Hsorted & _).
  vm_compute in Hd. injection Hd as <-.
  destruct Hsorted as [_ Hfilter]; [repeat constructor |].
  cbn [fst snd]. rewrite Hfilter.
  assert (E : s' = snd (Main.get_collateral_composition
                          Scenario.healthy Scenario.decode initial))
    by (fold r; rewrite R; reflexivity).
  rewrite Hp, E. vm_compute. repeat split.
Defined.

(** One call of [get_collateral_composition] sends the connection test
    and then the same portfolio query up to three times: once for
    [get_defi_positions], and twice for [get_defi_summary], which fetches
    the portfolio itself and again through [get_defi_positions].  No
    query is sent when the test fails, at least one is sent when it
    succeeds, and all three have been sent whenever a dictionary is
    returned. *)
Theorem the_portfolio_is_fetched_up_to_three_times
        (w : world) decode (s : state) :
  let r := Main.get_collateral_composition w decode s in
  exists n,
    (n <= 3)%nat
    /\ sent (snd r)
       = (repeat portfolio_request n
          ++ HttpPost API_URL SchemaTest (Some 10) :: sent s)%list
    /\ (n = 0%nat
        <-> connection_ok (http_post w (sent s) API_URL SchemaTest (Some 10)) = false)
    /\ (forall c, fst r = Ok (Some c) -> n = 3%nat).
Proof.
  intros r. subst r.
  destruct (Main.get_collateral_composition w decode s) as [res st] eqn:R.
  cbn [fst snd].
  unfold Main.get_collateral_composition, Main.print_header in R.
  unfold bind at 1, print at 1 in R. unfold bind at 1 in R.
  match type of R with
  | context [Zapper.test_api_connection w Zapper.API_KEY ?s0] =>
      destruct (test_api_connection_run w Zapper.API_KEY s0) as (Hr & Hs & Hh);
      destruct (Zapper.test_api_connection w Zapper.API_KEY s0) as [res0 [sn ? h]]
  end.
  cbn [fst snd sent hp] in Hr, Hs, Hh. subst res0 sn h.
  destruct (connection_ok _); cbn [negb] in R.
  2:{ unfold bind, print, ret in R. injection R as <- <-.
      exists 0%nat. repeat split; try lia; try reflexivity. discriminate. }
  unfold try_except in R. unfold bind at 1 in R.
  match type of R with
  | context [Zapper.get_defi_positions w decode Main.wallet_addresses None ?s1] =>
      destruct (get_defi_positions_run w decode Main.wallet_addresses None s1)
        as (warning & E)
  end.
  cbv zeta in E. cbn [sent out hp] in E. rewrite E in R. clear E.
  destruct (rbind (portfolio_result _) decode) as [positions | e].
  2:{ unfold bind, print, ret in R. injection R as <- <-.
      exists 1%nat. repeat split; try lia; try discriminate. }
  unfold bind at 1 in R.
  match type of R with
  | context [Zapper.get_defi_summary w decode Main.wallet_addresses None ?s2] =>
      pose proof (get_defi_summary_state w decode Main.wallet_addresses None s2) as Hsm;
      destruct (Zapper.get_defi_summary w decode Main.wallet_addresses None s2)
        as [[sm | e] [sn ? h]]
  end.
  2:{ cbv zeta in Hsm. cbn [fst snd sent hp is_Ok] in Hsm.
      unfold bind, print, ret in R. injection R as <- <-. cbn [sent].
      destruct Hsm as [(_ & Hs & _) | (Hs & _)]; subst sn.
      - exists 2%nat. repeat split; try lia; try discriminate.
      - exists 3%nat. repeat split; try lia; try discriminate. }
  cbv zeta in Hsm. cbn [fst snd sent hp is_Ok] in Hsm.
  destruct Hsm as [(C & _) | (Hs & _)]; [discriminate C |]. subst sn.
  exists 3%nat.
  assert (Hst : sent st
                = (repeat portfolio_request 3
                   ++ HttpPost API_URL SchemaTest (Some 10) :: sent s)%list).
  { unfold bind at 1 in R.
    match type of R with
    | context [Zapper.print_defi_report sm ?l ?s3] =>
        pose proof (sent_print_defi_report sm l s3) as Hs4;
        destruct (Zapper.print_defi_report sm l s3) as [[[] | e] [sn ? h']]
    end; cbn [fst snd sent] in Hs4; subst sn.
    2:{ unfold bind, print, ret in R. injection R as <- <-. reflexivity. }
    unfold bind at 1 in R.
    unfold Zapper.get_claimable_positions at 1, Zapper.new_list at 1 in R.
    cbn [sent out hp] in R.
    unfold bind at 1 in R.
    match type of R with
    | context [Zapper.print_claimable_report ?l ?s5] =>
        pose proof (sent_print_claimable_report l s5) as Hs6;
        destruct (Zapper.print_claimable_report l s5) as [[[] | e] [sn ? h'']]
    end; cbn [fst snd sent] in Hs6; subst sn.
    - unfold ret in R. injection R as <- <-. reflexivity.
    - unfold bind, print, ret in R. injection R as <- <-. reflexivity. }
  repeat split; try lia; try discriminate. exact Hst.
Qed.

(* ------------------------------------------------------------------ *)
(** * [main] runs its sections whatever the connection checks say *)

Lemma extends_keeps {A} (m : M A) : keeps_sent m -> extends_sent m.
Proof. intros H s. exists []. apply H. Qed.

Lemma extends_call (w : world) c f : extends_sent (call w c f).
Proof. intros s. exists [EthCall c f]. reflexivity. Qed.

Lemma extends_post (w : world) url q t : extends_sent (post w url q t).
Proof. intros s. exists [HttpPost url q t]. reflexivity. Qed.

Lemma extends_connected (w : world) h : extends_sent (connected w h).
Proof. intros s. exists [IsConnected h]. reflexivity. Qed.

Lemma extends_bind {A B} (m : M A) (k : A -> M B) :
  extends_sent m -> (forall a, extends_sent (k a)) -> extends_sent (bind m k).
Proof.
  intros Hm Hk s. unfold bind. destruct (Hm s) as (l1 & E1).
  destruct (m s) as [[a | e] s1]; simpl in *.
  - destruct (Hk a s1) as (l2 & E2). exists (l2 ++ l1)%list.
    rewrite E2, E1. apply app_assoc.
  - exists l1. exact E1.
Qed.

Lemma extends_try_except {A} (m : M A) (h : exn -> M A) :
  extends_sent m -> (forall e, extends_sent (h e)) -> extends_sent (try_except m h).
Proof.
  intros Hm Hh s. unfold try_except. destruct (Hm s) as (l1 & E1).
  destruct (m s) as [[a | e] s1]; simpl in *.
  - exists l1. exact E1.
  - destruct (Hh e s1) as (l2 & E2). exists (l2 ++ l1)%list.
    rewrite E2, E1. apply app_assoc.
Qed.

Lemma extends_for_each {A} (xs : list A) (body : A -> M unit) :
  (forall x, extends_sent (body x)) -> extends_sent (for_each xs body).
Proof.
  intros Hb. induction xs as [| x xs IH]; simpl.
  - apply extends_keeps, sent_ret.
  - apply extends_bind; [apply Hb | intros _; exact IH].
Qed.

Lemma extends_get_token_balances (w : world) c name abi :
  extends_sent (Curve.get_token_balances w c name abi).
Proof.
  unfold Curve.get_token_balances.
  apply extends_try_except.
  - apply extends_bind.
    + destruct (String.eqb abi "get_balances");
        repeat (apply extends_bind;
                [ first [apply extends_call | apply extends_keeps; sent_tac]
                | intros ? ]);
        apply extends_keeps; sent_tac.
    + intros [[bs x] y]. apply extends_keeps. sent_tac.
  - intros e. apply extends_keeps. sent_tac.
Qed.

Lemma extends_situation (w : world) strtod banner markets :
  extends_sent (Morpho.situation w strtod banner markets).
Proof.
  intros s. unfold Morpho.situation. unfold bind, print. cbv beta iota.
  eexists.
  apply (proj1 (report_loop_run w strtod markets
                  {| sent := sent s; out := Header banner :: out s; hp := hp s |})).
Qed.

Lemma extends_get_defi_positions (w : world) decode addresses chain_ids :
  extends_sent (Zapper.get_defi_positions w decode addresses chain_ids).
Proof.
  intros s.
  destruct (get_defi_positions_run w decode addresses chain_ids s) as (warning & E).
  cbv zeta in E. rewrite E. eexists [_].
  destruct (rbind _ decode); reflexivity.
Qed.

Lemma extends_get_defi_summary (w : world) decode addresses chain_ids :
  extends_sent (Zapper.get_defi_summary w decode addresses chain_ids).
Proof.
  intros s.
  destruct (get_defi_summary_state w decode addresses chain_ids s)
    as [(_ & E & _) | (E & _)]; rewrite E.
  - eexists [_]. reflexivity.
  - eexists [_; _]. reflexivity.
Qed.

Lemma extends_test_api_connection (w : world) api_key :
  extends_sent (Zapper.test_api_connection w api_key).
Proof.
  intros s. destruct (test_api_connection_run w api_key s) as (_ & E & _).
  rewrite E. eexists [_]. reflexivity.
Qed.

Lemma extends_get_collateral_composition (w : world) decode :
  extends_sent (Main.get_collateral_composition w decode).
Proof.
  unfold Main.get_collateral_composition, Main.print_header.
  apply extends_bind; [apply extends_keeps, sent_print | intros _].
  apply extends_bind; [apply extends_test_api_connection | intros ok].
  destruct (negb ok); [apply extends_keeps; sent_tac |].
  apply extends_try_except; [| intros e; apply extends_keeps; sent_tac].
  apply extends_bind; [apply extends_get_defi_positions | intros l].
  apply extends_bind; [apply extends_get_defi_summary | intros sm].
  apply extends_keeps.
  apply sent_bind; [apply sent_print_defi_report | intros _].
  apply sent_bind; [apply sent_get_claimable_positions | intros cl].
  apply sent_bind; [apply sent_print_claimable_report | intros _].
  apply sent_ret.
Qed.

(** The [try] block of [main] begins with the lvlUSD [totalSupply]
    call and only adds requests. *)
Lemma sections_start (w : world) decode strtod slvl (s : state) :
  extends_sent slvl ->
  exists later,
    sent (snd (Main.sections w decode strtod slvl s))
    = (later ++ EthCall lvlUSD_contract totalSupply :: sent s)%list.
Proof.
  intros Hslvl.
  unfold Main.sections, Main.get_supply_info, Main.print_header.
  unfold bind at 1. unfold bind at 1, print at 1. unfold bind at 1, call at 1.
  set (s1 := record_request (EthCall lvlUSD_contract totalSupply) _).
  change (EthCall lvlUSD_contract totalSupply :: sent s) with (sent s1).
  destruct (eth_call w _ lvlUSD_contract totalSupply) as [raw_l | e];
    [| exists []; reflexivity].
  match goal with
  | |- context [snd (let (r, s') := ?m s1 in _)] =>
      assert (Hm : extends_sent m)
  end.
  { repeat (apply extends_bind;
            [ first [apply extends_call | apply extends_keeps; sent_tac] | intros ? ]).
    apply extends_keeps; sent_tac. }
  match goal with
  | |- context [snd (let (r, s') := ?m s1 in match r with
                                               | Ok a => @?k a s'
                                               | Raise e => _ end)] =>
      assert (Hk : forall a, extends_sent (k a))
  end.
  { intros a. cbv beta.
    apply extends_bind; [apply extends_get_collateral_composition | intros _].
    apply extends_bind.
    { unfold Main.get_aUSDC_situation, Main.print_header.
      repeat (apply extends_bind;
              [ first [apply extends_call | apply extends_keeps; sent_tac]
              | intros ? ]).
      apply extends_keeps; sent_tac. }
    intros _.
    apply extends_bind; [apply extends_situation | intros _].
    apply extends_bind.
    { unfold Main.get_curve_pools, Main.print_header.
      repeat (apply extends_bind;
              [ first [apply extends_get_token_balances
                      | apply extends_keeps, sent_print]
              | intros _ ]).
      apply extends_get_token_balances. }
    intros _.
    apply extends_bind; [apply extends_situation | intros _].
    exact Hslvl. }
  destruct (Hm s1) as (l1 & E1).
  match goal with
  | |- context [snd (let (r, s') := ?m s1 in _)] => destruct (m s1) as [[a | e] s2]
  end; cbn [snd] in E1.
  - destruct (Hk a s2) as (l2 & E2). cbv beta in E2. exists (l2 ++ l1)%list.
    rewrite E2, E1. apply app_assoc.
  - exists l1. exact E1.
Qed.

(** [main] runs its sections whatever [check_web3_connections]
    answers: the result of the check only adds a warning line.  The
    three connection checks are always followed by the [totalSupply]
    call of the lvlUSD contract, also when every connection is down;
    [main] never raises, and the last line it prints is the header of
    the end of the report.  (The report of
    [slvlusd_pendle_situation.py], a parameter here, is assumed only to
    add requests to the ones already made.) *)
Theorem failed_connection_checks_stop_nothing
        (w : world) decode strtod (slvl : M unit) (s : state) :
  extends_sent slvl ->
  let r := Main.main w decode strtod slvl s in
  fst r = Ok tt
  /\ (exists lines, out (snd r) = Header "REPORT COMPLETE" :: lines)
  /\ (exists later,
         sent (snd r)
         = (later
            ++ [ EthCall lvlUSD_contract totalSupply;
                 IsConnected web3_curve;
                 IsConnected web3_aUSDC;
                 IsConnected web3_supply ]
            ++ sent s)%list).
Proof.
  intros Hslvl r. subst r.
  destruct (Main.main w decode strtod slvl s) as [res st] eqn:R. cbn [fst snd].
  unfold Main.main, Main.print_header in R.
  unfold bind at 1, print at 1 in R. unfold bind at 1 in R.
  match type of R with
  | context [Main.check_web3_connections w ?s0] =>
      assert (C : exists b lines,
                 Main.check_web3_connections w s0
                 = (Ok b, {| sent := IsConnected web3_curve :: IsConnected web3_aUSDC
                                     :: IsConnected web3_supply :: sent s;
                             out := lines; hp := hp s |}))
  end.
  { unfold Main.check_web3_connections, Main.check_connection. run_monad.
    destruct (is_connected w (sent s) web3_supply); simpl;
      destruct (is_connected w (IsConnected web3_supply :: sent s) web3_aUSDC); simpl;
      destruct (is_connected w _ web3_curve); eexists; eexists; reflexivity. }
  destruct C as (b & lines & C). rewrite C in R. clear C.
  unfold bind at 1 in R.
  assert (W : exists lines',
             (if negb b
              then print (Text "Some Web3 connections failed - data may be incomplete")
              else ret tt)
               {| sent := IsConnected web3_curve :: IsConnected web3_aUSDC
                          :: IsConnected web3_supply :: sent s;
                  out := lines; hp := hp s |}
             = (Ok tt, {| sent := IsConnected web3_curve :: IsConnected web3_aUSDC
                                  :: IsConnected web3_supply :: sent s;
                          out := lines'; hp := hp s |})).
  { destruct b; eexists; reflexivity. }
  destruct W as (lines' & W). rewrite W in R. clear W.
  unfold bind at 1, try_except at 1 in R.
  match type of R with
  | context [Main.sections w decode strtod slvl ?s1] =>
      destruct (sections_start w decode strtod slvl s1 Hslvl) as (later & E);
      destruct (Main.sections w decode strtod slvl s1) as [[[] | e] [sn ou h]]
  end; cbn [snd sent] in E; subst sn;
    unfold print in R; injection R as <- <-;
    (split; [reflexivity |]); (split; [eexists; reflexivity |]);
    exists later; reflexivity.
Qed.

(** Every connection is down and every source fails: the report starts
    with the three checks and goes on to the first contract call. *)
Lemma failed_connection_checks_stop_nothing_witness :
  let w := {| eth_call := fun _ _ _ => Raise Web3Error;
              is_connected := fun _ _ => false;
              http_post := fun _ _ _ _ => Failed ConnectionError |} in
  let r := Main.main w Scenario.decode Scenario.strtod
                     Scenario.get_slvlusd_pendle_situation initial in
  fst r = Ok tt
  /\ (exists lines, out (snd r) = Header "REPORT COMPLETE" :: lines)
  /\ (exists later,
         sent (snd r)
         = (later
            ++ [ EthCall lvlUSD_contract totalSupply;
                 IsConnected web3_curve;
                 IsConnected web3_aUSDC;
                 IsConnected web3_supply ]
            ++ sent initial)%list).
Proof.
  intros w.
  apply (failed_connection_checks_stop_nothing
           w Scenario.decode Scenario.strtod
           Scenario.get_slvlusd_pendle_situation initial).
  intros s. exists []. reflexivity.
Defined.

(* ------------------------------------------------------------------ *)
(** * The positions built by [get_defi_positions] *)

Lemma SFeqb_refl (f : spec_float) : PyFloat.is_nan f = false -> SFeqb f f = true.
Proof.
  destruct f as [s | s | | s m e]; try discriminate; intros _;
    unfold SFeqb, SFcompare; try (destruct s; reflexivity).
  rewrite Z.compare_refl.
  change (PosDef.Pos.compare_cont Eq m m) with (Pos.compare m m).
  rewrite Pos.compare_refl. destruct s; reflexivity.
Qed.

(** A key that can be hashed is found again. *)
Lemma key_eq_refl (k : json) : Py.hashable k = true -> Py.key_eq k k = true.
Proof.
  destruct k; try discriminate; intros _; unfold Py.key_eq; simpl.
  - reflexivity.
  - destruct b; reflexivity.
  - apply Z.eqb_refl.
  - destruct (PyFloat.is_nan f) eqn:N; [apply orb_true_r |].
    rewrite (SFeqb_refl f N). reflexivity.
  - apply String.eqb_refl.
Qed.

Lemma in_dict_ok {V} (k : json) (d : list (json * V)) (b : bool) :
  Py.in_dict k d = Ok b ->
  Py.hashable k = true /\ b = existsb (fun kv => Py.key_eq (fst kv) k) d.
Proof.
  unfold Py.in_dict. destruct (Py.hashable k); [| discriminate].
  intros [= <-]. auto.
Qed.

(** [d[k].append(x)] files [x] in one group, and leaves the keys and the
    other groups as they are. *)
Lemma append_at_present (k x : json) (d : list (json * list json)) :
  existsb (fun kv => Py.key_eq (fst kv) k) d = true ->
  exists d1 k' xs d2,
    d = (d1 ++ (k', xs) :: d2)%list
    /\ Py.key_eq k' k = true
    /\ Py.append_at k x d = (d1 ++ (k', (xs ++ [x])%list) :: d2)%list.
Proof.
  induction d as [| [k0 xs0] d IH]; [discriminate |].
  cbn [existsb fst Py.append_at].
  destruct (Py.key_eq k0 k) eqn:E.
  - intros _. exists [], k0, xs0, d. auto.
  - cbn [orb]. intros H.
    destruct (IH H) as (d1 & k' & xs & d2 & -> & Hk & Ha).
    exists ((k0, xs0) :: d1), k', xs, d2. rewrite Ha. auto.
Qed.

Lemma append_at_new (k x : json) (d : list (json * list json)) :
  existsb (fun kv => Py.key_eq (fst kv) k) d = false ->
  Py.key_eq k k = true ->
  Py.append_at k x (d ++ [(k, [])]) = (d ++ [(k, [x])])%list.
Proof.
  intros H R. induction d as [| [k0 xs0] d IH].
  - cbn [app Py.append_at]. rewrite R. reflexivity.
  - cbn [existsb fst] in H. apply orb_false_iff in H. destruct H as [E H].
    cbn [app Py.append_at]. rewrite E, (IH H). reflexivity.
Qed.

Lemma ordered_pairs_snoc {A} (R : A -> A -> Prop) (l : list A) (x : A) :
  ForallOrdPairs R l -> Forall (fun a => R a x) l -> ForallOrdPairs R (l ++ [x]).
Proof.
  intros H. induction H as [| a l Ha H IH]; intros Hx; cbn [app].
  - constructor; constructor.
  - inversion Hx; subst. constructor; [| apply IH; assumption].
    apply Forall_app. split; [exact Ha | constructor; [assumption | constructor]].
Qed.

Lemma grouping_nil : grouping [] [].
Proof. repeat split; constructor. Qed.

(** One turn of the grouping loop. *)
Lemma group_token_grouping (done : list json) (d d' : list (json * list json))
      (token_info : json) :
  grouping done d ->
  Zapper.Raw.group_token d token_info = Ok d' ->
  grouping (done ++ [token_info]) d'.
Proof.
  intros (Hp & Hne & Hk & Hf). unfold Zapper.Raw.group_token.
  destruct (Py.get_default token_info "metaType" (JStr "UNKNOWN"))
    as [m |] eqn:Hm; [| discriminate].
  cbn [rbind].
  destruct (Py.in_dict m d) as [present |] eqn:Hin; [| discriminate].
  cbn [rbind]. apply in_dict_ok in Hin. destruct Hin as [Hh ->].
  destruct (existsb _ d) eqn:He; cbn [negb]; intros [= <-].
  - destruct (append_at_present m token_info d He)
      as (d1 & k' & xs & d2 & -> & Hkm & ->).
    unfold grouping. rewrite !map_app in *. cbn [map snd fst] in *.
    rewrite !concat_app in *. cbn [List.concat] in *.
    apply Forall_app in Hne. destruct Hne as [Hne1 Hne2].
    inversion Hne2 as [| ? ? _ Hne2']; subst.
    apply Forall_app in Hf. destruct Hf as [Hf1 Hf2].
    inversion Hf2 as [| ? ? Hxs Hf2']; subst. cbn [fst snd] in Hxs.
    repeat split.
    + eapply Permutation_trans; [| apply Permutation_app_tail; exact Hp].
      rewrite <- !app_assoc. apply Permutation_app_head.
      apply Permutation_app_head. cbn [app].
      apply Permutation_cons_append.
    + apply Forall_app. split; [exact Hne1 |].
      constructor; [| exact Hne2']. cbn [snd]. destruct xs; discriminate.
    + exact Hk.
    + apply Forall_app. split; [exact Hf1 |].
      constructor; [| exact Hf2']. cbn [fst snd].
      apply Forall_app. split; [exact Hxs |].
      constructor; [| constructor]. exists m. split; [exact Hm | exact Hkm].
  - rewrite (append_at_new m token_info d He (key_eq_refl m Hh)).
    unfold grouping. rewrite !map_app. cbn [map snd fst]. rewrite concat_app. cbn [List.concat app].
    repeat split.
    + apply Permutation_app_tail. exact Hp.
    + apply Forall_app. split; [exact Hne |].
      constructor; [discriminate | constructor].
    + apply ordered_pairs_snoc; [exact Hk |].
      apply Forall_forall. intros k Hin.
      apply in_map_iff in Hin. destruct Hin as (g & <- & Hg).
      destruct (Py.key_eq (fst g) m) eqn:E; [| reflexivity].
      assert (C : existsb (fun kv => Py.key_eq (fst kv) m) d = true)
        by (apply existsb_exists; exists g; auto).
      congruence.
    + apply Forall_app. split; [exact Hf |].
      constructor; [| constructor]. cbn [fst snd].
      constructor; [| constructor]. exists m.
      split; [exact Hm | apply key_eq_refl; exact Hh].
Qed.

Lemma group_tokens_grouping (tokens done : list json)
      (d d' : list (json * list json)) :
  grouping done d ->
  Zapper.Raw.group_tokens tokens d = Ok d' ->
  grouping (done ++ tokens) d'.
Proof.
  revert done d. induction tokens as [| t tokens IH]; intros done d Hg.
  - cbn [Zapper.Raw.group_tokens]. intros [= <-]. rewrite app_nil_r. exact Hg.
  - cbn [Zapper.Raw.group_tokens].
    destruct (Zapper.Raw.group_token d t) as [d1 |] eqn:E; [| discriminate].
    cbn [rbind]. intros H.
    replace (done ++ t :: tokens)%list with ((done ++ [t]) ++ tokens)%list
      by (rewrite <- app_assoc; reflexivity).
    apply (IH _ d1); [| exact H].
    apply (group_token_grouping done d d1 t Hg E).
Qed.

(** The loop of [get_defi_positions] that groups the tokens of a
    contract position by [metaType] partitions them: when it ends, the
    groups hold exactly the tokens of the position, each token in one
    group; no group is empty; no key of the dictionary equals an earlier
    key; every token is in the group of its own [metaType] (['UNKNOWN']
    when it has none); so a position with tokens yields at least one
    group and at most as many groups as it has tokens. *)
Theorem tokens_are_partitioned_by_meta_type
        (contract_tokens : list json) (meta_types : list (json * list json)) :
  Zapper.Raw.group_tokens contract_tokens [] = Ok meta_types ->
  Permutation (List.concat (map snd meta_types)) contract_tokens
  /\ Forall (fun g => snd g <> []) meta_types
  /\ ForallOrdPairs (fun k k' => Py.key_eq k k' = false) (map fst meta_types)
  /\ Forall (fun g => filed_under (fst g) (snd g)) meta_types
  /\ (List.length meta_types <= List.length contract_tokens)%nat
  /\ (contract_tokens <> [] -> meta_types <> []).
Proof.
  intros H.
  destruct (group_tokens_grouping contract_tokens [] [] meta_types grouping_nil H)
    as (Hp & Hne & Hk & Hf).
  cbn [app] in Hp.
  repeat split; try assumption.
  - rewrite <- (Permutation_length Hp). clear - Hne.
    induction Hne as [| g d Hg _ IH]; [apply le_n |].
    cbn [map List.concat List.length]. rewrite length_app.
    destruct (snd g); [congruence |]. cbn [List.length]. lia.
  - intros Hts ->. cbn [map List.concat] in Hp.
    apply Permutation_nil in Hp. congruence.
Qed.

(** Two tokens supplied and one claimable: two groups, in the order in
    which their keys were first met. *)
Lemma tokens_are_partitioned_by_meta_type_witness :
  Permutation
    [ Scenario.token "SUPPLIED" 5; Scenario.token "SUPPLIED" 11;
      Scenario.token "CLAIMABLE" 7 ]
    Scenario.three_tokens
  /\ ForallOrdPairs (fun k k' => Py.key_eq k k' = false)
                    [JStr "SUPPLIED"; JStr "CLAIMABLE"].
Proof.
  pose proof (tokens_are_partitioned_by_meta_type
                Scenario.three_tokens
                [ (JStr "SUPPLIED",
                   [Scenario.token "SUPPLIED" 5; Scenario.token "SUPPLIED" 11]);
                  (JStr "CLAIMABLE", [Scenario.token "CLAIMABLE" 7]) ]
                eq_refl) as (Hp & _ & Hk & _).
  split; [exact Hp | exact Hk].
Defined.

Lemma rmap_ok {A B} (f : A -> result B) (l : list A) (ys : list B) :
  rmap f l = Ok ys -> Forall2 (fun x y => f x = Ok y) l ys.
Proof.
  revert ys. induction l as [| x l IH]; intros ys; cbn [rmap].
  - intros [= <-]. constructor.
  - destruct (f x) as [y |] eqn:E; [| discriminate]. cbn [rbind].
    destruct (rmap f l) as [ys' |]; [| discriminate]. cbn [rbind].
    intros [= <-]. constructor; [exact E | apply IH; reflexivity].
Qed.

Lemma eq_str_true (j : json) (s : string) : Py.eq_str j s = true -> j = JStr s.
Proof.
  destruct j; try discriminate. cbn [Py.eq_str]. intros H.
  apply String.eqb_eq in H. congruence.
Qed.

Lemma key_eq_str (s : string) (m : json) :
  Py.key_eq (JStr s) m = true -> m = JStr s.
Proof.
  destruct m; try discriminate. cbn [Py.key_eq]. intros H.
  apply String.eqb_eq in H. congruence.
Qed.

(** The head of a chain of steps that ends well has ended well. *)
Ltac step H v E :=
  match type of H with
  | rbind ?r _ = Ok _ =>
      destruct r as [v |] eqn:E; [cbn [rbind] in H | discriminate H]
  end.

Lemma app_token_position_built (app_info network_info pos_node : json)
      (p : Zapper.Raw.DeFiPosition) :
  Zapper.Raw.app_token_position app_info network_info pos_node (JStr "app-token")
  = Ok p ->
  built p.
Proof.
  unfold Zapper.Raw.app_token_position. intros H.
  step H displayName E1. step H slug E2. step H name E3. step H chainId E4.
  step H balanceUSD E5. step H address E6. step H symbol_ E7. step H bal E8.
  step H label E9. step H tokens E10.
  injection H as <-. apply built_app_token.
  - unfold Zapper.Raw.__post_init__. cbn [Zapper.Raw.underlying_tokens].
    destruct tokens; reflexivity.
  - unfold Zapper.Raw.__post_init__. cbn [Zapper.Raw.underlying_tokens].
    destruct tokens; reflexivity.
  - unfold Zapper.Raw.__post_init__. cbn [Zapper.Raw.underlying_tokens].
    destruct tokens; discriminate.
Qed.

Lemma plain_position_built (app_info network_info pos_node : json)
      (p : Zapper.Raw.DeFiPosition) :
  Zapper.Raw.plain_position app_info network_info pos_node (JStr "contract-position")
  = Ok p ->
  built p.
Proof.
  unfold Zapper.Raw.plain_position. intros H.
  step H displayName E1. step H slug E2. step H name E3. step H chainId E4.
  step H balanceUSD E5. step H address E6. step H label E7.
  injection H as <-. apply built_plain; reflexivity.
Qed.

Lemma sum_balances_ints (tokens : list json) (acc : Z) (ns : list Z) (total : json) :
  map int_balance tokens = map Some ns ->
  Zapper.Raw.sum_balances tokens (JInt acc) = Ok total ->
  total = JInt (acc + fold_right Z.add 0 ns).
Proof.
  revert acc ns. induction tokens as [| token tokens IH]; intros acc ns Hm H.
  - destruct ns; [| discriminate Hm]. cbn in H. injection H as <-.
    cbn [fold_right]. f_equal. lia.
  - destruct ns as [| n ns]; [discriminate Hm |].
    cbn [map] in Hm. injection Hm as Hn Hm.
    cbn [Zapper.Raw.sum_balances] in H.
    unfold int_balance, balance_of in Hn.
    destruct (Py.subscript token "token") as [token_data | x];
      cbn [rbind] in Hn, H; [| discriminate Hn].
    destruct (Py.get_default token_data "balanceUSD" (JInt 0)) as [v | x];
      cbn [rbind] in H; [| discriminate Hn].
    destruct v as [| b | k | | | |]; try discriminate Hn; injection Hn as <-;
      cbn in H; rewrite (IH _ ns Hm H); cbn [fold_right]; f_equal; lia.
Qed.

Lemma sum_balances_total (tokens : list json) (total : json) :
  Zapper.Raw.sum_balances tokens (JInt 0) = Ok total -> total_of tokens total.
Proof.
  intros H. split.
  - intros ns Hm. apply (sum_balances_ints tokens 0 ns total Hm H).
  - intros token f -> Hf. cbn [Zapper.Raw.sum_balances] in H.
    unfold float_balance, balance_of in Hf.
    destruct (Py.subscript token "token") as [token_data | x];
      cbn [rbind] in Hf, H; [| discriminate Hf].
    destruct (Py.get_default token_data "balanceUSD" (JInt 0)) as [v | x];
      cbn [rbind] in H; [| discriminate Hf].
    destruct v; try discriminate Hf. injection Hf as ->.
    cbn in H. injection H as <-. reflexivity.
Qed.

Lemma grouped_position_built (app_info network_info pos_node : json)
      (group : json * list json) (p : Zapper.Raw.DeFiPosition) :
  snd group <> [] ->
  filed_under (fst group) (snd group) ->
  Zapper.Raw.grouped_position app_info network_info pos_node
                              (JStr "contract-position") group
  = Ok p ->
  built p.
Proof.
  destruct group as [meta_type tokens]. cbn [fst snd]. intros Hne Hf.
  unfold Zapper.Raw.grouped_position. intros H.
  step H total_usd E0.
  step H displayName E1. step H slug E2. step H name E3. step H chainId E4.
  step H address E6. step H label E7.
  injection H as <-.
  apply (built_grouped _ tokens); try reflexivity; try assumption.
  apply sum_balances_total. exact E0.
Qed.

Lemma positions_of_edge_built (app_info network_info pos_edge : json)
      (ps : list Zapper.Raw.DeFiPosition) :
  Zapper.Raw.positions_of_edge app_info network_info pos_edge = Ok ps ->
  Forall built ps.
Proof.
  unfold Zapper.Raw.positions_of_edge. intros H.
  step H pos_node E1. step H ptype E2.
  destruct (Py.eq_str ptype "app-token") eqn:Ha.
  { apply eq_str_true in Ha. subst ptype.
    step H p E3. injection H as <-.
    constructor; [| constructor].
    apply (app_token_position_built _ _ _ _ E3). }
  destruct (Py.eq_str ptype "contract-position") eqn:Hc.
  2:{ injection H as <-. constructor. }
  apply eq_str_true in Hc. subst ptype.
  step H contract_tokens E3.
  destruct (Py.truthy contract_tokens).
  - step H token_infos E4. step H meta_types E5.
    destruct (group_tokens_grouping token_infos [] [] meta_types grouping_nil E5)
      as (_ & Hne & _ & Hf).
    apply rmap_ok in H. clear E5.
    induction H as [| g p meta_types ps Hg _ IH]; [constructor |].
    inversion Hne; subst. inversion Hf; subst.
    constructor; [| apply IH; assumption].
    apply (grouped_position_built app_info network_info pos_node g p); assumption.
  - step H p E4. injection H as <-.
    constructor; [| constructor].
    apply (plain_position_built _ _ _ _ E4).
Qed.

Lemma concat_built (pss : list (list Zapper.Raw.DeFiPosition)) :
  Forall (Forall built) pss -> Forall built (List.concat pss).
Proof.
  intros H. induction H as [| ps pss Hps _ IH]; cbn [List.concat]; [constructor |].
  apply Forall_app. split; assumption.
Qed.

Lemma positions_of_app_built (app_edge : json) (ps : list Zapper.Raw.DeFiPosition) :
  Zapper.Raw.positions_of_app app_edge = Ok ps -> Forall built ps.
Proof.
  unfold Zapper.Raw.positions_of_app. intros H.
  step H app_node E1. step H app_info E2. step H network_info E3.
  step H position_balances E4. step H position_edges E5. step H pos_edges E6.
  step H appended E7. injection H as <-.
  apply concat_built. apply rmap_ok in E7. clear E6.
  induction E7 as [| e ps' l pss He _ IH]; [constructor |].
  constructor; [| exact IH].
  apply (positions_of_edge_built _ _ _ _ He).
Qed.

Lemma defi_positions_built (portfolio_data : json)
      (ps : list Zapper.Raw.DeFiPosition) :
  Zapper.Raw.defi_positions portfolio_data = Ok ps -> Forall built ps.
Proof.
  unfold Zapper.Raw.defi_positions. intros H.
  step H portfolio E1. step H app_balances E2. step H by_app E3.
  step H app_edges E4. step H edges E5. step H appended E6. injection H as <-.
  apply concat_built. apply rmap_ok in E6. clear E5.
  induction E6 as [| e ps' l pss He _ IH]; [constructor |].
  constructor; [| exact IH].
  apply (positions_of_app_built _ _ He).
Qed.

(** Every position that the loop of [get_defi_positions] appends is
    built in one of three ways, and nodes of any other type are left
    out.  So [underlying_tokens] is never [None]; a position has a
    [meta_type] other than [''] only when it stands for a group of the
    tokens of a contract position; and a position whose [meta_type] is
    ['CLAIMABLE'], the ones [get_claimable_positions] selects, is a
    contract position whose tokens, at least one, all have the
    [metaType] ['CLAIMABLE'], and whose [balance_usd] is the total of
    their [balanceUSD]: the [int] that is their sum when they are [int]s,
    and [0 + f] when there is one token, with the float [f]. *)
Theorem positions_are_built_in_three_ways
        (portfolio_data : json) (positions : list Zapper.Raw.DeFiPosition) :
  Zapper.Raw.defi_positions portfolio_data = Ok positions ->
  Forall built positions
  /\ Forall (fun p => Zapper.Raw.underlying_tokens p <> JNull) positions
  /\ Forall (fun p =>
               Zapper.Raw.position_type p = JStr "app-token"
               \/ Zapper.Raw.position_type p = JStr "contract-position")
            positions
  /\ Forall (fun p =>
               Zapper.Raw.meta_type p = JStr "CLAIMABLE" ->
               Zapper.Raw.position_type p = JStr "contract-position"
               /\ exists tokens,
                    Zapper.Raw.underlying_tokens p = JArr tokens
                    /\ tokens <> []
                    /\ Forall (fun token_info =>
                                 meta_type_of token_info = Ok (JStr "CLAIMABLE"))
                              tokens
                    /\ total_of tokens (Zapper.Raw.balance_usd p))
            positions.
Proof.
  intros H. pose proof (defi_positions_built portfolio_data positions H) as Hb.
  split; [exact Hb |].
  split; [| split]; eapply Forall_impl; try exact Hb; cbv beta; intros p Hp.
  - destruct Hp as [p _ _ Hu | p _ _ Hu | p tokens _ Hu _ _ _];
      [exact Hu | rewrite Hu; discriminate | rewrite Hu; discriminate].
  - destruct Hp as [p Ht _ _ | p Ht _ _ | p tokens Ht _ _ _ _]; auto.
  - intros Hm.
    destruct Hp as [p _ Hm' _ | p _ Hm' _ | p tokens Ht Hu Hne Hf Hsum];
      try (rewrite Hm' in Hm; discriminate Hm).
    split; [exact Ht |]. exists tokens.
    split; [exact Hu |]. split; [exact Hne |]. split; [| exact Hsum].
    rewrite Hm in Hf. eapply Forall_impl; [| exact Hf]. cbv beta.
    intros t (m & Hmt & Hk). apply key_eq_str in Hk. congruence.
Qed.

(** The payload with a contract position of three tokens. *)
Lemma positions_are_built_in_three_ways_witness :
  exists positions,
    Zapper.Raw.defi_positions Scenario.contract_payload = Ok positions
    /\ map Zapper.Raw.meta_type positions
       = [JStr "SUPPLIED"; JStr "CLAIMABLE"; JStr EmptyString]
    /\ map Zapper.Raw.balance_usd positions = [JInt 16; JInt 7; JInt 3]
    /\ Forall (fun p => Zapper.Raw.underlying_tokens p <> JNull) positions.
Proof.
  eexists. split; [vm_compute; reflexivity |].
  split; [reflexivity |]. split; [reflexivity |].
  refine (proj1 (proj2 (positions_are_built_in_three_ways
                          Scenario.contract_payload _ _))).
  vm_compute. reflexivity.
Defined.

(* ------------------------------------------------------------------ *)
(** * The script of [get_lvlUSD_portfolio_zapper.py] *)

(** [main] of the Zapper module never lets an exception out: it returns,
    or it exits with status 1 (the branch for a missing API key is dead,
    the key being set).  It sends the connection test and then the
    portfolio query of [get_collateral_composition], with the chain id 1
    given explicitly, up to three times: not at all when the test fails,
    in which case it exits with status 1 and creates no object; and it
    returns only after the three queries. *)
Theorem the_script_returns_or_exits_with_1
        (w : world) decode (s : state) :
  let r := Zapper.main w decode s in
  let failed :=
    connection_ok (http_post w (sent s) API_URL SchemaTest (Some 10)) = false in
  exists n,
    (n <= 3)%nat
    /\ sent (snd r)
       = (repeat portfolio_request n
          ++ HttpPost API_URL SchemaTest (Some 10) :: sent s)%list
    /\ ((fst r = Ok Zapper.Returned /\ n = 3%nat) \/ fst r = Ok (Zapper.Exit 1))
    /\ (n = 0%nat <-> failed)
    /\ (failed -> fst r = Ok (Zapper.Exit 1) /\ hp (snd r) = hp s).
Proof.
  intros r failed. subst r failed.
  destruct (Zapper.main w decode s) as [res st] eqn:R.
  cbn [fst snd].
  unfold Zapper.main in R.
  change (String.eqb Zapper.API_KEY "YOUR_API_KEY") with false in R.
  cbv iota in R. unfold bind at 1 in R.
  destruct (test_api_connection_run w Zapper.API_KEY s) as (Hr & Hs & Hh).
  destruct (Zapper.test_api_connection w Zapper.API_KEY s) as [res0 [sn ? h]].
  cbn [fst snd sent hp] in Hr, Hs, Hh. subst res0 sn h.
  destruct (connection_ok _); cbn [negb] in R.
  2:{ unfold bind, print, ret in R. injection R as <- <-.
      exists 0%nat. cbn [sent hp repeat app].
      repeat split; try lia; try reflexivity; auto. }
  cbv zeta in R. unfold try_except in R.
  unfold bind at 1, print at 1 in R. unfold bind at 1, print at 1 in R.
  cbn [sent out hp] in R. unfold bind at 1 in R.
  match type of R with
  | context [Zapper.get_defi_positions w decode ?a ?c ?s1] =>
      destruct (get_defi_positions_run w decode a c s1) as (warning & E)
  end.
  cbv zeta in E. cbn [sent out hp] in E. rewrite E in R. clear E.
  destruct (rbind (portfolio_result _) decode) as [positions | e].
  2:{ unfold bind, print, ret in R. injection R as <- <-.
      exists 1%nat. repeat split; try lia; try discriminate; auto. }
  unfold bind at 1 in R.
  match type of R with
  | context [Zapper.get_defi_summary w decode ?a ?c ?s2] =>
      pose proof (get_defi_summary_state w decode a c s2) as Hsm;
      destruct (Zapper.get_defi_summary w decode a c s2) as [[sm | e] [sn ? h]]
  end.
  2:{ cbv zeta in Hsm. cbn [fst snd sent hp is_Ok] in Hsm.
      unfold bind, print, ret in R. injection R as <- <-. cbn [sent].
      destruct Hsm as [(_ & Hs & _) | (Hs & _)]; subst sn.
      - exists 2%nat. repeat split; try lia; try discriminate; auto.
      - exists 3%nat. repeat split; try lia; try discriminate; auto. }
  cbv zeta in Hsm. cbn [fst snd sent hp is_Ok] in Hsm.
  destruct Hsm as [(C & _) | (Hs & _)]; [discriminate C |]. subst sn.
  exists 3%nat.
  assert (Hst : sent st
                = (repeat portfolio_request 3
                   ++ HttpPost API_URL SchemaTest (Some 10) :: sent s)%list
                /\ (res = Ok Zapper.Returned \/ res = Ok (Zapper.Exit 1))).
  { unfold bind at 1 in R.
    match type of R with
    | context [Zapper.print_defi_report sm ?l ?s3] =>
        pose proof (sent_print_defi_report sm l s3) as Hs4;
        destruct (Zapper.print_defi_report sm l s3) as [[[] | e] [sn ? h']]
    end; cbn [fst snd sent] in Hs4; subst sn.
    2:{ unfold bind, print, ret in R. injection R as <- <-. auto. }
    unfold bind at 1 in R.
    unfold Zapper.get_claimable_positions at 1, Zapper.new_list at 1 in R.
    cbn [sent out hp] in R.
    unfold bind at 1 in R.
    match type of R with
    | context [Zapper.print_claimable_report ?l ?s5] =>
        pose proof (sent_print_claimable_report l s5) as Hs6;
        destruct (Zapper.print_claimable_report l s5) as [[[] | e] [sn ? h'']]
    end; cbn [fst snd sent] in Hs6; subst sn.
    - unfold ret in R. injection R as <- <-. auto.
    - unfold bind, print, ret in R. injection R as <- <-. auto. }
  destruct Hst as [Hst Hres].
  split; [lia |]. split; [exact Hst |].
  split; [destruct Hres; auto |].
  split; [split; [lia | discriminate] | discriminate].
Qed.

(** Every HTTP request times out: the script exits after the test. *)
Lemma the_script_returns_or_exits_with_1_witness :
  fst (Zapper.main Scenario.offline Scenario.decode initial) = Ok (Zapper.Exit 1)
  /\ hp (snd (Zapper.main Scenario.offline Scenario.decode initial)) = hp initial.
Proof.
  destruct (the_script_returns_or_exits_with_1 Scenario.offline Scenario.decode initial)
    as (n & _ & _ & _ & _ & H).
  apply H. reflexivity.
Defined.

(* ------------------------------------------------------------------ *)
(** * Which reply each figure of the collateral composition comes from *)

(** The figures that [get_collateral_composition] returns do not come
    from one reply.  Of the three replies to the portfolio query, the
    first gives the positions of ['positions'] (and so of ['claimable']),
    the second gives ['total_value'], which is a number (a total that is
    [null] or a string makes the report raise and the function return
    [None]), and the third is decoded once more, for the counts of the
    report only; nothing compares them, so a portfolio that changes
    between the requests is returned with a total and a list of positions
    that belong to different moments. *)
Theorem the_total_and_the_positions_come_from_different_replies
        (w : world) decode (s s' : state) (c : Main.collateral) :
  Main.get_collateral_composition w decode s = (Ok (Some c), s') ->
  let reply history :=
    portfolio_result
      (http_post w history API_URL
                 (PortfolioV2 Main.wallet_addresses (requested_chain_ids None))
                 (Some 30)) in
  let h1 := HttpPost API_URL SchemaTest (Some 10) :: sent s in
  let h2 := portfolio_request :: h1 in
  let h3 := portfolio_request :: h2 in
  exists first second third positions,
    reply h1 = Ok first
    /\ reply h2 = Ok second
    /\ reply h3 = Ok third
    /\ decode first = Ok positions
    /\ Permutation positions
                   (deref (objs (hp s')) (list_at (hp s') (Main.positions c)))
    /\ rbind (Py.subscript second "portfolioV2") (fun a =>
       rbind (Py.subscript a "appBalances") (fun b =>
       Py.subscript b "totalBalanceUSD"))
       = Ok (Main.total_value c)
    /\ is_Ok (Py.format_f (Main.total_value c)) = true
    /\ is_Ok (decode third) = true.
Proof.
  intros R reply h1 h2 h3.
  pose proof (get_collateral_composition_some w decode s s' c R) as Hsome.
  cbv zeta in Hsome.
  destruct Hsome
    as (first & ps & second & third & ps'
        & (H1 & Hd) & (H2 & Htotal) & (H3 & Hd') & Hpos & _ & _ & Hheap & Hnum).
  exists first, second, third, ps.
  split; [exact H1 |]. split; [exact H2 |]. split; [exact H3 |].
  split; [exact Hd |].
  split; [| split; [exact Htotal | split; [exact Hnum | rewrite Hd'; reflexivity]]].
  rewrite Hheap, Hpos.
  set (k0 := List.length (lists (hp s))).
  assert (L1 : List.length (lists (with_positions (hp s) ps)) = S k0).
  { unfold with_positions. cbn [lists]. rewrite length_app. cbn [List.length].
    subst k0. lia. }
  assert (L2 : List.length (lists (with_positions (with_positions (hp s) ps) ps'))
               = S (S k0)).
  { unfold with_positions at 1. cbn [lists]. rewrite length_app, L1.
    cbn [List.length]. lia. }
  rewrite list_at_sorted_heap_other by lia.
  rewrite list_at_with_claimable_old by (rewrite lists_sorted_heap, L2; lia).
  rewrite list_at_sorted_heap.
  eapply Permutation_trans; [| apply deref_perm, sort_reverse_perm].
  rewrite list_at_with_positions_old by (rewrite L1; lia).
  rewrite list_at_with_positions_new.
  change (objs (sorted_heap _ _)) with ((objs (hp s) ++ ps) ++ ps')%list.
  rewrite deref_new. apply Permutation_refl.
Qed.

(** A portfolio that changes while it is asked for, with the loop of
    [get_defi_positions] as the decoder.  The first reply holds Aave
    (500), Morpho (20) and Pendle (980) and the total 1500; the second
    the total 1600, Aave having grown to 600; the third only Aave and
    Pendle.  The dictionary returned holds the total of the second reply
    with the three positions of the first, and the report has counted the
    two positions of the third. *)
Lemma the_total_and_the_positions_come_from_different_replies_witness :
  let r := Main.get_collateral_composition Scenario.moving Scenario.decode initial in
  exists c,
    fst r = Ok (Some c)
    /\ Main.total_value c = JInt 1600
    /\ Permutation Scenario.three_positions
                   (deref (objs (hp (snd r))) (list_at (hp (snd r)) (Main.positions c)))
    /\ In (Count "Total Positions:" 2) (out (snd r)).
Proof.
  intros r.
  destruct r as [[[c |] | e] s'] eqn:R; try (vm_compute in R; discriminate R).
  exists c. split; [reflexivity |].
  destruct (the_total_and_the_positions_come_from_different_replies
              Scenario.moving Scenario.decode initial s' c R)
    as (first & second & third & positions & H1 & H2 & _ & Hd & Hp & Ht & _ & _).
  cbn [fst snd].
  vm_compute in H1. injection H1 as <-.
  vm_compute in H2. injection H2 as <-.
  vm_compute in Hd. injection Hd as <-.
  split; [cbn in Ht; congruence |].
  split; [exact Hp |].
  assert (E : s' = snd (Main.get_collateral_composition
                          Scenario.moving Scenario.decode initial))
    by (fold r; rewrite R; reflexivity).
  rewrite E. vm_compute.
  repeat (first [left; reflexivity | right]).
Defined.

(* ------------------------------------------------------------------ *)
(** * The on-chain reads: a [uint256] always scales to a float *)

Lemma shr_1_m (mrs : shr_record) :
  0 <= shr_m mrs -> shr_m (shr_1 mrs) = shr_m mrs / 2.
Proof.
  destruct mrs as [m r s]. cbn [shr_m]. intros H.
  destruct m as [| p | p]; [reflexivity | | lia].
  destruct p as [p | p |]; cbn [shr_1 shr_m].
  - rewrite Pos2Z.inj_xI. symmetry.
    replace (2 * Zpos p + 1) with (1 + Zpos p * 2) by lia.
    rewrite Z.div_add by lia. reflexivity.
  - rewrite Pos2Z.inj_xO. symmetry.
    replace (2 * Zpos p) with (Zpos p * 2) by lia.
    apply Z.div_mul. lia.
  - reflexivity.
Qed.

Lemma shr_iter_m (n : nat) (mrs : shr_record) :
  0 <= shr_m mrs ->
  shr_m (Nat.iter n shr_1 mrs) = shr_m mrs / 2 ^ Z.of_nat n.
Proof.
  intros H. induction n as [| n IH].
  - simpl. rewrite Z.div_1_r. reflexivity.
  - rewrite Nat2Z.inj_succ, Z.pow_succ_r by lia.
    change (Nat.iter (S n) shr_1 mrs) with (shr_1 (Nat.iter n shr_1 mrs)).
    rewrite shr_1_m.
    + rewrite IH. rewrite Z.div_div by (try apply Z.pow_pos_nonneg; lia).
      f_equal. lia.
    + rewrite IH. apply Z.div_pos; [exact H | apply Z.pow_pos_nonneg; lia].
Qed.

Lemma shr_record_of_loc_m (m : Z) (l : location) : shr_m (shr_record_of_loc m l) = m.
Proof. destruct l as [| []]; reflexivity. Qed.

Lemma loc_of_shr_record_of_loc (m : Z) (l : location) :
  loc_of_shr_record (shr_record_of_loc m l) = l.
Proof. destruct l as [| []]; reflexivity. Qed.

(** The mantissa and the exponent that [shr_fexp] leaves, for a number
    in the range of the normal floats. *)
Lemma shr_fexp_m (m e : Z) (l : location) :
  0 < m -> -1021 <= Zdigits2 m + e ->
  let r := shr_fexp PyFloat.prec PyFloat.emax m e l in
  let n := Z.max 0 (Zdigits2 m - 53) in
  shr_m (fst r) = m / 2 ^ n /\ snd r = e + n.
Proof.
  intros Hm He. unfold shr_fexp. rewrite fexp_normal by exact He.
  replace (Zdigits2 m + e - 53 - e) with (Zdigits2 m - 53) by lia.
  unfold shr.
  destruct (Zdigits2 m - 53) as [| p | p] eqn:E; cbn [fst snd].
  - rewrite shr_record_of_loc_m. simpl. rewrite Z.div_1_r. split; lia.
  - rewrite iter_pos_nat, shr_iter_m by (rewrite shr_record_of_loc_m; lia).
    rewrite shr_record_of_loc_m, positive_nat_Z.
    replace (Z.max 0 (Zpos p)) with (Zpos p) by lia. split; reflexivity.
  - rewrite shr_record_of_loc_m.
    replace (Z.max 0 (Zneg p)) with 0 by lia. simpl. rewrite Z.div_1_r. split; lia.
Qed.

Lemma digits_mono (a b : Z) : 0 < a -> a <= b -> Zdigits2 a <= Zdigits2 b.
Proof.
  intros Ha Hab.
  destruct (digits_bounds a Ha) as (Pa & La & Ua).
  destruct (digits_bounds b ltac:(lia)) as (Pb & Lb & Ub).
  destruct (Z_lt_le_dec (Zdigits2 b) (Zdigits2 a)) as [C |]; [| assumption].
  assert (2 ^ Zdigits2 b <= 2 ^ (Zdigits2 a - 1)) by (apply Z.pow_le_mono_r; lia).
  lia.
Qed.

Lemma digits_le (a n : Z) : 0 < a -> 0 <= n -> a < 2 ^ n -> Zdigits2 a <= n.
Proof.
  intros Ha Hn H. destruct (digits_bounds a Ha) as (P & L & U).
  destruct (Z_lt_le_dec n (Zdigits2 a)) as [C |]; [| assumption].
  assert (2 ^ n <= 2 ^ (Zdigits2 a - 1)) by (apply Z.pow_le_mono_r; lia). lia.
Qed.

Lemma div_pow_bounds (m : Z) :
  0 < m ->
  let n := Z.max 0 (Zdigits2 m - 53) in
  1 <= m / 2 ^ n < 2 ^ 53
  /\ (0 < Zdigits2 m - 53 -> 2 ^ 52 <= m / 2 ^ n)
  /\ (Zdigits2 m - 53 <= 0 -> m / 2 ^ n = m).
Proof.
  intros Hm n. destruct (digits_bounds m Hm) as (P & L & U).
  destruct (Z_lt_le_dec 0 (Zdigits2 m - 53)) as [C | C].
  - assert (En : n = Zdigits2 m - 53) by (unfold n; lia).
    assert (Hp : 0 < 2 ^ n) by (apply Z.pow_pos_nonneg; lia).
    assert (Lo : 2 ^ 52 <= m / 2 ^ n).
    { apply Z.div_le_lower_bound; [exact Hp |].
      rewrite <- Z.pow_add_r by lia.
      replace (n + 52) with (Zdigits2 m - 1) by lia. exact L. }
    assert (Hi : m / 2 ^ n < 2 ^ 53).
    { apply Z.div_lt_upper_bound; [exact Hp |].
      rewrite <- Z.pow_add_r by lia.
      replace (n + 53) with (Zdigits2 m) by lia. exact U. }
    split; [| split; [intros _; exact Lo | lia]].
    split; [| exact Hi].
    assert (0 < 2 ^ 52) by (apply Z.pow_pos_nonneg; lia). lia.
  - assert (En : n = 0) by (unfold n; lia). rewrite En.
    change (2 ^ 0) with 1. rewrite Z.div_1_r.
    split; [| split; [lia | reflexivity]].
    split; [lia |].
    assert (2 ^ Zdigits2 m <= 2 ^ 53) by (apply Z.pow_le_mono_r; lia). lia.
Qed.

Lemma round_nearest_even_bounds (m : Z) (l : location) :
  m <= round_nearest_even m l <= m + 1.
Proof.
  destruct l as [| []]; cbn [round_nearest_even]; try lia.
  destruct (Z.even m); lia.
Qed.

(** A positive number in the range of the normal floats rounds to a
    finite float that is not zero. *)
Lemma round_finite (sx : bool) (q e : Z) (l : location) :
  0 < q -> -1021 <= Zdigits2 q + e <= 1023 -> e <= 970 ->
  exists m e', binary_round_aux PyFloat.prec PyFloat.emax sx q e l = S754_finite sx m e'.
Proof.
  intros Hq [Hlo Hhi] He.
  unfold binary_round_aux.
  pose proof (shr_fexp_m q e l Hq Hlo) as H1. cbv zeta in H1.
  destruct (shr_fexp PyFloat.prec PyFloat.emax q e l) as [mrs' e1].
  cbn [fst snd] in H1. destruct H1 as [Hm1 He1].
  destruct (div_pow_bounds q Hq) as ([B1 B2] & B3 & B4). cbv zeta in *.
  rewrite <- Hm1 in B1, B2, B3, B4.
  set (m1 := shr_m mrs') in *.
  pose proof (round_nearest_even_bounds m1 (loc_of_shr_record mrs')) as Hr.
  set (m2 := round_nearest_even m1 (loc_of_shr_record mrs')) in *.
  assert (Hm2 : 0 < m2) by lia.
  assert (Hd2 : Zdigits2 m2 <= 54).
  { apply digits_le; [exact Hm2 | lia |].
    change (2 ^ 54) with (2 * 2 ^ 53). lia. }
  assert (Hd2lo : Zdigits2 q + e <= Zdigits2 m2 + e1).
  { destruct (Z_lt_le_dec 0 (Zdigits2 q - 53)) as [C | C].
    - assert (2 ^ 52 <= m2) by (specialize (B3 C); lia).
      assert (53 <= Zdigits2 m2).
      { pose proof (digits_mono (2 ^ 52) m2 ltac:(reflexivity) H) as D.
        change (Zdigits2 (2 ^ 52)) with 53 in D. exact D. }
      lia.
    - assert (m2 >= q) by (rewrite <- (B4 C); lia).
      pose proof (digits_mono q m2 Hq ltac:(lia)). lia. }
  pose proof (shr_fexp_m m2 e1 loc_Exact Hm2 ltac:(lia)) as H2. cbv zeta in H2.
  destruct (shr_fexp PyFloat.prec PyFloat.emax m2 e1 loc_Exact) as [mrs'' e2].
  cbn [fst snd] in H2. destruct H2 as [Hm3 He2].
  destruct (div_pow_bounds m2 Hm2) as ([C1 C2] & _ & _). cbv zeta in *.
  rewrite <- Hm3 in C1, C2.
  destruct (shr_m mrs'') as [| m |]; try lia.
  exists m, e2.
  assert (E : (e2 <=? PyFloat.emax - PyFloat.prec) = true).
  { apply Z.leb_le. unfold PyFloat.emax, PyFloat.prec. lia. }
  rewrite E. reflexivity.
Qed.

(** The quotient of two positive integers of moderate size is a finite,
    positive float: the division neither overflows nor underflows to
    zero. *)
Lemma int_truediv_positive (a b : Z) :
  0 < a -> 0 < b -> Zdigits2 a <= 1000 -> Zdigits2 b <= 900 ->
  exists m e, PyFloat.int_truediv a b = Ok (S754_finite false m e).
Proof.
  intros Ha Hb Hda Hdb.
  destruct (digits_bounds a Ha) as (Pa & La & Ua).
  destruct (digits_bounds b Hb) as (Pb & Lb & Ub).
  unfold PyFloat.int_truediv.
  destruct b as [| pb | pb]; try lia. destruct a as [| pa | pa]; try lia.
  cbn [Z.abs Z.ltb Z.compare xorb].
  unfold SFdiv_core_binary.
  set (d1 := Zdigits2 (Zpos pa)) in *. set (d2 := Zdigits2 (Zpos pb)) in *.
  replace (d1 + 0 - (d2 + 0)) with (d1 - d2) by lia.
  rewrite fexp_normal by lia.
  change (0 - 0) with 0.
  set (e' := Z.min (d1 - d2 - 53) 0).
  set (m' := match 0 - e' with
             | 0 => Zpos pa
             | Zpos _ => Z.shiftl (Zpos pa) (0 - e')
             | Zneg _ => 0
             end).
  assert (Hm' : m' = Zpos pa * 2 ^ (- e')).
  { unfold m'. replace (0 - e') with (- e') by lia.
    destruct (- e') as [| p | p] eqn:E; [| | lia].
    - simpl. lia.
    - rewrite Z.shiftl_mul_pow2 by lia. reflexivity. }
  assert (Hs : 0 <= - e') by (unfold e'; lia).
  assert (Hp : 0 < 2 ^ (- e')) by (apply Z.pow_pos_nonneg; lia).
  assert (Hbig : Zpos pb <= m').
  { rewrite Hm'.
    assert (2 ^ d2 <= 2 ^ (d1 - 1) * 2 ^ (- e')).
    { rewrite <- Z.pow_add_r by lia. apply Z.pow_le_mono_r; [lia |].
      unfold e'. lia. }
    assert (2 ^ (d1 - 1) * 2 ^ (- e') <= Zpos pa * 2 ^ (- e'))
      by (apply Z.mul_le_mono_nonneg_r; lia).
    lia. }
  pose proof (Z.div_eucl_eq m' (Zpos pb) ltac:(lia)) as Hdiv.
  pose proof (Z.mod_pos_bound m' (Zpos pb) ltac:(lia)) as Hmod.
  unfold Z.modulo in Hmod.
  destruct (Z.div_eucl m' (Zpos pb)) as [q r]. cbn [snd] in Hmod.
  assert (Hq : 0 < q) by nia.
  assert (Hqm : q <= m') by nia.
  assert (Hdq : Zdigits2 q <= d1 - e').
  { eapply Z.le_trans; [apply (digits_mono q m' Hq Hqm) |].
    rewrite Hm', digits_shift by lia. fold d1. lia. }
  destruct (digits_bounds q Hq) as (Pq & _ & _).
  destruct (round_finite false q e' (new_location (Zpos pb) r) Hq) as (m & e2 & E).
  - unfold e' in *. lia.
  - unfold e'. lia.
  - exists m, e2. rewrite E. reflexivity.
Qed.

(** A [uint256] scaled by [10**d], for [d] up to 18, is a float: zero for
    zero, finite and positive otherwise; the division never raises. *)
Lemma scale_uint256 (n d : Z) :
  0 <= n < 2 ^ 256 -> 0 <= d <= 18 ->
  exists f,
    scale (Uint n) d = Ok f
    /\ PyFloat.is_nan f = false
    /\ PyFloat.is_zero f = (n =? 0).
Proof.
  intros [Hn Hn'] Hd. unfold scale.
  assert (Hb : 0 < 10 ^ d) by (apply Z.pow_pos_nonneg; lia).
  assert (Hb' : 10 ^ d < 2 ^ 60).
  { assert (10 ^ d <= 10 ^ 18) by (apply Z.pow_le_mono_r; lia).
    assert (10 ^ 18 < 2 ^ 60) by reflexivity. lia. }
  destruct (Z.eq_dec n 0) as [-> | Hnz].
  - exists (S754_zero false). unfold PyFloat.int_truediv.
    destruct (10 ^ d) as [| p | p]; try lia. repeat split.
  - destruct (int_truediv_positive n (10 ^ d)) as (m & e & E); try lia.
    + apply digits_le; lia.
    + apply digits_le; lia.
    + exists (S754_finite false m e). rewrite E.
      repeat split. symmetry. apply Z.eqb_neq. exact Hnz.
Qed.

(* ------------------------------------------------------------------ *)
(** * When the sections that read the chain can fail *)

(** [get_supply_info] on two supplies read and scaled. *)
Lemma get_supply_info_run (w : world) (s : state) (raw_l raw_s : abi_value)
      (l sl : PyFloat.float) :
  eth_call w (sent s) lvlUSD_contract totalSupply = Ok raw_l ->
  scale raw_l 18 = Ok l ->
  eth_call w (EthCall lvlUSD_contract totalSupply :: sent s)
           slvlUSD_contract totalSupply = Ok raw_s ->
  scale raw_s 18 = Ok sl ->
  fst (Main.get_supply_info w s)
  = rbind (Supply.percentage sl l)
          (fun pct => Ok {| Main.lvlUSD_supply := l;
                            Main.slvlUSD_supply := sl;
                            Main.percentage := pct |}).
Proof.
  intros Hl Hsl Hs Hss.
  unfold Main.get_supply_info, Main.print_header.
  unfold bind, print, call, lift, ret, record_request. cbn [sent out hp].
  rewrite Hl, Hsl. cbn [sent]. rewrite Hs, Hss.
  destruct (Supply.percentage sl l); reflexivity.
Qed.

(** When the node answers the two [totalSupply] calls with [uint256]
    values, [get_supply_info] raises in one case only: the lvlUSD supply
    is zero, and the exception is [ZeroDivisionError].  For every other
    pair of supplies, however large or small, the two divisions by
    [10**18] and the percentage are computed and the figures returned:
    no overflow, and no supply so small that it scales to zero. *)
Theorem supply_info_fails_only_on_a_zero_supply
        (w : world) (s : state) (lvl slvl : Z) :
  eth_call w (sent s) lvlUSD_contract totalSupply = Ok (Uint lvl) ->
  eth_call w (EthCall lvlUSD_contract totalSupply :: sent s)
           slvlUSD_contract totalSupply = Ok (Uint slvl) ->
  0 <= lvl < 2 ^ 256 ->
  0 <= slvl < 2 ^ 256 ->
  (lvl = 0 -> fst (Main.get_supply_info w s) = Raise ZeroDivisionError)
  /\ (0 < lvl ->
      exists info,
        fst (Main.get_supply_info w s) = Ok info
        /\ scale (Uint lvl) 18 = Ok (Main.lvlUSD_supply info)
        /\ scale (Uint slvl) 18 = Ok (Main.slvlUSD_supply info)
        /\ PyFloat.is_zero (Main.lvlUSD_supply info) = false
        /\ PyFloat.is_zero (Main.slvlUSD_supply info) = (slvl =? 0)).
Proof.
  intros Hl Hs Rl Rs.
  destruct (scale_uint256 lvl 18 Rl ltac:(lia)) as (l & El & Nl & Zl).
  destruct (scale_uint256 slvl 18 Rs ltac:(lia)) as (sl & Es & Ns & Zs).
  rewrite (get_supply_info_run w s _ _ l sl Hl El Hs Es).
  split.
  - intros ->. rewrite percentage_zero; [reflexivity | exact Zl].
  - intros Hpos.
    assert (Z : PyFloat.is_zero l = false)
      by (rewrite Zl; apply Z.eqb_neq; lia).
    rewrite (percentage_nonzero sl l Z). cbn [rbind].
    eexists. split; [reflexivity |]. cbn [Main.lvlUSD_supply Main.slvlUSD_supply].
    auto.
Qed.

(** [get_aUSDC_situation] on two figures read and scaled. *)
Lemma get_aUSDC_situation_run (w : world) (s : state) (raw_s raw_b : abi_value)
      (sup bor : PyFloat.float) :
  eth_call w (sent s) aEthUSDC_contract totalSupply = Ok raw_s ->
  scale raw_s 6 = Ok sup ->
  eth_call w (EthCall aEthUSDC_contract totalSupply :: sent s)
           variableDebtEthUSDC_contract totalSupply = Ok raw_b ->
  scale raw_b 6 = Ok bor ->
  fst (Main.get_aUSDC_situation w s)
  = Ok {| Main.total_supply := sup;
          Main.total_borrow := bor;
          Main.available_liquidity := PyFloat.sub sup bor |}.
Proof.
  intros Hs Hsup Hb Hbor.
  unfold Main.get_aUSDC_situation, Main.print_header.
  unfold bind, print, call, lift, ret, record_request. cbn [sent out hp].
  rewrite Hs, Hsup. cbn [sent]. rewrite Hb, Hbor. reflexivity.
Qed.

(** [get_aUSDC_situation] returns whenever the node answers its two
    calls with [uint256] values: the divisions by [10**6] cannot fail,
    and the available liquidity is the difference of the two quotients,
    computed on floats (it is negative when the debt exceeds the
    supply, and nothing then raises or is reported). *)
Theorem aUSDC_situation_returns_on_every_answer
        (w : world) (s : state) (supply debt : Z) :
  eth_call w (sent s) aEthUSDC_contract totalSupply = Ok (Uint supply) ->
  eth_call w (EthCall aEthUSDC_contract totalSupply :: sent s)
           variableDebtEthUSDC_contract totalSupply = Ok (Uint debt) ->
  0 <= supply < 2 ^ 256 ->
  0 <= debt < 2 ^ 256 ->
  exists info,
    fst (Main.get_aUSDC_situation w s) = Ok info
    /\ scale (Uint supply) 6 = Ok (Main.total_supply info)
    /\ scale (Uint debt) 6 = Ok (Main.total_borrow info)
    /\ Main.available_liquidity info
       = PyFloat.sub (Main.total_supply info) (Main.total_borrow info)
    /\ PyFloat.is_nan (Main.total_supply info) = false
    /\ PyFloat.is_nan (Main.total_borrow info) = false.
Proof.
  intros Hs Hb Rs Rb.
  destruct (scale_uint256 supply 6 Rs ltac:(lia)) as (sup & Es & Ns & _).
  destruct (scale_uint256 debt 6 Rb ltac:(lia)) as (bor & Eb & Nb & _).
  rewrite (get_aUSDC_situation_run w s _ _ sup bor Hs Es Hb Eb).
  eexists. split; [reflexivity |].
  cbn [Main.total_supply Main.total_borrow Main.available_liquidity]. auto.
Qed.

(** The supplies of the healthy world: 1,000,000 and 250,000 tokens. *)
Lemma supply_info_fails_only_on_a_zero_supply_witness :
  exists info,
    fst (Main.get_supply_info Scenario.healthy initial) = Ok info
    /\ scale (Uint (10 ^ 24)) 18 = Ok (Main.lvlUSD_supply info)
    /\ scale (Uint (25 * 10 ^ 22)) 18 = Ok (Main.slvlUSD_supply info)
    /\ PyFloat.is_zero (Main.lvlUSD_supply info) = false
    /\ PyFloat.is_zero (Main.slvlUSD_supply info) = false.
Proof.
  assert (Rl : 0 <= 10 ^ 24 < 2 ^ 256)
    by (split; vm_compute; [discriminate | reflexivity]).
  assert (Rs : 0 <= 25 * 10 ^ 22 < 2 ^ 256)
    by (split; vm_compute; [discriminate | reflexivity]).
  apply (proj2 (supply_info_fails_only_on_a_zero_supply
                  Scenario.healthy initial (10 ^ 24) (25 * 10 ^ 22)
                  eq_refl eq_refl Rl Rs)).
  vm_compute. reflexivity.
Defined.

(** The aUSDC figures of the healthy world. *)
Lemma aUSDC_situation_returns_on_every_answer_witness :
  exists info,
    fst (Main.get_aUSDC_situation Scenario.healthy initial) = Ok info
    /\ scale (Uint (5 * 10 ^ 12)) 6 = Ok (Main.total_supply info)
    /\ scale (Uint (3 * 10 ^ 12)) 6 = Ok (Main.total_borrow info)
    /\ Main.available_liquidity info
       = PyFloat.sub (Main.total_supply info) (Main.total_borrow info)
    /\ PyFloat.is_nan (Main.total_supply info) = false
    /\ PyFloat.is_nan (Main.total_borrow info) = false.
Proof.
  assert (Rs : 0 <= 5 * 10 ^ 12 < 2 ^ 256)
    by (split; vm_compute; [discriminate | reflexivity]).
  assert (Rb : 0 <= 3 * 10 ^ 12 < 2 ^ 256)
    by (split; vm_compute; [discriminate | reflexivity]).
  apply (aUSDC_situation_returns_on_every_answer
           Scenario.healthy initial (5 * 10 ^ 12) (3 * 10 ^ 12)
           eq_refl eq_refl Rs Rb).
Defined.

(** The report of a pool on balances that were read and scaled. *)
Lemma get_token_balances_run (w : world) (pool_contract : contract)
      (pool_name abi_type : string) (s : state)
      (raw : list abi_value) (x y : PyFloat.float) (reqs : list request) :
  (if String.eqb abi_type "get_balances" then
     exists bs b0 b1,
       eth_call w (sent s) pool_contract get_balances = Ok bs
       /\ Curve.item bs 0 = Ok b0 /\ scale b0 6 = Ok x
       /\ Curve.item bs 1 = Ok b1 /\ scale b1 18 = Ok y
       /\ raw = [bs]
       /\ reqs = [EthCall pool_contract get_balances]
   else
     exists b0 b1,
       eth_call w (sent s) pool_contract (balances 0) = Ok b0
       /\ eth_call w (EthCall pool_contract (balances 0) :: sent s)
                   pool_contract (balances 1) = Ok b1
       /\ scale b0 18 = Ok x /\ scale b1 18 = Ok y
       /\ raw = [b0; b1]
       /\ reqs = [EthCall pool_contract (balances 1);
                  EthCall pool_contract (balances 0)]) ->
  Curve.get_token_balances w pool_contract pool_name abi_type s
  = (Ok tt,
     {| sent := (reqs ++ sent s)%list;
        out := Amount (pool_name
                       ++ (if String.eqb pool_name "lvlUSD/USDC Pool"
                           then " USDC Balance:" else " slvlUSD Balance:")) y
               :: Amount (pool_name ++ " lvlUSD Balance:") x
               :: Raw (pool_name ++ " Token Balances:") raw :: out s;
        hp := hp s |}).
Proof.
  unfold Curve.get_token_balances, try_except.
  destruct (String.eqb abi_type "get_balances").
  - intros (bs & b0 & b1 & Hc & H0 & Hx & H1 & Hy & -> & ->).
    unfold bind at 1. unfold bind at 1. unfold call at 1. rewrite Hc.
    unfold bind at 1, lift at 1. rewrite H0.
    unfold bind at 1, lift at 1. rewrite Hx.
    unfold bind at 1, lift at 1. rewrite H1.
    unfold bind at 1, lift at 1. rewrite Hy.
    unfold ret at 1. cbv beta iota.
    unfold bind, print, record_request. cbn [sent out hp].
    destruct (String.eqb pool_name "lvlUSD/USDC Pool"); reflexivity.
  - intros (b0 & b1 & Hc0 & Hc1 & Hx & Hy & -> & ->).
    unfold bind at 1. unfold bind at 1. unfold call at 1. rewrite Hc0.
    unfold bind at 1, call at 1. unfold record_request at 1. cbn [sent].
    rewrite Hc1.
    unfold bind at 1, lift at 1. rewrite Hx.
    unfold bind at 1, lift at 1. rewrite Hy.
    unfold ret at 1. cbv beta iota.
    unfold bind, print, record_request. cbn [sent out hp].
    destruct (String.eqb pool_name "lvlUSD/USDC Pool"); reflexivity.
Qed.

(** The figures of [get_curve_pools].  For the lvlUSD/USDC pool the
    array returned by [get_balances()] is read: its first entry divided
    by [10**6] is printed as the lvlUSD balance and its second entry
    divided by [10**18] as the USDC balance.  For the lvlUSD/slvlUSD pool
    [balances(0)] and [balances(1)] are both divided by [10**18].  With
    [uint256] answers (and an array of two entries or more) neither
    report can fail: the three lines of each pool are printed, and no
    error line. *)
Theorem pools_are_reported_on_every_answer
        (w : world) (s : state) (b0 b1 : Z) :
  0 <= b0 < 2 ^ 256 ->
  0 <= b1 < 2 ^ 256 ->
  (forall rest,
      eth_call w (sent s) lvlusd_usdc_pool_contract get_balances
      = Ok (UintArray (b0 :: b1 :: rest)) ->
      exists x y,
        scale (Uint b0) 6 = Ok x
        /\ scale (Uint b1) 18 = Ok y
        /\ out (snd (Curve.get_token_balances w lvlusd_usdc_pool_contract
                                              "lvlUSD/USDC Pool" "get_balances" s))
           = Amount "lvlUSD/USDC Pool USDC Balance:" y
             :: Amount "lvlUSD/USDC Pool lvlUSD Balance:" x
             :: Raw "lvlUSD/USDC Pool Token Balances:" [UintArray (b0 :: b1 :: rest)]
             :: out s)
  /\ (eth_call w (sent s) lvlusd_slvlusd_pool_contract (balances 0) = Ok (Uint b0) ->
      eth_call w (EthCall lvlusd_slvlusd_pool_contract (balances 0) :: sent s)
               lvlusd_slvlusd_pool_contract (balances 1) = Ok (Uint b1) ->
      exists x y,
        scale (Uint b0) 18 = Ok x
        /\ scale (Uint b1) 18 = Ok y
        /\ out (snd (Curve.get_token_balances w lvlusd_slvlusd_pool_contract
                                              "lvlUSD/slvlUSD Pool" "balances" s))
           = Amount "lvlUSD/slvlUSD Pool slvlUSD Balance:" y
             :: Amount "lvlUSD/slvlUSD Pool lvlUSD Balance:" x
             :: Raw "lvlUSD/slvlUSD Pool Token Balances:" [Uint b0; Uint b1]
             :: out s).
Proof.
  intros R0 R1. split.
  - intros rest Hc.
    destruct (scale_uint256 b0 6 R0 ltac:(lia)) as (x & Ex & _).
    destruct (scale_uint256 b1 18 R1 ltac:(lia)) as (y & Ey & _).
    exists x, y. split; [exact Ex |]. split; [exact Ey |].
    rewrite (get_token_balances_run
               w lvlusd_usdc_pool_contract "lvlUSD/USDC Pool" "get_balances" s
               [UintArray (b0 :: b1 :: rest)] x y
               [EthCall lvlusd_usdc_pool_contract get_balances]).
    + reflexivity.
    + change (String.eqb "get_balances" "get_balances") with true. cbv iota.
      exists (UintArray (b0 :: b1 :: rest)), (Uint b0), (Uint b1).
      repeat split; assumption.
  - intros Hc0 Hc1.
    destruct (scale_uint256 b0 18 R0 ltac:(lia)) as (x & Ex & _).
    destruct (scale_uint256 b1 18 R1 ltac:(lia)) as (y & Ey & _).
    exists x, y. split; [exact Ex |]. split; [exact Ey |].
    rewrite (get_token_balances_run
               w lvlusd_slvlusd_pool_contract "lvlUSD/slvlUSD Pool" "balances" s
               [Uint b0; Uint b1] x y
               [ EthCall lvlusd_slvlusd_pool_contract (balances 1);
                 EthCall lvlusd_slvlusd_pool_contract (balances 0) ]).
    + reflexivity.
    + change (String.eqb "balances" "get_balances") with false. cbv iota.
      exists (Uint b0), (Uint b1). repeat split; assumption.
Qed.

(** The pools of the healthy world. *)
Lemma pools_are_reported_on_every_answer_witness :
  exists x y,
    scale (Uint (4 * 10 ^ 12)) 6 = Ok x
    /\ scale (Uint (6 * 10 ^ 24)) 18 = Ok y
    /\ out (snd (Curve.get_token_balances Scenario.healthy lvlusd_usdc_pool_contract
                                          "lvlUSD/USDC Pool" "get_balances" initial))
       = [ Amount "lvlUSD/USDC Pool USDC Balance:" y;
           Amount "lvlUSD/USDC Pool lvlUSD Balance:" x;
           Raw "lvlUSD/USDC Pool Token Balances:"
               [UintArray [4 * 10 ^ 12; 6 * 10 ^ 24]] ].
Proof.
  assert (R0 : 0 <= 4 * 10 ^ 12 < 2 ^ 256)
    by (split; vm_compute; [discriminate | reflexivity]).
  assert (R1 : 0 <= 6 * 10 ^ 24 < 2 ^ 256)
    by (split; vm_compute; [discriminate | reflexivity]).
  apply (proj1 (pools_are_reported_on_every_answer
                  Scenario.healthy initial (4 * 10 ^ 12) (6 * 10 ^ 24) R0 R1) []).
  reflexivity.
Defined.

(* ------------------------------------------------------------------ *)
(** * Every contract call of the sources is declared by the ABI *)

Lemma declared_keeps {A} (m : M A) : keeps_sent m -> calls_declared m.
Proof. intros H s. exists []. split; [apply H | reflexivity]. Qed.

Lemma declared_call (w : world) c f :
  in_abi c f = true -> calls_declared (call w c f).
Proof.
  intros H s. exists [EthCall c f].
  split; [reflexivity | cbn; rewrite H; reflexivity].
Qed.

Lemma declared_post (w : world) url q t : calls_declared (post w url q t).
Proof. intros s. exists [HttpPost url q t]. split; reflexivity. Qed.

Lemma declared_connected (w : world) h : calls_declared (connected w h).
Proof. intros s. exists [IsConnected h]. split; reflexivity. Qed.

Lemma declared_bind {A B} (m : M A) (k : A -> M B) :
  calls_declared m -> (forall a, calls_declared (k a)) -> calls_declared (bind m k).
Proof.
  intros Hm Hk s. unfold bind. destruct (Hm s) as (l1 & E1 & D1).
  destruct (m s) as [[a | e] s1]; simpl in *.
  - destruct (Hk a s1) as (l2 & E2 & D2). exists (l2 ++ l1)%list.
    rewrite E2, E1, forallb_app, D1, D2. split; [apply app_assoc | reflexivity].
  - exists l1. split; assumption.
Qed.

Lemma declared_try_except {A} (m : M A) (h : exn -> M A) :
  calls_declared m -> (forall e, calls_declared (h e)) ->
  calls_declared (try_except m h).
Proof.
  intros Hm Hh s. unfold try_except. destruct (Hm s) as (l1 & E1 & D1).
  destruct (m s) as [[a | e] s1]; simpl in *.
  - exists l1. split; assumption.
  - destruct (Hh e s1) as (l2 & E2 & D2). exists (l2 ++ l1)%list.
    rewrite E2, E1, forallb_app, D1, D2. split; [apply app_assoc | reflexivity].
Qed.

Lemma declared_for_each {A} (xs : list A) (body : A -> M unit) :
  (forall x, calls_declared (body x)) -> calls_declared (for_each xs body).
Proof.
  intros Hb. induction xs as [| x xs IH]; simpl.
  - apply declared_keeps, sent_ret.
  - apply declared_bind; [apply Hb | intros _; exact IH].
Qed.

(** A sequence of contract calls, lifted results and printed lines. *)
Ltac declared_tac :=
  repeat (apply declared_bind;
          [ first [ apply declared_call; reflexivity
                  | apply declared_connected
                  | apply declared_keeps; sent_tac ]
          | intros ? ]);
  first [ apply declared_call; reflexivity
        | apply declared_connected
        | apply declared_keeps; sent_tac ].

Lemma declared_pool_usdc (w : world) name :
  calls_declared
    (Curve.get_token_balances w lvlusd_usdc_pool_contract name "get_balances").
Proof.
  unfold Curve.get_token_balances.
  change (String.eqb "get_balances" "get_balances") with true. cbv iota.
  apply declared_try_except; [| intros e; apply declared_keeps; sent_tac].
  apply declared_bind; [declared_tac |].
  intros [[bs x] y]. apply declared_keeps. sent_tac.
Qed.

Lemma declared_pool_slvlusd (w : world) name :
  calls_declared
    (Curve.get_token_balances w lvlusd_slvlusd_pool_contract name "balances").
Proof.
  unfold Curve.get_token_balances.
  change (String.eqb "balances" "get_balances") with false. cbv iota.
  apply declared_try_except; [| intros e; apply declared_keeps; sent_tac].
  apply declared_bind; [declared_tac |].
  intros [[bs x] y]. apply declared_keeps. sent_tac.
Qed.

Lemma declared_situation (w : world) strtod banner markets :
  calls_declared (Morpho.situation w strtod banner markets).
Proof.
  intros s. unfold Morpho.situation. unfold bind, print. cbv beta iota.
  eexists. split.
  - apply (proj1 (report_loop_run w strtod markets
                    {| sent := sent s; out := Header banner :: out s; hp := hp s |})).
  - apply forallb_forall. intros r Hr. apply in_rev in Hr.
    apply in_map_iff in Hr. destruct Hr as (m & <- & _). reflexivity.
Qed.

Lemma declared_test_api_connection (w : world) api_key :
  calls_declared (Zapper.test_api_connection w api_key).
Proof.
  intros s. destruct (test_api_connection_run w api_key s) as (_ & E & _).
  rewrite E. eexists [_]. split; reflexivity.
Qed.

Lemma declared_get_defi_positions (w : world) decode addresses chain_ids :
  calls_declared (Zapper.get_defi_positions w decode addresses chain_ids).
Proof.
  intros s.
  destruct (get_defi_positions_run w decode addresses chain_ids s) as (warning & E).
  cbv zeta in E. rewrite E. eexists [_].
  destruct (rbind _ decode); split; reflexivity.
Qed.

Lemma declared_get_defi_summary (w : world) decode addresses chain_ids :
  calls_declared (Zapper.get_defi_summary w decode addresses chain_ids).
Proof.
  intros s.
  destruct (get_defi_summary_state w decode addresses chain_ids s)
    as [(_ & E & _) | (E & _)]; rewrite E.
  - eexists [_]. split; reflexivity.
  - eexists [_; _]. split; reflexivity.
Qed.

Lemma declared_portfolio_reports (w : world) decode addresses chain_ids {A} (a : A) :
  calls_declared
    (defi_positions <- Zapper.get_defi_positions w decode addresses chain_ids ;;
     summary <- Zapper.get_defi_summary w decode addresses chain_ids ;;
     Zapper.print_defi_report summary defi_positions ;;
     claimable_positions <- Zapper.get_claimable_positions defi_positions ;;
     Zapper.print_claimable_report claimable_positions ;;
     ret a).
Proof.
  apply declared_bind; [apply declared_get_defi_positions | intros l].
  apply declared_bind; [apply declared_get_defi_summary | intros sm].
  apply declared_keeps.
  apply sent_bind; [apply sent_print_defi_report | intros _].
  apply sent_bind; [apply sent_get_claimable_positions | intros cl].
  apply sent_bind; [apply sent_print_claimable_report | intros _].
  apply sent_ret.
Qed.

Lemma declared_get_collateral_composition (w : world) decode :
  calls_declared (Main.get_collateral_composition w decode).
Proof.
  unfold Main.get_collateral_composition, Main.print_header.
  apply declared_bind; [apply declared_keeps, sent_print | intros _].
  apply declared_bind; [apply declared_test_api_connection | intros ok].
  destruct (negb ok); [apply declared_keeps; sent_tac |].
  apply declared_try_except; [| intros e; apply declared_keeps; sent_tac].
  apply declared_bind; [apply declared_get_defi_positions | intros l].
  apply declared_bind; [apply declared_get_defi_summary | intros sm].
  apply declared_keeps.
  apply sent_bind; [apply sent_print_defi_report | intros _].
  apply sent_bind; [apply sent_get_claimable_positions | intros cl].
  apply sent_bind; [apply sent_print_claimable_report | intros _].
  apply sent_ret.
Qed.

(** The model of a contract call is the one of a call that [web3]
    sends to the node: the function called is declared by the ABI of the
    contract.  This is so at every contract call of the sources: the
    requests added by [main] of [main.py], by the import of the supply,
    aUSDC and Curve modules and by the script of the Zapper module hold no
    call of a function that its contract does not declare.  (The report of
    [slvlusd_pendle_situation.py], a parameter here, is assumed to do the
    same.) *)
Theorem every_contract_call_is_declared
        (w : world) decode strtod (slvl : M unit) :
  calls_declared slvl ->
  calls_declared (Main.main w decode strtod slvl)
  /\ calls_declared (Supply.module_body w)
  /\ calls_declared (AUSDC.module_body w)
  /\ calls_declared (Curve.module_body w)
  /\ calls_declared (Zapper.main w decode).
Proof.
  intros Hslvl. split; [| split; [| split; [| split]]].
  - unfold Main.main, Main.print_header.
    apply declared_bind; [apply declared_keeps, sent_print | intros _].
    apply declared_bind.
    { unfold Main.check_web3_connections, Main.check_connection.
      repeat (apply declared_bind;
              [ apply declared_bind; [apply declared_connected | intros ok];
                destruct (negb ok); apply declared_keeps; sent_tac
              | intros ? ]).
      apply declared_bind; [apply declared_connected | intros ok].
      destruct (negb ok); apply declared_keeps; sent_tac. }
    intros all_connected.
    apply declared_bind;
      [destruct (negb all_connected); apply declared_keeps; sent_tac | intros _].
    apply declared_bind; [| intros _; apply declared_keeps, sent_print].
    apply declared_try_except; [| intros e; apply declared_keeps, sent_print].
    unfold Main.sections.
    apply declared_bind.
    { unfold Main.get_supply_info, Main.print_header. declared_tac. }
    intros _.
    apply declared_bind; [apply declared_get_collateral_composition | intros _].
    apply declared_bind.
    { unfold Main.get_aUSDC_situation, Main.print_header. declared_tac. }
    intros _.
    apply declared_bind; [apply declared_situation | intros _].
    apply declared_bind.
    { unfold Main.get_curve_pools, Main.print_header.
      apply declared_bind; [apply declared_keeps, sent_print | intros _].
      apply declared_bind; [apply declared_keeps, sent_print | intros _].
      apply declared_bind; [apply declared_pool_usdc | intros _].
      apply declared_bind; [apply declared_keeps, sent_print | intros _].
      apply declared_pool_slvlusd. }
    intros _.
    apply declared_bind; [apply declared_situation | intros _].
    exact Hslvl.
  - unfold Supply.module_body. declared_tac.
  - unfold AUSDC.module_body. declared_tac.
  - unfold Curve.module_body.
    apply declared_bind; [apply declared_connected | intros ok].
    apply declared_bind; [destruct (negb ok); apply declared_keeps; sent_tac | intros _].
    apply declared_bind; [apply declared_pool_usdc | intros _].
    apply declared_pool_slvlusd.
  - unfold Zapper.main.
    change (String.eqb Zapper.API_KEY "YOUR_API_KEY") with false. cbv iota.
    apply declared_bind; [apply declared_test_api_connection | intros ok].
    destruct (negb ok); [apply declared_keeps; sent_tac |].
    cbv zeta.
    apply declared_try_except; [| intros e; apply declared_keeps; sent_tac].
    apply declared_bind; [apply declared_keeps, sent_print | intros _].
    apply declared_bind; [apply declared_keeps, sent_print | intros _].
    apply declared_portfolio_reports.
Qed.

(** The healthy world: the seven contract calls of [main] are declared. *)
Lemma every_contract_call_is_declared_witness :
  let requests :=
    sent (snd (Main.main Scenario.healthy Scenario.decode Scenario.strtod
                         Scenario.get_slvlusd_pendle_situation initial)) in
  forallb declared requests = true
  /\ List.length (filter (fun r => match r with EthCall _ _ => true | _ => false end)
                         requests)
     = 7%nat.
Proof.
  intros requests. split; [| vm_compute; reflexivity].
  assert (H : calls_declared Scenario.get_slvlusd_pendle_situation)
    by (apply declared_keeps, sent_print).
  destruct (proj1 (every_contract_call_is_declared
                     Scenario.healthy Scenario.decode Scenario.strtod
                     Scenario.get_slvlusd_pendle_situation H) initial)
    as (later & E & D).
  subst requests. rewrite E. cbn [sent initial]. rewrite app_nil_r. exact D.
Defined.

(* ------------------------------------------------------------------ *)
(** * [float] of an integer keeps its value and its sign *)

Lemma binary_round_aux_opp (m e : Z) (l : location) :
  binary_round_aux PyFloat.prec PyFloat.emax true m e l
  = SFopp (binary_round_aux PyFloat.prec PyFloat.emax false m e l).
Proof.
  unfold binary_round_aux.
  destruct (shr_fexp PyFloat.prec PyFloat.emax m e l) as [mrs' e'].
  destruct (shr_fexp PyFloat.prec PyFloat.emax _ e' loc_Exact) as [mrs'' e''].
  destruct (shr_m mrs''); try reflexivity.
  destruct (e'' <=? PyFloat.emax - PyFloat.prec); reflexivity.
Qed.

Lemma binary_round_opp (p : positive) (e : Z) :
  binary_round PyFloat.prec PyFloat.emax true p e
  = SFopp (binary_round PyFloat.prec PyFloat.emax false p e).
Proof.
  unfold binary_round.
  destruct (shl_align p e _) as [mz ez]. apply binary_round_aux_opp.
Qed.

Lemma is_exactly_opp (x : PyFloat.float) (a : Z) :
  is_exactly x a 1 = true -> is_exactly (SFopp x) (- a) 1 = true.
Proof.
  destruct x as [sx | sx | | sx m e]; cbn [SFopp is_exactly]; try discriminate.
  - intros H. apply Z.eqb_eq in H. apply Z.eqb_eq. lia.
  - assert (Hs : PyFloat.signed (negb sx) m = - PyFloat.signed sx m)
      by (destruct sx; reflexivity).
    rewrite Hs.
    destruct e as [| p | p]; intros H; apply Z.eqb_eq in H; apply Z.eqb_eq; lia.
Qed.

(** [float(n)] of an integer [n] with [-2^53 < n < 2^53], as the rates
    and the totals of the reports are converted, is the float of the
    value [n], with the sign of [n]: it is so for the conversion of a
    field of the Morpho response, for the fraction that the field
    delivers, and for the number that a format shows. *)
Theorem float_of_an_integer_is_exact
        (strtod : string -> option PyFloat.float) (n : Z) :
  - 2 ^ 53 < n < 2 ^ 53 ->
  exists x,
    Morpho.float_of strtod (JInt n) = Ok x
    /\ fraction strtod (JInt n) = Some x
    /\ Py.format_f (JInt n) = Ok x
    /\ is_exactly x n 1 = true.
Proof.
  intros Hn.
  assert (Pos : forall p, Zpos p < 2 ^ 53 ->
                  binary_round PyFloat.prec PyFloat.emax false p 0 = canon (Zpos p) 0).
  { intros p Hp.
    assert (Hu : 0 < Zpos p < 2 ^ 53) by lia.
    destruct (digits_le_53 _ Hu) as [P L].
    pose proof (of_int_canon (Zpos p) 0 Hu ltac:(lia) ltac:(lia)) as E.
    rewrite Z.pow_0_r, Z.mul_1_r in E.
    unfold PyFloat.of_int, binary_normalize in E.
    apply (f_equal (fun r => match r with Ok y => y | Raise _ => S754_nan end)) in E.
    destruct (binary_round PyFloat.prec PyFloat.emax false p 0);
      first [exact E | discriminate E]. }
  destruct n as [| p | p].
  - exists (S754_zero false). repeat split.
  - exists (canon (Zpos p) 0).
    assert (Hu : 0 < Zpos p < 2 ^ 53) by lia.
    pose proof (is_exactly_canon (Zpos p) 1 Hu) as X. rewrite Z.mul_1_r in X.
    cbn [Morpho.float_of Py.format_f fraction].
    unfold PyFloat.of_int, binary_normalize. rewrite (Pos p) by lia.
    repeat split. exact X.
  - exists (SFopp (canon (Zpos p) 0)).
    assert (Hu : 0 < Zpos p < 2 ^ 53) by lia.
    pose proof (is_exactly_canon (Zpos p) 1 Hu) as X. rewrite Z.mul_1_r in X.
    cbn [Morpho.float_of Py.format_f fraction].
    unfold PyFloat.of_int, binary_normalize.
    rewrite binary_round_opp, (Pos p) by lia.
    repeat split. apply (is_exactly_opp _ _ X).
Qed.

(** A rate of -1: the float -1.0. *)
Lemma float_of_an_integer_is_exact_witness :
  Morpho.float_of Scenario.strtod (JInt (-1))
  = Ok (S754_finite true 4503599627370496 (-52))
  /\ is_exactly (S754_finite true 4503599627370496 (-52)) (-1) 1 = true.
Proof.
  assert (H : - 2 ^ 53 < -1 < 2 ^ 53) by (split; reflexivity).
  destruct (float_of_an_integer_is_exact Scenario.strtod (-1) H) as (x & E & _ & _ & X).
  vm_compute in E. injection E as <-.
  split; [reflexivity | exact X].
Defined.

(* ------------------------------------------------------------------ *)
(** * The sort on a list that is a single run *)

(** A list in whose reversal no item is less than the item before it is
    left as it is by [sort(reverse=True)]: this is what the merge sort of
    CPython does with a single run, whatever the keys are, a NaN
    included. *)
Theorem a_single_run_is_left_as_it_is
        (A : Type) (key : A -> PyFloat.float) (l : list A) :
  single_run A key l -> PyFloat.sort_reverse key l = l.
Proof.
  unfold single_run, PyFloat.sort_reverse. intros H.
  assert (E : PyFloat.sort_ascending key (rev l) = rev l).
  { induction H as [| x r Hs IH Hd]; [reflexivity |].
    cbn [PyFloat.sort_ascending]. rewrite IH.
    destruct Hd as [| y r' Hy]; [reflexivity |].
    cbn [PyFloat.insert]. rewrite Hy. reflexivity. }
  rewrite E. apply rev_involutive.
Qed.

(** The balances 1.0, NaN and 2.0. *)
Lemma a_single_run_is_left_as_it_is_witness :
  PyFloat.sort_reverse (fun x : PyFloat.float => x)
                       [Scenario.num 1; S754_nan; Scenario.num 2]
  = [Scenario.num 1; S754_nan; Scenario.num 2].
Proof.
  apply (a_single_run_is_left_as_it_is PyFloat.float (fun x => x)).
  unfold single_run. cbn [rev app].
  repeat constructor.
Defined.
